(** * model_navigator.framework_api: pipeline construction, artifact paths,
      convert commands and sample utilities

    A shallow embedding of
    - [framework_api/utils.py]  (enums, [format_to_relative_model_path],
      [sample_to_tuple], [extract_sample], [_is_valid_io],
      [validate_sample_input], [parse_kwargs_to_cmd]),
    - [framework_api/commands/convert/tf.py]
      ([ConvertSavedModel2ONNX], [ConvertSavedModel2TFTRT]),
    - [framework_api/pipelines/pipeline_manager_pyt.py]
      ([TorchPipelineManager._get_pipeline]),
    followed by the properties proved about them. *)

From Stdlib Require Import String Ascii List Bool Arith Lia.
From stdpp Require Import gmap strings list fin_maps pretty.
Import ListNotations.

Set Warnings "-register-all".

Local Open Scope string_scope.
Local Open Scope list_scope.

(** ** Exceptions and results *)

(** The exception classes the embedded code raises.  Only the class is
    kept, and the message where it is a constant of the source. *)
Inductive exn : Type :=
| AttributeError                 (* attribute access on [None] or on a foreign object *)
| Exception_                     (* [raise Exception(...)] in [format_to_relative_model_path] *)
| RuntimeError (msg : string)    (* [raise RuntimeError("No GPUs available.")] *)
| UserError                      (* [framework_api.exceptions.UserError] *)
| FileExistsError                (* [Path.mkdir] over something that is not a directory *)
| NotADirectoryError             (* [Path.mkdir] below something that is not a directory *)
| ValueError                     (* [Path.relative_to] a path that is not a prefix *)
| UnboundLocalError              (* a local variable read before any assignment *)
| ExternalError.                 (* raised from inside an external tool invocation *)

Inductive result (A : Type) : Type :=
| Ok (a : A)
| Raise (e : exn).
Arguments Ok {A} a.
Arguments Raise {A} e.

Definition is_Ok {A} (r : result A) : bool :=
  match r with Ok _ => true | Raise _ => false end.

Definition is_Raise {A} (r : result A) : bool := negb (is_Ok r).

Definition rbind {A B} (r : result A) (k : A -> result B) : result B :=
  match r with
  | Ok a => k a
  | Raise e => Raise e
  end.

(** ** Enumerations of [utils.py] *)

(** [class Status(str, Parameter)] *)
Inductive Status : Type := OK | FAIL | NOOP | INITIALIZED | SKIPPED.

(** [class Framework(Parameter)] *)
Inductive Framework : Type := TF2 | PYT | Framework_ONNX | JAX.

(** [class Extension(Parameter)] *)
Inductive Extension : Type := Ext_ONNX | Ext_PT | Ext_SAVEDMODEL | Ext_TRT.

Definition Extension_value (e : Extension) : string :=
  match e with
  | Ext_ONNX => "onnx"
  | Ext_PT => "pt"
  | Ext_SAVEDMODEL => "savedmodel"
  | Ext_TRT => "plan"
  end.

(** [class JitType(Parameter)] *)
Inductive JitType : Type := SCRIPT | TRACE.

Definition JitType_value (j : JitType) : string :=
  match j with
  | SCRIPT => "script"
  | TRACE => "trace"
  end.

(** [class RuntimeProvider(str, Parameter)] *)
Inductive RuntimeProvider : Type :=
| RP_TRT | RP_TRT_EXEC | RP_CUDA | RP_CPU | RP_TF | RP_PYT.

Definition RuntimeProvider_value (p : RuntimeProvider) : string :=
  match p with
  | RP_TRT => "TensorrtExecutionProvider"
  | RP_TRT_EXEC => "TrtexecExecutionProvider"
  | RP_CUDA => "CUDAExecutionProvider"
  | RP_CPU => "CPUExecutionProvider"
  | RP_TF => "TensorFlowExecutionProvider"
  | RP_PYT => "PyTorchExecutionProvider"
  end.

(** [model_navigator.model.Format]: the members the sources name.  The
    enum itself is declared outside the embedded files, so the value of a
    member is a parameter of the definitions that print it
    ([Format_value] below). *)
Inductive Format : Type :=
| ONNX | TORCHSCRIPT | TORCH_TRT | TF_SAVEDMODEL | TF_TRT | TENSORRT.

Global Instance Format_eq_dec : EqDecision Format.
Proof. solve_decision. Defined.

Global Instance JitType_eq_dec : EqDecision JitType.
Proof. solve_decision. Defined.

Global Instance Status_eq_dec : EqDecision Status.
Proof. solve_decision. Defined.

Global Instance Framework_eq_dec : EqDecision Framework.
Proof. solve_decision. Defined.

(** [model_navigator.converter.config.TensorRTPrecision] is declared
    outside the embedded files as well; a member is represented by the
    string its [.value] holds.  Enum members are truthy, so an
    [Optional[TensorRTPrecision]] is falsy exactly when it is [None]. *)
Record TensorRTPrecision : Type := { precision_value : string }.

Global Instance TensorRTPrecision_eq_dec : EqDecision TensorRTPrecision.
Proof. solve_decision. Defined.

(** ** Paths *)

(** A [pathlib.Path] is kept as the list of its segments.  [Path(s)] for
    a plain name [s] is the one-segment path, and [p / q] appends the
    segments of the relative path [q] to [p]. *)
Abbreviation Path := (list string).

Definition Path_of_str (s : string) : Path := [s].

Definition path_join (p q : Path) : Path := p ++ q.

Infix "//" := path_join (at level 40, left associativity).

(** [Path.parent]: the path without its last segment. *)
Definition parent (p : Path) : Path := removelast p.

(** [Path.as_posix] *)
Definition as_posix (p : Path) : string := String.concat "/" p.

(** [is_prefix base p]: the segments of [base] start [p]. *)
Fixpoint is_prefix (base p : Path) : bool :=
  match base, p with
  | [], _ => true
  | b :: base', x :: p' => bool_decide (b = x) && is_prefix base' p'
  | _ :: _, [] => false
  end.

(** [p.relative_to(base)] *)
Definition relative_to (p base : Path) : result Path :=
  if is_prefix base p then Ok (drop (length base) p) else Raise ValueError.

(** ** ArtifactPathResolver: [format_to_relative_model_path] *)

(** Truth value of an [Optional[<enum>]]: [None] is falsy, a member is
    truthy. *)
Definition truthy {A} (o : option A) : bool :=
  match o with Some _ => true | None => false end.

Section Resolver.

(** [Format.<member>.value] *)
Variable Format_value : Format -> string.

(** The directory name assembled in [path_str], for a format that is
    not [None]. *)
Definition path_str (format : Format) (jit_type : option JitType)
    (precision : option TensorRTPrecision)
    (enable_xla jit_compile : option bool) : string :=
  let s := Format_value format in
  let s := match jit_type with
           | Some j => s +:+ "-" +:+ JitType_value j
           | None => s
           end in
  let s := match enable_xla with
           | Some true => s +:+ "-xla"
           | _ => s
           end in
  let s := match jit_compile with
           | Some true => s +:+ "-jit"
           | _ => s
           end in
  match precision with
  | Some p => s +:+ "-" +:+ precision_value p
  | None => s
  end.

Definition format_to_relative_model_path (format : option Format)
    (jit_type : option JitType) (precision : option TensorRTPrecision)
    (enable_xla jit_compile : option bool) : result Path :=
  match format with
  | None => Raise AttributeError          (* [format.value] on [None] *)
  | Some f =>
      let path := Path_of_str (path_str f jit_type precision enable_xla jit_compile) in
      if bool_decide (f = ONNX) then Ok (path // ["model.onnx"])
      else if bool_decide (f = TORCHSCRIPT) && truthy jit_type
      then Ok (path // ["model.pt"])
      else if bool_decide (f = TORCH_TRT) && truthy jit_type && truthy precision
      then Ok (path // ["model.pt"])
      else if bool_decide (f = TF_SAVEDMODEL) then Ok (path // ["model.savedmodel"])
      else if bool_decide (f = TF_TRT) && truthy precision
      then Ok (path // ["model.savedmodel"])
      else if bool_decide (f = TENSORRT) && truthy precision
      then Ok (path // ["model.plan"])
      else Raise Exception_
  end.

End Resolver.

(** ** Python values *)

(** The three tensor classes [is_tensor] tells apart. *)
Inductive TensorKind : Type := Ndarray | TorchTensor | TFTensor.

Global Instance TensorKind_eq_dec : EqDecision TensorKind.
Proof. solve_decision. Defined.

(** The Python objects that reach the embedded functions: scalars,
    strings, the built-in containers and tensors.  A dict keeps its items
    in insertion order.  A tensor carries an opaque handle on its data;
    [PySet] stands for any iterable that is neither a sequence nor a
    mapping (a set, a generator). *)
Inductive PyObj : Type :=
| PyNone
| PyBool (b : bool)
| PyInt (z : Z)
| PyStr (s : string)
| PyList (l : list PyObj)
| PyTuple (l : list PyObj)
| PyDict (items : list (PyObj * PyObj))
| PySet (l : list PyObj)
| PyTensor (k : TensorKind) (data : nat).

(** The classes named in [isinstance] tests of the sources. *)
Inductive PyClass : Type :=
| cls_NoneType | cls_bool | cls_int | cls_str | cls_list | cls_tuple
| cls_dict | cls_set | cls_tensor (k : TensorKind).

Global Instance PyClass_eq_dec : EqDecision PyClass.
Proof. solve_decision. Defined.

Definition type_of (o : PyObj) : PyClass :=
  match o with
  | PyNone => cls_NoneType
  | PyBool _ => cls_bool
  | PyInt _ => cls_int
  | PyStr _ => cls_str
  | PyList _ => cls_list
  | PyTuple _ => cls_tuple
  | PyDict _ => cls_dict
  | PySet _ => cls_set
  | PyTensor k _ => cls_tensor k
  end.

(** [issubclass]: [bool] is a subclass of [int]; the other classes are
    unrelated. *)
Definition issubclass (c d : PyClass) : bool :=
  bool_decide (c = d) || (bool_decide (c = cls_bool) && bool_decide (d = cls_int)).

(** [isinstance(o, classes)] for a tuple of classes. *)
Definition isinstance (o : PyObj) (classes : list PyClass) : bool :=
  existsb (issubclass (type_of o)) classes.

(** [isinstance(o, collections.abc.Sequence)] and, for a sequence, the
    elements [tuple(o)] holds.  A [str] is a sequence of one-character
    strings. *)
Definition as_Sequence (o : PyObj) : option (list PyObj) :=
  match o with
  | PyList l | PyTuple l => Some l
  | PyStr s => Some (map (fun c => PyStr (String c EmptyString)) (list_ascii_of_string s))
  | _ => None
  end.

(** [isinstance(o, collections.abc.Mapping)] and, for a mapping, its
    items in iteration order. *)
Definition as_Mapping (o : PyObj) : option (list (PyObj * PyObj)) :=
  match o with
  | PyDict items => Some items
  | _ => None
  end.

(** [o.values()] of a mapping. *)
Definition values (items : list (PyObj * PyObj)) : list PyObj := map snd items.

(** [o.keys()] of a mapping. *)
Definition keys (items : list (PyObj * PyObj)) : list PyObj := map fst items.

Section Iteration.

(** Iterating a tensor yields its slices along the first axis; which
    slices is up to the tensor library, given here by the handles of
    the slices. *)
Variable tensor_rows : TensorKind -> nat -> list nat.

(** [isinstance(o, collections.abc.Iterable)] and, for an iterable,
    the elements a [for] loop over it visits.  Iterating a mapping
    visits its keys. *)
Definition as_Iterable (o : PyObj) : option (list PyObj) :=
  match o with
  | PyNone | PyBool _ | PyInt _ => None
  | PyStr _ | PyList _ | PyTuple _ => as_Sequence o
  | PyDict items => Some (keys items)
  | PySet l => Some l
  | PyTensor k d => Some (map (PyTensor k) (tensor_rows k d))
  end.

End Iteration.

(** A Python [dict] with string keys, as the list of its items in
    insertion order; [d[k] = v] overwrites in place or appends. *)
Fixpoint dict_setitem {V} (k : string) (v : V) (d : list (string * V))
    : list (string * V) :=
  match d with
  | [] => [(k, v)]
  | (k', v') :: d' =>
      if bool_decide (k = k') then (k, v) :: d' else (k', v') :: dict_setitem k v d'
  end.

(** A dict comprehension [{k: v for k, v in pairs}]. *)
Definition dict_of_pairs {V} (pairs : list (string * V)) : list (string * V) :=
  fold_left (fun d kv => dict_setitem (fst kv) (snd kv) d) pairs [].

(** ** Sample utilities of [utils.py] *)

(** [to_numpy]: an [ndarray] is returned as it is; otherwise the
    framework's conversion method is called on the object, which exists
    on the tensors of [torch] ([detach], [cpu], [numpy]) and of
    [tensorflow] ([numpy]) and is an [AttributeError] elsewhere.  The
    conversion keeps the data. *)
Definition detach_cpu_numpy (o : PyObj) : result PyObj :=
  match o with
  | PyTensor TorchTensor d => Ok (PyTensor Ndarray d)
  | _ => Raise AttributeError
  end.

Definition numpy_method (o : PyObj) : result PyObj :=
  match o with
  | PyTensor TorchTensor d | PyTensor TFTensor d => Ok (PyTensor Ndarray d)
  | _ => Raise AttributeError
  end.

Definition is_ndarray (o : PyObj) : bool :=
  match o with PyTensor Ndarray _ => true | _ => false end.

Definition torch_is_tensor (o : PyObj) : bool :=
  match o with PyTensor TorchTensor _ => true | _ => false end.

Definition tensorflow_is_tensor (o : PyObj) : bool :=
  match o with PyTensor TFTensor _ => true | _ => false end.

Definition to_numpy (tensor : PyObj) (from_framework : Framework) : result PyObj :=
  if is_ndarray tensor then Ok tensor
  else if bool_decide (from_framework = PYT) then detach_cpu_numpy tensor
  else numpy_method tensor.

Definition sample_to_tuple (input : PyObj) : list PyObj :=
  match as_Sequence input with
  | Some elems => elems
  | None =>
      match as_Mapping input with
      | Some items => values items
      | None => [input]
      end
  end.

(** [zip(a, b)] *)
Fixpoint zip {A B} (a : list A) (b : list B) : list (A * B) :=
  match a, b with
  | x :: a', y :: b' => (x, y) :: zip a' b'
  | _, _ => []
  end.

(** The comprehension of [extract_sample] evaluates [to_numpy] pair by
    pair and stops at the first one that raises. *)
Fixpoint convert_pairs (framework : Framework) (pairs : list (string * PyObj))
    : result (list (string * PyObj)) :=
  match pairs with
  | [] => Ok []
  | (n, t) :: rest =>
      rbind (to_numpy t framework) (fun a =>
      rbind (convert_pairs framework rest) (fun rest' =>
      Ok ((n, a) :: rest')))
  end.

(** [input_metadata] is iterated for its names, in order. *)
Definition extract_sample (sample : PyObj) (input_metadata : list string)
    (framework : Framework) : result (list (string * PyObj)) :=
  let sample := sample_to_tuple sample in
  rbind (convert_pairs framework (zip input_metadata sample)) (fun pairs =>
  Ok (dict_of_pairs pairs)).

Definition is_tensor (tensor : PyObj) (framework : Framework) : bool :=
  match framework with
  | PYT => torch_is_tensor tensor || is_ndarray tensor
  | TF2 => tensorflow_is_tensor tensor || is_ndarray tensor
  | _ => is_ndarray tensor
  end.

Section Validation.

Variable tensor_rows : TensorKind -> nat -> list nat.

(** The loops of [_is_valid_io] return [False] at the first element
    that is not a tensor and [True] when there is none. *)
Definition _is_valid_io (sample : PyObj) (framework : Framework) : bool :=
  if is_tensor sample framework then true
  else match as_Mapping sample with
       | Some items => forallb (fun tensor => is_tensor tensor framework) (values items)
       | None =>
           match as_Iterable tensor_rows sample with
           | Some elems => forallb (fun tensor => is_tensor tensor framework) elems
           | None => false
           end
       end.

Definition validate_sample_input (sample : PyObj) (framework : Framework) : result unit :=
  if negb (_is_valid_io sample framework) then Raise UserError else Ok tt.

Definition validate_sample_output (sample : PyObj) (framework : Framework) : result unit :=
  if negb (_is_valid_io sample framework) then Raise UserError else Ok tt.

End Validation.

(** ** The keyword-to-argument-list encoder: [parse_kwargs_to_cmd] *)

(** [s.replace(a, b)] for one-character [a] and [b]. *)
Fixpoint replace_char (a b : ascii) (s : string) : string :=
  match s with
  | EmptyString => EmptyString
  | String c s' => String (if bool_decide (c = a) then b else c) (replace_char a b s')
  end.

Definition single_quote : ascii := "'"%char.
Definition double_quote : ascii := ascii_of_nat 34.

Section Encoder.

(** [str(o)] for the containers and tensors, which print their
    elements with [repr] and their data: left to the Python runtime. *)
Variable str_other : PyObj -> string.

(** [str(o)] *)
Definition py_str (o : PyObj) : string :=
  match o with
  | PyNone => "None"
  | PyBool true => "True"
  | PyBool false => "False"
  | PyInt z => pretty z
  | PyStr s => s
  | _ => str_other o
  end.

(** The two entries the loop body appends for the item [(k, v)]. *)
Definition encode_item (quote_wrap_classes : list PyClass) (k : string) (v : PyObj)
    : list string :=
  let s := replace_char single_quote double_quote (py_str v) in
  ["--" +:+ k;
   if isinstance v quote_wrap_classes then "'" +:+ s +:+ "'" else s].

(** [kwargs] is the list of the mapping's items in iteration order;
    [quote_wrap_classes=None] is replaced by the empty tuple. *)
Definition parse_kwargs_to_cmd (kwargs : list (string * PyObj))
    (quote_wrap_classes : option (list PyClass)) : list string :=
  let quote_wrap_classes :=
    match quote_wrap_classes with
    | None => []
    | Some cs => cs
    end in
  fold_left (fun args kv => args ++ encode_item quote_wrap_classes (fst kv) (snd kv))
            kwargs [].

End Encoder.

(** ** A state and exception monad *)

(** A computation over a state [S] that returns or raises; the state
    reached is kept in both cases. *)
Definition SE (S A : Type) : Type := S -> result A * S.

Definition ret {S A} (a : A) : SE S A := fun s => (Ok a, s).

Definition raise {S A} (e : exn) : SE S A := fun s => (Raise e, s).

Definition bind {S A B} (m : SE S A) (k : A -> SE S B) : SE S B :=
  fun s => match m s with
           | (Ok a, s') => k a s'
           | (Raise e, s') => (Raise e, s')
           end.

Notation "x <- m ;; k" := (bind m (fun x => k))
  (at level 100, m at next level, right associativity).
Notation "m ;;; k" := (bind m (fun _ => k))
  (at level 100, right associativity).

Definition lift {S A} (r : result A) : SE S A := fun s => (r, s).

(** [if cond: body] *)
Definition when {S} (cond : bool) (body : SE S unit) : SE S unit :=
  if cond then body else ret tt.

(** [for x in xs: body(x)] *)
Fixpoint for_each {S A} (xs : list A) (body : A -> SE S unit) : SE S unit :=
  match xs with
  | [] => ret tt
  | x :: xs' => body x ;;; for_each xs' body
  end.

(** [hoare P m Q]: from a state where [P] holds, [m] returns, with a
    result and in a state that [Q] relates. *)
Definition hoare {S A} (P : S -> Prop) (m : SE S A) (Q : A -> S -> Prop) : Prop :=
  forall s, P s -> exists a s', m s = (Ok a, s') /\ Q a s'.

(** ** Commands *)

(** [commands.core.CommandType].  The type of a command class is the
    package it is imported from. *)
Inductive CommandType : Type :=
| INFER_METADATA | DATA_DUMP | EXPORT | CONVERT | CORRECTNESS | PERFORMANCE | CONFIG_GEN.

Global Instance CommandType_eq_dec : EqDecision CommandType.
Proof. solve_decision. Defined.

(** ** The working directory *)

Inductive node : Type := File | Dir.

(** The file system: what exists at which path. *)
Abbreviation FS := (gmap (list string) node).

(** [p.exists()] *)
Definition path_exists (fs : FS) (p : Path) : bool :=
  bool_decide (is_Some (fs !! p)).

(** In a well-formed file system whatever exists lies in a directory:
    every proper, non-empty prefix of an existing path is a directory. *)
Definition fs_wf (fs : FS) : Prop :=
  forall (p : Path) (s : string) (q : Path),
    is_Some (fs !! (p ++ s :: q)) -> p <> [] -> fs !! p = Some Dir.

(** [p.mkdir(parents=True, exist_ok=True)]: walking down from the root,
    every missing segment is created as a directory, an existing
    directory is kept, and anything else on the way raises.  [done] is
    the part of the path already walked. *)
Fixpoint mkdir_from (done rest : Path) (fs : FS) : result FS :=
  match rest with
  | [] => Ok fs
  | s :: rest' =>
      let q := done ++ [s] in
      match fs !! q with
      | Some Dir => mkdir_from q rest' fs
      | Some File =>
          match rest' with
          | [] => Raise FileExistsError
          | _ :: _ => Raise NotADirectoryError
          end
      | None => mkdir_from q rest' (<[q := Dir]> fs)
      end
  end.

Definition mkdir_parents (p : Path) (fs : FS) : result FS := mkdir_from [] p fs.

(** ** Convert commands of [commands/convert/tf.py] *)

(** What a call leaves behind, in order. *)
Inductive event : Type :=
| Log_info (msg : string)
| Log_warning (msg : string)
| Execute_cmd (cmd : list string)
| Execute_external_runtime_script (script : string) (args : list string).

(** The external conversion has run when the trace holds one of the two
    [ExecutionContext] events. *)
Definition is_external (e : event) : bool :=
  match e with
  | Execute_cmd _ | Execute_external_runtime_script _ _ => true
  | _ => false
  end.

Definition executes_external (trace : list event) : bool := existsb is_external trace.

(** The attributes [ConvertBase.__init__] and the two constructors set.
    [requires] holds the identities of the required commands. *)
Record ConvertBase : Type := {
  name : string;
  command_type : CommandType;
  target_format : Format;
  requires : list nat;
  status : Status;
  target_precision : option TensorRTPrecision;
  enable_xla : option bool;
  jit_compile : option bool
}.

Definition set_status (st : Status) (c : ConvertBase) : ConvertBase :=
  {| name := name c; command_type := command_type c; target_format := target_format c;
     requires := requires c; status := st; target_precision := target_precision c;
     enable_xla := enable_xla c; jit_compile := jit_compile c |}.

(** [ConvertSavedModel2ONNX.__init__]; a command starts [INITIALIZED]. *)
Definition ConvertSavedModel2ONNX (enable_xla jit_compile : option bool)
    (requires : list nat) : ConvertBase :=
  {| name := "Convert SavedModel to ONNX"; command_type := CONVERT;
     target_format := ONNX; requires := requires; status := INITIALIZED;
     target_precision := None; enable_xla := enable_xla; jit_compile := jit_compile |}.

(** [ConvertSavedModel2TFTRT.__init__] *)
Definition ConvertSavedModel2TFTRT (target_precision : TensorRTPrecision)
    (enable_xla jit_compile : option bool) (requires : list nat) : ConvertBase :=
  {| name := "Convert SavedModel to TF-TRT"; command_type := CONVERT;
     target_format := TF_TRT; requires := requires; status := INITIALIZED;
     target_precision := Some target_precision; enable_xla := enable_xla;
     jit_compile := jit_compile |}.

(** The state a call runs in: the command object, the working directory
    on disk, the accelerators of the machine and the trace so far. *)
Record CallState : Type := {
  self : ConvertBase;
  fs : FS;
  available_gpus : list nat;
  trace : list event
}.

(** The monad of a call. *)
Abbreviation M := (SE CallState).

Definition get_self : M ConvertBase := fun s => (Ok (self s), s).

Definition get_fs : M FS := fun s => (Ok (fs s), s).

Definition get_available_gpus : M (list nat) := fun s => (Ok (available_gpus s), s).

Definition emit (e : event) : M unit :=
  fun s => (Ok tt, {| self := self s; fs := fs s; available_gpus := available_gpus s;
                      trace := trace s ++ [e] |}).

Definition assign_status (st : Status) : M unit :=
  fun s => (Ok tt, {| self := set_status st (self s); fs := fs s;
                      available_gpus := available_gpus s; trace := trace s |}).

(** An action on the disk that may raise; the disk is left as it was
    when it does. *)
Definition on_disk (f : FS -> result FS) : M unit :=
  fun s => match f (fs s) with
           | Ok fs' => (Ok tt, {| self := self s; fs := fs'; available_gpus := available_gpus s;
                                  trace := trace s |})
           | Raise e => (Raise e, s)
           end.

Definition exists_ (p : Path) : M bool := fs0 <- get_fs ;; ret (path_exists fs0 p).

Section Convert.

Variable Format_value : Format -> string.
Variable str_other : PyObj -> string.

(** [ExecutionContext(workdir, cmd_path, verbose).execute_cmd(cmd)]:
    the external tool run from the working directory, with what it
    does to the disk; it may raise. *)
Variable execute_cmd : Path -> Path -> bool -> list string -> FS -> result FS.

(** [ExecutionContext(workdir, script_path, cmd_path, verbose)
    .execute_external_runtime_script(script, args)] *)
Variable execute_external_runtime_script :
  Path -> Path -> Path -> bool -> string -> list string -> FS -> result FS.

(** [sm2tftrt.__file__] *)
Variable sm2tftrt_file : string.

(** Modelled from the spec: [ConvertBase.get_output_relative_path] is
    inherited from [commands/convert/base.py], which is not among the
    embedded files.  By the spec the artifact path of a command is the
    ArtifactPathResolver applied to the command's target format and
    variant parameters; a convert command has no jit variant. *)
Definition get_output_relative_path (c : ConvertBase) : result Path :=
  format_to_relative_model_path Format_value (Some (target_format c)) None
    (target_precision c) (enable_xla c) (jit_compile c).

Definition not_found_warning (exported_model_path : Path) : string :=
  "Exported SavedModel model not found at " +:+ as_posix exported_model_path
    +:+ ". Skipping conversion".

(** [ConvertSavedModel2ONNX.__call__] *)
Definition ConvertSavedModel2ONNX_call (workdir : Path) (opset : Z)
    (model_name : string) (verbose : bool) : M (option Path) :=
  emit (Log_info "SavedModel to ONNX conversion started") ;;;
  this <- get_self ;;
  exported_rel <- lift (format_to_relative_model_path Format_value (Some TF_SAVEDMODEL)
                          None None (enable_xla this) (jit_compile this)) ;;
  let exported_model_path := workdir // exported_rel in
  converted_rel <- lift (get_output_relative_path this) ;;
  let converted_model_path := workdir // converted_rel in
  converted_exists <- exists_ converted_model_path ;;
  if converted_exists then
    emit (Log_info "Model already exists. Skipping conversion.") ;;;
    out <- lift (get_output_relative_path this) ;;
    ret (Some out)
  else
    exported_exists <- exists_ exported_model_path ;;
    if negb exported_exists then
      emit (Log_warning (not_found_warning exported_model_path)) ;;;
      assign_status SKIPPED ;;;
      ret None
    else
      src <- lift (relative_to exported_model_path workdir) ;;
      dst <- lift (relative_to converted_model_path workdir) ;;
      let convert_cmd :=
        ["python"; "-m"; "tf2onnx.convert";
         "--saved-model"; as_posix src;
         "--output"; as_posix dst;
         "--opset"; pretty opset] in
      emit (Execute_cmd convert_cmd) ;;;
      on_disk (execute_cmd workdir
                 (parent converted_model_path // ["reproduce_conversion.sh"])
                 verbose convert_cmd) ;;;
      out <- lift (get_output_relative_path this) ;;
      ret (Some out).

(** [ConvertSavedModel2TFTRT.__call__] *)
Definition ConvertSavedModel2TFTRT_call (max_workspace_size minimum_segment_size : Z)
    (workdir : Path) (model_name : string) (verbose : bool) (batch_dim : option Z)
    : M (option Path) :=
  emit (Log_info "SavedModel to TF-TRT conversion started") ;;;
  gpus <- get_available_gpus ;;
  match gpus with
  | [] => raise (RuntimeError "No GPUs available.")
  | _ :: _ =>
    this <- get_self ;;
    exported_rel <- lift (format_to_relative_model_path Format_value (Some TF_SAVEDMODEL)
                            None None (enable_xla this) (jit_compile this)) ;;
    let exported_model_path := workdir // exported_rel in
    converted_rel <- lift (get_output_relative_path this) ;;
    let converted_model_path := workdir // converted_rel in
    on_disk (mkdir_parents (parent converted_model_path)) ;;;
    converted_exists <- exists_ converted_model_path ;;
    if converted_exists then
      emit (Log_info "Model already exists. Skipping conversion.") ;;;
      out <- lift (get_output_relative_path this) ;;
      ret (Some out)
    else
      exported_exists <- exists_ exported_model_path ;;
      if negb exported_exists then
        emit (Log_warning (not_found_warning exported_model_path)) ;;;
        assign_status SKIPPED ;;;
        ret None
      else
        src <- lift (relative_to exported_model_path workdir) ;;
        dst <- lift (relative_to converted_model_path workdir) ;;
        precision <- lift (match target_precision this with
                           | Some p => Ok (precision_value p)
                           | None => Raise AttributeError
                           end) ;;
        let kwargs :=
          [("exported_model_path", PyStr (as_posix src));
           ("converted_model_path", PyStr (as_posix dst));
           ("max_workspace_size", PyInt max_workspace_size);
           ("target_precision", PyStr precision);
           ("minimum_segment_size", PyInt minimum_segment_size);
           ("batch_dim", match batch_dim with Some d => PyInt d | None => PyNone end);
           ("navigator_workdir", PyStr (as_posix workdir))] in
        let args := parse_kwargs_to_cmd str_other kwargs
                      (Some [cls_list; cls_dict; cls_tuple]) in
        emit (Execute_external_runtime_script sm2tftrt_file args) ;;;
        on_disk (execute_external_runtime_script workdir
                   (parent converted_model_path // ["reproduce_conversion.py"])
                   (parent converted_model_path // ["reproduce_conversion.sh"])
                   verbose sm2tftrt_file args) ;;;
        out <- lift (get_output_relative_path this) ;;
        ret (Some out)
  end.


(** The two convert classes of the file, and the keyword arguments a
    pipeline run passes to every command it calls; each [__call__]
    picks the ones it names and leaves the rest in [**kwargs]. *)
Inductive ConvertClass : Type := SavedModel2ONNX | SavedModel2TFTRT.

Record CallArgs : Type := {
  workdir : Path;
  opset : Z;
  model_name : string;
  verbose : bool;
  max_workspace_size : Z;
  minimum_segment_size : Z;
  batch_dim : option Z
}.

(** Calling a convert command dispatches on its class. *)
Definition convert_call (cls : ConvertClass) (kw : CallArgs) : M (option Path) :=
  match cls with
  | SavedModel2ONNX =>
      ConvertSavedModel2ONNX_call (workdir kw) (opset kw) (model_name kw) (verbose kw)
  | SavedModel2TFTRT =>
      ConvertSavedModel2TFTRT_call (max_workspace_size kw) (minimum_segment_size kw)
        (workdir kw) (model_name kw) (verbose kw) (batch_dim kw)
  end.

(** The relative path of the exported SavedModel both calls look for. *)
Definition exported_relative_path (c : ConvertBase) : result Path :=
  format_to_relative_model_path Format_value (Some TF_SAVEDMODEL) None None
    (enable_xla c) (jit_compile c).

End Convert.

(** ** The PyTorch pipeline: [pipelines/pipeline_manager_pyt.py] *)

Module Pyt.

(** The command classes [pipeline_manager_pyt.py] imports. *)
Inductive CommandClass : Type :=
| InferInputMetadata | FetchInputModelData | InferOutputMetadata
| ExportPYT2TorchScript | CorrectnessPYT2TorchScript | PerformanceTorchScript
| ConfigCli
| ExportPYT2ONNX | CorrectnessPYT2ONNX | PerformanceONNX
| ExportPYT2TorchTensorRT
| ConvertONNX2TRT | CorrectnessPYT2TRT | PerformanceTRT
| DumpInputModelData | DumpOutputModelData.

Global Instance CommandClass_eq_dec : EqDecision CommandClass.
Proof. solve_decision. Defined.

(** Modelled from the spec: the [command_type] each class passes to
    [Command.__init__] is set in the class's own module, none of which
    is among the embedded files.  By the spec a command is an export,
    a convert, a check-correctness, a benchmark or an emit-config step;
    each class is given the type of the package it is imported from
    ([commands.correctness.*] is [CORRECTNESS], as
    [CorrectnessONNX2TRT] in [commands/correctness/onnx.py] shows,
    [commands.performance.*] is [PERFORMANCE], and so on). *)
Definition command_type_of (c : CommandClass) : CommandType :=
  match c with
  | InferInputMetadata | InferOutputMetadata => INFER_METADATA
  | FetchInputModelData | DumpInputModelData | DumpOutputModelData => DATA_DUMP
  | ExportPYT2TorchScript | ExportPYT2ONNX | ExportPYT2TorchTensorRT => EXPORT
  | ConvertONNX2TRT => CONVERT
  | CorrectnessPYT2TorchScript | CorrectnessPYT2ONNX | CorrectnessPYT2TRT => CORRECTNESS
  | PerformanceTorchScript | PerformanceONNX | PerformanceTRT => PERFORMANCE
  | ConfigCli => CONFIG_GEN
  end.

(** A command object: its identity (which instance it is), its class,
    the keyword arguments it was built with and the identities of the
    instances in its [requires] tuple. *)
Record Command : Type := {
  id : nat;
  class : CommandClass;
  target_format : option Format;
  target_jit_type : option JitType;
  target_precision : option TensorRTPrecision;
  runtime_provider : option RuntimeProvider;
  requires : list nat
}.

Definition command_type (c : Command) : CommandType := command_type_of (class c).

(** The fields of [config] the builder reads. *)
Record Config : Type := {
  target_formats : list Format;
  config_target_jit_type : list JitType;
  target_precisions : list TensorRTPrecision;
  save_data : bool
}.

Record Pipeline : Type := {
  name : string;
  framework : Framework;
  commands : list Command
}.

(** The builder's state: the identity the next instance gets and the
    local list [commands]. *)
Record Builder : Type := {
  next_id : nat;
  cmds : list Command
}.

Abbreviation B := (SE Builder).

(** Instantiating a command class: a fresh object. *)
Definition new (cls : CommandClass) (tf : option Format) (jt : option JitType)
    (tp : option TensorRTPrecision) (rp : option RuntimeProvider)
    (reqs : list Command) : B Command :=
  fun s => (Ok {| id := next_id s; class := cls; target_format := tf;
                  target_jit_type := jt; target_precision := tp;
                  runtime_provider := rp; requires := map id reqs |},
            {| next_id := S (next_id s); cmds := cmds s |}).

(** [commands.append(c)] *)
Definition append (c : Command) : B unit :=
  fun s => (Ok tt, {| next_id := next_id s; cmds := cmds s ++ [c] |}).

(** [commands.append(Cls(...))] *)
Definition append_new (cls : CommandClass) (tf : option Format) (jt : option JitType)
    (tp : option TensorRTPrecision) (rp : option RuntimeProvider)
    (reqs : list Command) : B unit :=
  c <- new cls tf jt tp rp reqs ;; append c.

(** Reading a local variable that may not have been assigned. *)
Definition read_local {A} (v : option A) : B A :=
  match v with
  | Some a => ret a
  | None => raise UnboundLocalError
  end.

(** The ONNX export and its per-provider checks, written twice in the
    source (lines 68-72 and 95-99); returns the export instance. *)
Definition onnx_export_block (infer_input fetch_input infer_output : Command)
    : B Command :=
  onnx_export <- new ExportPYT2ONNX None None None None
                   [infer_input; fetch_input; infer_output] ;;
  append onnx_export ;;;
  for_each [RP_CUDA; RP_TRT; RP_CPU] (fun provider =>
    append_new CorrectnessPYT2ONNX None None None (Some provider) [onnx_export] ;;;
    append_new PerformanceONNX None None None (Some provider) [onnx_export]) ;;;
  ret onnx_export.

(** Body of the loop of lines 49-66. *)
Definition torchscript_body (infer_input fetch_input infer_output : Command)
    (target_jit_type : JitType) : B unit :=
  export <- new ExportPYT2TorchScript None (Some target_jit_type) None None
              [infer_input; fetch_input; infer_output] ;;
  append export ;;;
  append_new CorrectnessPYT2TorchScript (Some TORCHSCRIPT) (Some target_jit_type)
    None None [export] ;;;
  append_new PerformanceTorchScript (Some TORCHSCRIPT) (Some target_jit_type)
    None None [export] ;;;
  append_new ConfigCli (Some TORCHSCRIPT) (Some target_jit_type) None None [export].

(** Body of the loop of lines 75-92. *)
Definition torch_trt_body (infer_input fetch_input infer_output : Command)
    (target_jit_type : JitType) : B unit :=
  export <- new ExportPYT2TorchTensorRT None (Some target_jit_type) None None
              [infer_input; fetch_input; infer_output] ;;
  append export ;;;
  append_new CorrectnessPYT2TorchScript (Some TORCH_TRT) (Some target_jit_type)
    None None [export] ;;;
  append_new PerformanceTorchScript (Some TORCH_TRT) (Some target_jit_type)
    None None [export] ;;;
  append_new ConfigCli (Some TORCH_TRT) (Some target_jit_type) None None [export].

(** Body of the loop of lines 100-107; [onnx_export] is the local
    variable, assigned or not. *)
Definition tensorrt_body (onnx_export : option Command)
    (target_precision : TensorRTPrecision) : B unit :=
  onnx_export <- read_local onnx_export ;;
  convert <- new ConvertONNX2TRT None None (Some target_precision) None [onnx_export] ;;
  append convert ;;;
  append_new CorrectnessPYT2TRT None None (Some target_precision) None [convert] ;;;
  append_new PerformanceTRT None None (Some target_precision) None [convert] ;;;
  append_new ConfigCli (Some TENSORRT) None (Some target_precision) None [convert].

(** Lines 110-111. *)
Definition save_data_body (infer_input fetch_input infer_output : Command) : B unit :=
  append_new DumpInputModelData None None None None [infer_input; fetch_input] ;;;
  append_new DumpOutputModelData None None None None [fetch_input; infer_output].

(** [TorchPipelineManager._get_pipeline] *)
Definition _get_pipeline (config : Config) : B Pipeline :=
  infer_input <- new InferInputMetadata None None None None [] ;;
  fetch_input <- new FetchInputModelData None None None None [infer_input] ;;
  infer_output <- new InferOutputMetadata None None None None [infer_input; fetch_input] ;;
  append infer_input ;;; append fetch_input ;;; append infer_output ;;;
  when (bool_decide (TORCHSCRIPT ∈ target_formats config))
    (for_each (config_target_jit_type config)
       (torchscript_body infer_input fetch_input infer_output)) ;;;
  onnx_export <-
    (if bool_decide (ONNX ∈ target_formats config) then
       onnx_export <- onnx_export_block infer_input fetch_input infer_output ;;
       append_new ConfigCli (Some ONNX) None None None [onnx_export] ;;;
       ret (Some onnx_export)
     else ret None) ;;
  when (bool_decide (TORCH_TRT ∈ target_formats config))
    (for_each (config_target_jit_type config)
       (torch_trt_body infer_input fetch_input infer_output)) ;;;
  when (bool_decide (TENSORRT ∈ target_formats config))
    (onnx_export <-
       (if negb (bool_decide (ONNX ∈ target_formats config)) then
          onnx_export <- onnx_export_block infer_input fetch_input infer_output ;;
          ret (Some onnx_export)
        else ret onnx_export) ;;
     for_each (target_precisions config) (tensorrt_body onnx_export)) ;;;
  when (save_data config) (save_data_body infer_input fetch_input infer_output) ;;;
  fun s => (Ok {| name := "PyTorch pipeline"; framework := PYT; commands := cmds s |}, s).

(** Running the builder from an empty state. *)
Definition get_pipeline (config : Config) : result Pipeline :=
  fst (_get_pipeline config {| next_id := 0; cmds := [] |}).

(** The commands of a class, and of a type, in a command list. *)
Definition of_class (cls : CommandClass) (l : list Command) : list Command :=
  List.filter (fun c => bool_decide (class c = cls)) l.

Definition of_type (t : CommandType) (l : list Command) : list Command :=
  List.filter (fun c => bool_decide (command_type c = t)) l.

(** The identities in the list are the ones handed out so far, in
    order: every instance built has been appended once. *)
Definition well_numbered (s : Builder) : Prop :=
  map id (cmds s) = seq 0 (next_id s).

(** Every TensorRT conversion in [l] requires exactly the instance [e]. *)
Definition converts_require (e : Command) (l : list Command) : Prop :=
  Forall (fun c => class c = ConvertONNX2TRT -> requires c = [id e]) l.

(** Before the ONNX export is built the list holds neither an export to
    ONNX nor a TensorRT conversion. *)
Definition no_onnx_export (s : Builder) : Prop :=
  well_numbered s
  /\ of_class ExportPYT2ONNX (cmds s) = []
  /\ of_class ConvertONNX2TRT (cmds s) = [].

(** Afterwards it holds the one export [e]. *)
Definition one_onnx_export (e : Command) (s : Builder) : Prop :=
  well_numbered s
  /\ of_class ExportPYT2ONNX (cmds s) = [e]
  /\ converts_require e (cmds s).

(** What holds of the local variable [onnx_export] and the list. *)
Definition onnx_export_state (v : option Command) (s : Builder) : Prop :=
  match v with
  | Some e => one_onnx_export e s
  | None => no_onnx_export s
  end.

(** Commands that are neither an ONNX export nor a TensorRT conversion. *)
Definition other_class (c : Command) : bool :=
  negb (bool_decide (class c = ExportPYT2ONNX))
  && negb (bool_decide (class c = ConvertONNX2TRT)).

(** A property of the builder's state is stable when appending freshly
    numbered commands of other classes keeps it. *)
Definition stable (I : Builder -> Prop) : Prop :=
  forall (s : Builder) (added : list Command),
    I s ->
    map id added = seq (next_id s) (length added) ->
    forallb other_class added = true ->
    I {| next_id := length added + next_id s; cmds := cmds s ++ added |}.

(** What holds after the ONNX branch (lines 67-73), by whether ONNX was
    requested. *)
Definition after_onnx_branch (requested : bool) (v : option Command) (s : Builder)
    : Prop :=
  if requested then exists e, v = Some e /\ one_onnx_export e s
  else v = None /\ no_onnx_export s.

(** *** The command list in closed form *)

(** The command with identity [n]. *)
Definition command (n : nat) (cls : CommandClass) (tf : option Format)
    (jt : option JitType) (tp : option TensorRTPrecision)
    (rp : option RuntimeProvider) (reqs : list nat) : Command :=
  {| id := n; class := cls; target_format := tf; target_jit_type := jt;
     target_precision := tp; runtime_provider := rp; requires := reqs |}.

(** What one pass of each loop appends, numbered from [n]; [m] holds the
    identities of the three metadata commands, [e] the one of the ONNX
    export. *)
Definition torchscript_pass (m : list nat) (n : nat) (jt : JitType) : list Command :=
  [command n ExportPYT2TorchScript None (Some jt) None None m;
   command (1 + n) CorrectnessPYT2TorchScript (Some TORCHSCRIPT) (Some jt) None None [n];
   command (2 + n) PerformanceTorchScript (Some TORCHSCRIPT) (Some jt) None None [n];
   command (3 + n) ConfigCli (Some TORCHSCRIPT) (Some jt) None None [n]].

Definition torch_trt_pass (m : list nat) (n : nat) (jt : JitType) : list Command :=
  [command n ExportPYT2TorchTensorRT None (Some jt) None None m;
   command (1 + n) CorrectnessPYT2TorchScript (Some TORCH_TRT) (Some jt) None None [n];
   command (2 + n) PerformanceTorchScript (Some TORCH_TRT) (Some jt) None None [n];
   command (3 + n) ConfigCli (Some TORCH_TRT) (Some jt) None None [n]].

Definition tensorrt_pass (e : nat) (n : nat) (tp : TensorRTPrecision) : list Command :=
  [command n ConvertONNX2TRT None None (Some tp) None [e];
   command (1 + n) CorrectnessPYT2TRT None None (Some tp) None [n];
   command (2 + n) PerformanceTRT None None (Some tp) None [n];
   command (3 + n) ConfigCli (Some TENSORRT) None (Some tp) None [n]].

(** The passes of a loop over [xs], four commands each. *)
Fixpoint passes {A} (pass : nat -> A -> list Command) (n : nat) (xs : list A)
    : list Command :=
  match xs with
  | [] => []
  | x :: xs' => pass n x ++ passes pass (4 + n) xs'
  end.

(** The ONNX export and its six checks. *)
Definition onnx_commands (m : list nat) (n : nat) : list Command :=
  [command n ExportPYT2ONNX None None None None m;
   command (1 + n) CorrectnessPYT2ONNX None None None (Some RP_CUDA) [n];
   command (2 + n) PerformanceONNX None None None (Some RP_CUDA) [n];
   command (3 + n) CorrectnessPYT2ONNX None None None (Some RP_TRT) [n];
   command (4 + n) PerformanceONNX None None None (Some RP_TRT) [n];
   command (5 + n) CorrectnessPYT2ONNX None None None (Some RP_CPU) [n];
   command (6 + n) PerformanceONNX None None None (Some RP_CPU) [n]].

Definition metadata_commands : list Command :=
  [command 0 InferInputMetadata None None None None [];
   command 1 FetchInputModelData None None None None [0];
   command 2 InferOutputMetadata None None None None [0; 1]].

Definition dump_commands (n : nat) : list Command :=
  [command n DumpInputModelData None None None None [0; 1];
   command (1 + n) DumpOutputModelData None None None None [1; 2]].

(** The four parts the target formats contribute, each numbered from
    the length of what precedes it. *)
Definition torchscript_part (config : Config) (n : nat) : list Command :=
  if bool_decide (TORCHSCRIPT ∈ target_formats config)
  then passes (torchscript_pass [0; 1; 2]) n (config_target_jit_type config) else [].

Definition onnx_part (config : Config) (n : nat) : list Command :=
  if bool_decide (ONNX ∈ target_formats config)
  then onnx_commands [0; 1; 2] n
         ++ [command (7 + n) ConfigCli (Some ONNX) None None None [n]]
  else [].

Definition torch_trt_part (config : Config) (n : nat) : list Command :=
  if bool_decide (TORCH_TRT ∈ target_formats config)
  then passes (torch_trt_pass [0; 1; 2]) n (config_target_jit_type config) else [].

(** [e] is the identity of the ONNX export built by the ONNX part, when
    there is one. *)
Definition tensorrt_part (config : Config) (e n : nat) : list Command :=
  if bool_decide (TENSORRT ∈ target_formats config)
  then if bool_decide (ONNX ∈ target_formats config)
       then passes (tensorrt_pass e) n (target_precisions config)
       else onnx_commands [0; 1; 2] n
              ++ passes (tensorrt_pass n) (7 + n) (target_precisions config)
  else [].

Definition closed_form (config : Config) : list Command :=
  let l1 := metadata_commands ++ torchscript_part config 3 in
  let l2 := l1 ++ onnx_part config (length l1) in
  let l3 := l2 ++ torch_trt_part config (length l2) in
  let l4 := l3 ++ tensorrt_part config (length l1) (length l3) in
  l4 ++ (if save_data config then dump_commands (length l4) else []).

(** Every identity a command requires is smaller than its own. *)
Definition requires_earlier (c : Command) : Prop :=
  Forall (fun r => r < id c) (requires c).

(** The output variants a configuration asks for, as (format, jit
    type, precision), in the order the builder treats them. *)
Definition requested_variants (config : Config)
    : list (option Format * option JitType * option TensorRTPrecision) :=
  (if bool_decide (TORCHSCRIPT ∈ target_formats config)
   then map (fun jt => (Some TORCHSCRIPT, Some jt, None)) (config_target_jit_type config)
   else [])
  ++ (if bool_decide (ONNX ∈ target_formats config)
      then [(Some ONNX, None, None)] else [])
  ++ (if bool_decide (TORCH_TRT ∈ target_formats config)
      then map (fun jt => (Some TORCH_TRT, Some jt, None)) (config_target_jit_type config)
      else [])
  ++ (if bool_decide (TENSORRT ∈ target_formats config)
      then map (fun tp => (Some TENSORRT, None, Some tp)) (target_precisions config)
      else []).

(** The three metadata commands every pipeline starts with. *)
Definition infer_input_command : Command :=
  command 0 InferInputMetadata None None None None [].

Definition fetch_input_command : Command :=
  command 1 FetchInputModelData None None None None [0].

Definition infer_output_command : Command :=
  command 2 InferOutputMetadata None None None None [0; 1].

(** The ONNX export numbered [n]. *)
Definition onnx_export_command (n : nat) : Command :=
  command n ExportPYT2ONNX None None None None [0; 1; 2].

(** The builder's state once every instance built is in the list [l]. *)
Definition state_of (l : list Command) : Builder :=
  {| next_id := length l; cmds := l |}.

(** The identities of [l] are [n], [n+1], ... in order. *)
Definition numbered (n : nat) (l : list Command) : Prop :=
  map id l = seq n (length l).

(** The number of commands a configuration leads to. *)
Definition expected_length (config : Config) : nat :=
  3
  + (if bool_decide (TORCHSCRIPT ∈ target_formats config)
     then 4 * length (config_target_jit_type config) else 0)
  + (if bool_decide (ONNX ∈ target_formats config) then 8
     else if bool_decide (TENSORRT ∈ target_formats config) then 7 else 0)
  + (if bool_decide (TORCH_TRT ∈ target_formats config)
     then 4 * length (config_target_jit_type config) else 0)
  + (if bool_decide (TENSORRT ∈ target_formats config)
     then 4 * length (target_precisions config) else 0)
  + (if save_data config then 2 else 0).

(** The variant a [ConfigCli] command is built for. *)
Definition variant_of (c : Command)
    : option Format * option JitType * option TensorRTPrecision :=
  (target_format c, target_jit_type c, target_precision c).

(** What a command's [requires] must look like in the list [l]: a
    check, a benchmark or a configuration requires one export or
    conversion of [l], a conversion requires one ONNX export of [l], an
    export requires the three metadata commands. *)
Definition well_required (l : list Command) (c : Command) : Prop :=
  match command_type c with
  | CORRECTNESS | PERFORMANCE | CONFIG_GEN =>
      exists c', In c' l /\ requires c = [id c']
                 /\ (command_type c' = EXPORT \/ command_type c' = CONVERT)
  | CONVERT =>
      exists c', In c' l /\ requires c = [id c'] /\ class c' = ExportPYT2ONNX
  | EXPORT => requires c = [0; 1; 2]
  | INFER_METADATA | DATA_DUMP => Forall (fun r => r < 3) (requires c)
  end.

End Pyt.

(** ** Reference descriptions *)

(** The descriptions below restate, in the words of the design document,
    what the embedded functions are expected to compute; the theorems
    compare the code with them. *)

(** The variant combinations the resolver supports: ONNX and the
    SavedModel need nothing, TorchScript needs a jit variant,
    Torch-TensorRT a jit variant and a precision, TF-TRT and TensorRT a
    precision. *)
Definition supported (format : Format) (jit_type : option JitType)
    (precision : option TensorRTPrecision) : bool :=
  match format with
  | ONNX | TF_SAVEDMODEL => true
  | TORCHSCRIPT => truthy jit_type
  | TORCH_TRT => truthy jit_type && truthy precision
  | TF_TRT | TENSORRT => truthy precision
  end.

(** The file name, fixed per format family. *)
Definition family_filename (format : Format) : string :=
  match format with
  | ONNX => "model.onnx"
  | TORCHSCRIPT | TORCH_TRT => "model.pt"
  | TF_SAVEDMODEL | TF_TRT => "model.savedmodel"
  | TENSORRT => "model.plan"
  end.

(** The optional suffixes of the directory name, in their fixed order:
    the jit variant, [-xla], [-jit], the precision. *)
Definition variant_suffixes (jit_type : option JitType)
    (precision : option TensorRTPrecision) (enable_xla jit_compile : option bool)
    : list string :=
  [ match jit_type with Some j => "-" +:+ JitType_value j | None => EmptyString end;
    if bool_decide (enable_xla = Some true) then "-xla" else EmptyString;
    if bool_decide (jit_compile = Some true) then "-jit" else EmptyString;
    match precision with Some p => "-" +:+ precision_value p | None => EmptyString end ].

(** The directory name: the format value followed by the suffixes. *)
Definition directory_name (Format_value : Format -> string) (format : Format)
    (jit_type : option JitType) (precision : option TensorRTPrecision)
    (enable_xla jit_compile : option bool) : string :=
  Format_value format
    +:+ String.concat EmptyString (variant_suffixes jit_type precision enable_xla jit_compile).

(** An example table of format values, for running the definitions. *)
Definition example_Format_value (f : Format) : string :=
  match f with
  | ONNX => "onnx"
  | TORCHSCRIPT => "torchscript"
  | TORCH_TRT => "torch-trt"
  | TF_SAVEDMODEL => "tf-savedmodel"
  | TF_TRT => "tf-trt"
  | TENSORRT => "trt"
  end.

Definition fp16 : TensorRTPrecision := {| precision_value := "fp16" |}.

(** The encoder as the design document words it: two entries per key,
    the flag and the value's string form, a structured value (list,
    tuple or mapping) wrapped in single quotes and a scalar left bare. *)
Definition structured (v : PyObj) : bool := isinstance v [cls_list; cls_tuple; cls_dict].

Definition claimed_kwargs_encoding (str : PyObj -> string) (kwargs : list (string * PyObj))
    : list string :=
  flat_map (fun kv => ["--" +:+ fst kv;
                       if structured (snd kv) then "'" +:+ str (snd kv) +:+ "'"
                       else str (snd kv)]) kwargs.

(** The three sample shapes of the design document: a tensor, a mapping
    whose values are tensors, an iterable whose elements are tensors. *)
Definition all_tensors (framework : Framework) (l : list PyObj) : bool :=
  forallb (fun t => is_tensor t framework) l.

Definition mapping_of_tensors (sample : PyObj) (framework : Framework) : bool :=
  match as_Mapping sample with
  | Some items => all_tensors framework (values items)
  | None => false
  end.

Definition iterable_of_tensors (tensor_rows : TensorKind -> nat -> list nat)
    (sample : PyObj) (framework : Framework) : bool :=
  match as_Iterable tensor_rows sample with
  | Some elems => all_tensors framework elems
  | None => false
  end.

Definition claimed_sample_shape (tensor_rows : TensorKind -> nat -> list nat)
    (sample : PyObj) (framework : Framework) : bool :=
  is_tensor sample framework
  || mapping_of_tensors sample framework
  || iterable_of_tensors tensor_rows sample framework.

(** The shapes the code accepts: a mapping is judged by its values
    alone, and only what is not a mapping is judged as an iterable. *)
Definition is_Mapping (sample : PyObj) : bool :=
  match as_Mapping sample with Some _ => true | None => false end.

Definition accepted_sample_shape (tensor_rows : TensorKind -> nat -> list nat)
    (sample : PyObj) (framework : Framework) : bool :=
  is_tensor sample framework
  || mapping_of_tensors sample framework
  || (negb (is_Mapping sample) && iterable_of_tensors tensor_rows sample framework).

(** Example inputs. *)
Definition no_rows : TensorKind -> nat -> list nat := fun _ _ => [].

Definition no_str : PyObj -> string := fun _ => EmptyString.

Definition example_args : CallArgs :=
  {| workdir := ["navigator_workdir"]; opset := 13; model_name := "navigator_model";
     verbose := false; max_workspace_size := 8589934592; minimum_segment_size := 3;
     batch_dim := Some 0%Z |}.

(** A working directory that holds a converted TF-TRT model. *)
Definition example_converted_fs : FS :=
  <[ ["navigator_workdir"; "tf-trt-fp16"; "model.savedmodel"] := Dir ]>
  (<[ ["navigator_workdir"; "tf-trt-fp16"] := Dir ]>
   (<[ ["navigator_workdir"] := Dir ]> ∅)).

(** External tools that leave the disk as it is. *)
Definition idle_execute_cmd : Path -> Path -> bool -> list string -> FS -> result FS :=
  fun _ _ _ _ fs => Ok fs.

Definition idle_execute_script
    : Path -> Path -> Path -> bool -> string -> list string -> FS -> result FS :=
  fun _ _ _ _ _ _ fs => Ok fs.

(** The TF-TRT command of the examples and its output path. *)
Definition example_tftrt : ConvertBase := ConvertSavedModel2TFTRT fp16 None None [].

Definition example_tftrt_output : Path := ["tf-trt-fp16"; "model.savedmodel"].

Definition example_exported : Path := ["tf-savedmodel"; "model.savedmodel"].

(** The working directory after the TF-TRT call created its output
    directory in an empty one. *)
Definition example_mkdir_fs : FS :=
  <[ ["navigator_workdir"; "tf-trt-fp16"] := Dir ]>
  (<[ ["navigator_workdir"] := Dir ]> ∅).

(** Example configurations of the PyTorch pipeline. *)
Definition tensorrt_only : Pyt.Config :=
  {| Pyt.target_formats := [TENSORRT]; Pyt.config_target_jit_type := [SCRIPT; TRACE];
     Pyt.target_precisions := [fp16; {| precision_value := "fp32" |}]; Pyt.save_data := true |}.

Definition onnx_only : Pyt.Config :=
  {| Pyt.target_formats := [ONNX]; Pyt.config_target_jit_type := [SCRIPT; TRACE];
     Pyt.target_precisions := [fp16]; Pyt.save_data := false |}.



(** ** More of [utils.py] *)

Global Instance RuntimeProvider_eq_dec : EqDecision RuntimeProvider.
Proof. solve_decision. Defined.

(** [bool(l)] of a list. *)
Definition list_truthy {A} (l : list A) : bool :=
  match l with [] => false | _ :: _ => true end.

(** [get_supported_onnx_providers]; [gpus] is what
    [devices_utils.get_available_gpus()] returns. *)
Definition get_supported_onnx_providers (gpus : list nat) (exclude_trt : bool)
    : list RuntimeProvider :=
  let gpu_available := list_truthy gpus in
  let supported_providers := [] in
  let supported_providers :=
    if gpu_available then supported_providers ++ [RP_CUDA] else supported_providers in
  let supported_providers := supported_providers ++ [RP_CPU] in
  let supported_providers :=
    if gpu_available && negb exclude_trt then supported_providers ++ [RP_TRT]
    else supported_providers in
  supported_providers.

(** [get_available_onnx_providers]; [available_providers] is what
    [onnxruntime.get_available_providers()] returns, a list of names.
    A [RuntimeProvider] is a [str], equal to the name it holds. *)
Definition get_available_onnx_providers (gpus : list nat)
    (available_providers : list string) (exclude_trt : bool) : list RuntimeProvider :=
  let supported_providers := get_supported_onnx_providers gpus exclude_trt in
  List.filter (fun prov => bool_decide (RuntimeProvider_value prov ∈ available_providers))
              supported_providers.

(** [c * n] for a one-character string [c]. *)
Fixpoint repeat_char (c : ascii) (n : nat) : string :=
  match n with
  | O => EmptyString
  | S n' => String c (repeat_char c n')
  end.

(** [s.ljust(width, fill)] *)
Definition ljust (s : string) (width : nat) (fill : ascii) : string :=
  s +:+ repeat_char fill (width - String.length s).

Definition equals_sign : ascii := "="%char.

(** [pad_string] *)
Definition pad_string (s : string) : string :=
  let s := repeat_char equals_sign 30 +:+ " " +:+ s +:+ " " in
  ljust s 100 equals_sign.

(** [get_framework_export_formats]: the set of each framework, as a
    list. *)
Definition get_framework_export_formats (framework : Framework) : list Format :=
  match framework with
  | PYT => [TORCHSCRIPT; ONNX]
  | TF2 => [TF_SAVEDMODEL]
  | Framework_ONNX => [ONNX]
  | JAX => [TF_SAVEDMODEL]
  end.

(** [get_base_format]: [dict.get] gives [None] for a format the
    framework's table does not hold. *)
Definition get_base_format (format : Format) (framework : Framework) : option Format :=
  match framework, format with
  | PYT, TENSORRT => Some ONNX
  | PYT, TORCH_TRT => Some TORCHSCRIPT
  | TF2, ONNX => Some TF_SAVEDMODEL
  | TF2, TENSORRT => Some TF_SAVEDMODEL
  | TF2, TF_TRT => Some TF_SAVEDMODEL
  | Framework_ONNX, TENSORRT => Some ONNX
  | JAX, ONNX => Some TF_SAVEDMODEL
  | JAX, TENSORRT => Some TF_SAVEDMODEL
  | JAX, TF_TRT => Some TF_SAVEDMODEL
  | _, _ => None
  end.

(** [get_tensor_type_name] *)
Definition get_tensor_type_name (framework : Framework) : string :=
  match framework with
  | PYT => "Union[torch.Tensor, numpy.ndarray]"
  | TF2 => "Union[tensorflow.Tensor, numpy.ndarray]"
  | _ => "numpy.ndarray"
  end.

(** A [Sample] (names to arrays) seen as the Python dict it is. *)
Definition sample_as_dict (d : list (string * PyObj)) : PyObj :=
  PyDict (map (fun kv => (PyStr (fst kv), snd kv)) d).

(** Whether a string holds the character [c]. *)
Fixpoint has_char (c : ascii) (s : string) : bool :=
  match s with
  | EmptyString => false
  | String x s' => bool_decide (x = c) || has_char c s'
  end.

(** The keyword arguments [ConvertSavedModel2TFTRT.__call__] builds
    (lines 147-155) and their encoding (line 157), for the exported and
    converted paths relative to the working directory and the value of
    the target precision. *)
Definition tftrt_script_args (str_other : PyObj -> string) (kw : CallArgs)
    (exported converted : Path) (precision : TensorRTPrecision) : list string :=
  parse_kwargs_to_cmd str_other
    [("exported_model_path", PyStr (as_posix exported));
     ("converted_model_path", PyStr (as_posix converted));
     ("max_workspace_size", PyInt (max_workspace_size kw));
     ("target_precision", PyStr (precision_value precision));
     ("minimum_segment_size", PyInt (minimum_segment_size kw));
     ("batch_dim", match batch_dim kw with Some d => PyInt d | None => PyNone end);
     ("navigator_workdir", PyStr (as_posix (workdir kw)))]
    (Some [cls_list; cls_dict; cls_tuple]).

(** A working directory that holds the exported SavedModel only. *)
Definition example_exported_fs : FS :=
  <[ ["navigator_workdir"; "tf-savedmodel"; "model.savedmodel"] := Dir ]>
  (<[ ["navigator_workdir"; "tf-savedmodel"] := Dir ]>
   (<[ ["navigator_workdir"] := Dir ]> ∅)).

(** The same after the TF-TRT output directory was created. *)
Definition example_exported_mkdir_fs : FS :=
  <[ ["navigator_workdir"; "tf-trt-fp16"] := Dir ]> example_exported_fs.

Definition example_onnx : ConvertBase := ConvertSavedModel2ONNX None None [].

Definition example_onnx_output : Path := ["onnx"; "model.onnx"].

(** * Properties *)

(** ** Strings *)

Lemma append_assoc (a b c : string) : (a +:+ b) +:+ c = a +:+ (b +:+ c).
Proof.
  induction a as [|x a IH]; [reflexivity|].
  change (String x ((a +:+ b) +:+ c) = String x (a +:+ (b +:+ c))).
  congruence.
Qed.

Lemma append_empty_r (a : string) : a +:+ EmptyString = a.
Proof.
  induction a as [|x a IH]; [reflexivity|].
  change (String x (a +:+ EmptyString) = String x a).
  congruence.
Qed.

Lemma append_empty_l (a : string) : EmptyString +:+ a = a.
Proof. reflexivity. Qed.

(** ** ArtifactPathResolver *)

Section ResolverFacts.

Variable Format_value : Format -> string.

Lemma path_str_directory_name format jit_type precision enable_xla jit_compile :
  path_str Format_value format jit_type precision enable_xla jit_compile
  = directory_name Format_value format jit_type precision enable_xla jit_compile.
Proof.
  unfold path_str, directory_name, variant_suffixes.
  destruct jit_type as [j|], enable_xla as [[|]|], jit_compile as [[|]|],
           precision as [p|];
    cbn [String.concat];
    rewrite ?bool_decide_eq_true_2, ?bool_decide_eq_false_2 by congruence;
    rewrite ?append_assoc, ?append_empty_l, ?append_empty_r;
    reflexivity.
Qed.

(** Which return statement is reached depends on the format family
    and on the variant parameters given. *)
Lemma format_to_relative_model_path_cases format jit_type precision enable_xla jit_compile :
  format_to_relative_model_path Format_value (Some format) jit_type precision
    enable_xla jit_compile
  = if supported format jit_type precision
    then Ok [path_str Format_value format jit_type precision enable_xla jit_compile;
             family_filename format]
    else Raise Exception_.
Proof.
  unfold format_to_relative_model_path, supported.
  destruct format, jit_type, precision; reflexivity.
Qed.

(** C5: for every supported (format, jit_type, precision, enable_xla,
    jit_compile) combination [format_to_relative_model_path] returns
    the two-segment relative path whose directory name is the format
    value followed by the suffixes [-<jit-variant>], [-xla] (only when
    [enable_xla is True]), [-jit] (only when [jit_compile is True]) and
    [-<precision>], in this order, and whose file name is the one of
    the format family. *)
Theorem format_to_relative_model_path_supported
    format jit_type precision enable_xla jit_compile :
  supported format jit_type precision = true ->
  format_to_relative_model_path Format_value (Some format) jit_type precision
    enable_xla jit_compile
  = Ok [directory_name Format_value format jit_type precision enable_xla jit_compile;
        family_filename format].
Proof.
  intros Hs.
  rewrite format_to_relative_model_path_cases, Hs, path_str_directory_name.
  reflexivity.
Qed.

(** C6: [format_to_relative_model_path] raises for every unsupported
    or underspecified combination and returns a path for no other:
    TensorRT without a precision, TorchScript without a jit type,
    Torch-TensorRT without a jit type or without a precision and TF-TRT
    without a precision all raise, as does a missing format. *)
Theorem format_to_relative_model_path_unsupported :
  (forall format jit_type precision enable_xla jit_compile,
     is_Raise (format_to_relative_model_path Format_value (Some format) jit_type
                 precision enable_xla jit_compile)
     = negb (supported format jit_type precision))
  /\ (forall jit_type precision enable_xla jit_compile,
        is_Raise (format_to_relative_model_path Format_value None jit_type precision
                    enable_xla jit_compile) = true)
  /\ (forall jit_type enable_xla jit_compile,
        format_to_relative_model_path Format_value (Some TENSORRT) jit_type None
          enable_xla jit_compile = Raise Exception_)
  /\ (forall precision enable_xla jit_compile,
        format_to_relative_model_path Format_value (Some TORCHSCRIPT) None precision
          enable_xla jit_compile = Raise Exception_)
  /\ (forall precision enable_xla jit_compile,
        format_to_relative_model_path Format_value (Some TORCH_TRT) None precision
          enable_xla jit_compile = Raise Exception_)
  /\ (forall jit_type enable_xla jit_compile,
        format_to_relative_model_path Format_value (Some TORCH_TRT) jit_type None
          enable_xla jit_compile = Raise Exception_)
  /\ (forall jit_type enable_xla jit_compile,
        format_to_relative_model_path Format_value (Some TF_TRT) jit_type None
          enable_xla jit_compile = Raise Exception_).
Proof.
  repeat split; intros;
    rewrite ?format_to_relative_model_path_cases; try reflexivity.
  all: try (destruct (supported _ _ _); reflexivity).
  all: destruct jit_type; reflexivity.
Qed.

End ResolverFacts.

Lemma format_to_relative_model_path_supported_witness :
  supported TORCH_TRT (Some SCRIPT) (Some fp16) = true
  /\ format_to_relative_model_path example_Format_value (Some TORCH_TRT) (Some SCRIPT)
       (Some fp16) (Some true) (Some true)
     = Ok ["torch-trt-script-xla-jit-fp16"; "model.pt"].
Proof.
  split; [reflexivity|].
  apply (format_to_relative_model_path_supported example_Format_value
           TORCH_TRT (Some SCRIPT) (Some fp16) (Some true) (Some true)).
  reflexivity.
Defined.

(** ** The keyword encoder *)

Section EncoderFacts.

Variable str_other : PyObj -> string.

Lemma fold_extend_flat_map {A B} (f : A -> list B) (l : list A) (acc : list B) :
  fold_left (fun args x => args ++ f x) l acc = acc ++ flat_map f l.
Proof.
  revert acc.
  induction l as [|x l IH]; intros acc; simpl.
  - now rewrite app_nil_r.
  - rewrite IH. now rewrite <- app_assoc.
Qed.

Lemma length_flat_map_pairs {A B} (f : A -> list B) (l : list A) :
  (forall x, length (f x) = 2) -> length (flat_map f l) = 2 * length l.
Proof.
  intros Hf.
  induction l as [|x l IH]; simpl; [reflexivity|].
  rewrite length_app, Hf, IH. lia.
Qed.

Lemma structured_call_site (v : PyObj) :
  isinstance v [cls_list; cls_dict; cls_tuple] = structured v.
Proof. destruct v; reflexivity. Qed.

(** C7, as amended: for every keyword-argument mapping and every
    [quote_wrap_classes], [parse_kwargs_to_cmd] returns a flat list
    with exactly two entries per key, in the mapping's order: the flag
    [--<key>] and the value's string form with every single quote
    replaced by a double quote, which is wrapped in single quotes when
    the value is an instance of one of [quote_wrap_classes] and left
    bare otherwise.  With the classes of the TF-TRT call site the
    wrapped values are the lists, tuples and dicts; with the default
    no value is wrapped. *)
Theorem parse_kwargs_to_cmd_encoding :
  forall (kwargs : list (string * PyObj)) (quote_wrap_classes : option (list PyClass)),
    let classes := match quote_wrap_classes with Some cs => cs | None => [] end in
    let quoted v := replace_char single_quote double_quote (py_str str_other v) in
    parse_kwargs_to_cmd str_other kwargs quote_wrap_classes
    = flat_map (fun kv => ["--" +:+ fst kv;
                           if isinstance (snd kv) classes
                           then "'" +:+ quoted (snd kv) +:+ "'"
                           else quoted (snd kv)]) kwargs
    /\ length (parse_kwargs_to_cmd str_other kwargs quote_wrap_classes)
       = 2 * length kwargs
    /\ parse_kwargs_to_cmd str_other kwargs (Some [cls_list; cls_dict; cls_tuple])
       = flat_map (fun kv => ["--" +:+ fst kv;
                              if structured (snd kv)
                              then "'" +:+ quoted (snd kv) +:+ "'"
                              else quoted (snd kv)]) kwargs
    /\ parse_kwargs_to_cmd str_other kwargs None
       = flat_map (fun kv => ["--" +:+ fst kv; quoted (snd kv)]) kwargs.
Proof.
  intros kwargs qwc classes quoted.
  assert (Hgen : forall q,
             parse_kwargs_to_cmd str_other kwargs q
             = flat_map (fun kv => encode_item str_other
                                     (match q with Some cs => cs | None => [] end)
                                     (fst kv) (snd kv)) kwargs).
  { intros q. unfold parse_kwargs_to_cmd.
    now rewrite fold_extend_flat_map. }
  repeat split.
  - rewrite Hgen. reflexivity.
  - rewrite Hgen. apply length_flat_map_pairs. reflexivity.
  - rewrite Hgen. apply flat_map_ext. intros [k v].
    unfold encode_item. cbn [fst snd]. now rewrite structured_call_site.
  - rewrite Hgen. reflexivity.
Qed.

End EncoderFacts.

(** C7, as stated, fails: a string value holding a single quote is not
    encoded as its string form. *)
Lemma parse_kwargs_to_cmd_not_claimed :
  parse_kwargs_to_cmd no_str [("name", PyStr "it's")] (Some [cls_list; cls_dict; cls_tuple])
  <> claimed_kwargs_encoding (py_str no_str) [("name", PyStr "it's")].
Proof. vm_compute. discriminate. Qed.

(** ** Sample validation *)

Section ValidationFacts.

Variable tensor_rows : TensorKind -> nat -> list nat.

Lemma _is_valid_io_accepted (sample : PyObj) (framework : Framework) :
  _is_valid_io tensor_rows sample framework
  = accepted_sample_shape tensor_rows sample framework.
Proof.
  unfold _is_valid_io, accepted_sample_shape, mapping_of_tensors,
    iterable_of_tensors, is_Mapping, all_tensors.
  destruct (is_tensor sample framework); [reflexivity|].
  destruct (as_Mapping sample) as [items|]; cbn [orb negb andb].
  - now rewrite orb_false_r.
  - destruct (as_Iterable tensor_rows sample); reflexivity.
Qed.

(** C8, as amended: [validate_sample_input] and
    [validate_sample_output] raise [UserError] if and only if the
    sample is not a single tensor of the framework's tensor types, nor
    a Mapping whose every value is such a tensor, nor an Iterable that
    is not a Mapping and whose every element is such a tensor; for a
    sample of one of these shapes they return normally. *)
Theorem validate_sample_accepted_shapes :
  forall (sample : PyObj) (framework : Framework),
    (validate_sample_input tensor_rows sample framework = Raise UserError
     <-> accepted_sample_shape tensor_rows sample framework = false)
    /\ (validate_sample_input tensor_rows sample framework = Ok tt
        <-> accepted_sample_shape tensor_rows sample framework = true)
    /\ validate_sample_output tensor_rows sample framework
       = validate_sample_input tensor_rows sample framework.
Proof.
  intros sample framework.
  unfold validate_sample_input, validate_sample_output.
  rewrite _is_valid_io_accepted.
  destruct (accepted_sample_shape tensor_rows sample framework); cbn [negb];
    repeat split; intros; congruence.
Qed.

End ValidationFacts.

(** C8, as stated, fails: a dict whose keys are tensors and whose value
    is not one is an Iterable of tensors, and is rejected. *)
Lemma validate_sample_input_tensor_keys :
  let sample := PyDict [(PyTensor TorchTensor 0, PyStr "x")] in
  ~ (validate_sample_input no_rows sample PYT = Raise UserError
     <-> claimed_sample_shape no_rows sample PYT = false).
Proof.
  cbv zeta. intros [H _].
  assert (Hr : validate_sample_input no_rows
                 (PyDict [(PyTensor TorchTensor 0, PyStr "x")]) PYT = Raise UserError)
    by reflexivity.
  specialize (H Hr). vm_compute in H. discriminate.
Qed.

(** ** Sample extraction *)

Lemma zip_fst_take {A B} (a : list A) (b : list B) :
  map fst (zip a b) = take (length b) a.
Proof.
  revert b.
  induction a as [|x a IH]; intros [|y b]; simpl; try reflexivity.
  now rewrite IH.
Qed.

Lemma zip_snd_take {A B} (a : list A) (b : list B) :
  map snd (zip a b) = take (length a) b.
Proof.
  revert b.
  induction a as [|x a IH]; intros [|y b]; simpl; try reflexivity.
  now rewrite IH.
Qed.

Lemma to_numpy_tensor (t : PyObj) (framework : Framework) :
  is_tensor t framework = true ->
  exists d, to_numpy t framework = Ok (PyTensor Ndarray d).
Proof.
  destruct t as [| | | | | | | |k d]; destruct framework; try discriminate;
    destruct k; try discriminate; intros _; eexists; reflexivity.
Qed.

Lemma convert_pairs_names (framework : Framework) (pairs : list (string * PyObj)) :
  Forall (fun t => is_tensor t framework = true) (map snd pairs) ->
  exists converted,
    convert_pairs framework pairs = Ok converted
    /\ map fst converted = map fst pairs
    /\ Forall (fun a => is_ndarray a = true) (map snd converted).
Proof.
  induction pairs as [|[n t] pairs IH]; simpl; intros Hall.
  - exists []. repeat split. constructor.
  - inversion Hall as [|? ? Ht Hrest]; subst.
    destruct (to_numpy_tensor t framework Ht) as [d Hd].
    destruct (IH Hrest) as (converted & Hc & Hnames & Harr).
    exists ((n, PyTensor Ndarray d) :: converted).
    rewrite Hd. cbn [rbind]. rewrite Hc. cbn [rbind].
    repeat split; simpl; [now rewrite Hnames | constructor; [reflexivity | exact Harr]].
Qed.

Lemma dict_setitem_fresh {V} (k : string) (v : V) (d : list (string * V)) :
  ~ In k (map fst d) -> dict_setitem k v d = d ++ [(k, v)].
Proof.
  induction d as [|[k' v'] d IH]; simpl; intros Hk; [reflexivity|].
  rewrite bool_decide_eq_false_2 by (intros ->; apply Hk; now left).
  rewrite IH; [reflexivity|]. intros Hin. apply Hk. now right.
Qed.

Lemma fold_setitem_fresh {V} (pairs acc : list (string * V)) :
  List.NoDup (map fst (acc ++ pairs)) ->
  fold_left (fun d kv => dict_setitem (fst kv) (snd kv) d) pairs acc = acc ++ pairs.
Proof.
  revert acc.
  induction pairs as [|[k v] pairs IH]; intros acc Hnd; simpl.
  - now rewrite app_nil_r.
  - assert (Hfresh : ~ In k (map fst acc)).
    { rewrite map_app in Hnd. simpl in Hnd.
      apply List.NoDup_remove_2 in Hnd. intros Hin. apply Hnd.
      apply in_or_app. now left. }
    rewrite (dict_setitem_fresh k v acc Hfresh).
    rewrite IH; rewrite <- app_assoc; [reflexivity | exact Hnd].
Qed.

(** A comprehension over pairwise distinct names keeps the pairs. *)
Lemma dict_of_pairs_distinct {V} (pairs : list (string * V)) :
  List.NoDup (map fst pairs) -> dict_of_pairs pairs = pairs.
Proof.
  intros Hnd. unfold dict_of_pairs. now rewrite fold_setitem_fresh.
Qed.

Lemma NoDup_take {A} (n : nat) (l : list A) : List.NoDup l -> List.NoDup (take n l).
Proof.
  revert n.
  induction l as [|x l IH]; intros [|n] Hnd; simpl; try constructor.
  - inversion Hnd as [|? ? Hx Hl]; subst.
    intros Hin. apply Hx.
    rewrite <- (take_drop n l). apply in_or_app. now left.
  - inversion Hnd; subst. now apply IH.
Qed.

Lemma Forall_take {A} (P : A -> Prop) (n : nat) (l : list A) :
  Forall P l -> Forall P (take n l).
Proof.
  revert n.
  induction l as [|x l IH]; intros [|n] Hl; simpl; try constructor;
    inversion Hl; subst; auto.
Qed.

Lemma convert_pairs_fst (framework : Framework) (pairs converted : list (string * PyObj)) :
  convert_pairs framework pairs = Ok converted ->
  map fst converted = map fst pairs.
Proof.
  revert converted.
  induction pairs as [|[n t] pairs IH]; simpl; intros converted H.
  - now inversion H.
  - destruct (to_numpy t framework) as [a|e]; [|discriminate]. cbn [rbind] in H.
    destruct (convert_pairs framework pairs) as [rest|e]; [|discriminate].
    cbn [rbind] in H. inversion H. simpl. now rewrite (IH rest).
Qed.

Lemma dict_setitem_keys {V} (k : string) (v : V) (d : list (string * V)) (n : string) :
  In n (map fst (dict_setitem k v d)) -> n = k \/ In n (map fst d).
Proof.
  induction d as [|[k' v'] d IH]; simpl; intros Hin.
  - destruct Hin as [<- | []]. now left.
  - destruct (bool_decide (k = k')); simpl in Hin.
    + destruct Hin as [<- | Hin]; [now left | right; now right].
    + destruct Hin as [<- | Hin]; [right; now left|].
      destruct (IH Hin); [now left | right; now right].
Qed.

(** A comprehension has no other keys than the ones it is given. *)
Lemma dict_of_pairs_keys {V} (pairs : list (string * V)) (n : string) :
  In n (map fst (dict_of_pairs pairs)) -> In n (map fst pairs).
Proof.
  unfold dict_of_pairs.
  assert (Hgen : forall acc,
             In n (map fst (fold_left (fun d kv => dict_setitem (fst kv) (snd kv) d)
                              pairs acc)) ->
             In n (map fst acc) \/ In n (map fst pairs)).
  { induction pairs as [|[k v] pairs IH]; simpl; intros acc Hin; [now left|].
    destruct (IH _ Hin) as [Hacc | Hrest]; [|right; now right].
    destruct (dict_setitem_keys _ _ _ _ Hacc) as [-> | Hacc'];
      [right; now left | now left]. }
  intros Hin. destruct (Hgen [] Hin) as [[] | H]. exact H.
Qed.

(** C10: for every name-to-tensor mapping sample, [sample_to_tuple]
    keeps the mapping's values in iteration order and drops its keys,
    so two mappings with the same values in the same order give the same
    result whatever their keys; the names of the mapping
    [extract_sample] returns are names of [input_metadata], taken by
    position; and when the values are tensors of the framework and the
    metadata names are distinct, [extract_sample] returns, with exactly
    the leading names of [input_metadata] as keys. *)
Theorem extract_sample_mapping_names :
  forall (items : list (PyObj * PyObj)) (input_metadata : list string)
         (framework : Framework),
    sample_to_tuple (PyDict items) = values items
    /\ (forall items',
          values items' = values items ->
          extract_sample (PyDict items') input_metadata framework
          = extract_sample (PyDict items) input_metadata framework)
    /\ (forall d,
          extract_sample (PyDict items) input_metadata framework = Ok d ->
          forall n, In n (map fst d) -> In n (take (length items) input_metadata))
    /\ (Forall (fun t => is_tensor t framework = true) (values items) ->
        List.NoDup input_metadata ->
        exists d,
          extract_sample (PyDict items) input_metadata framework = Ok d
          /\ map fst d = take (length items) input_metadata
          /\ Forall (fun a => is_ndarray a = true) (map snd d)).
Proof.
  intros items meta framework.
  split; [reflexivity|].
  split.
  { intros items' Hvals. unfold extract_sample.
    change (sample_to_tuple (PyDict items')) with (values items').
    change (sample_to_tuple (PyDict items)) with (values items).
    now rewrite Hvals. }
  assert (Hlen : length (values items) = length items)
    by (unfold values; apply length_map).
  split.
  { intros d Hd n Hn. unfold extract_sample in Hd.
    change (sample_to_tuple (PyDict items)) with (values items) in Hd.
    destruct (convert_pairs framework (zip meta (values items))) as [converted|e] eqn:Hc;
      [|discriminate].
    cbn [rbind] in Hd. inversion Hd; subst d.
    apply dict_of_pairs_keys in Hn.
    rewrite (convert_pairs_fst _ _ _ Hc), zip_fst_take, Hlen in Hn. exact Hn. }
  intros Htensors Hnd.
  unfold extract_sample.
  change (sample_to_tuple (PyDict items)) with (values items).
  destruct (convert_pairs_names framework (zip meta (values items)))
    as (converted & Hc & Hnames & Harr).
  { rewrite zip_snd_take. now apply Forall_take. }
  assert (Hkeys : map fst converted = take (length items) meta).
  { now rewrite Hnames, zip_fst_take, Hlen. }
  exists converted.
  rewrite Hc. cbn [rbind].
  rewrite dict_of_pairs_distinct by (rewrite Hkeys; now apply NoDup_take).
  repeat split; assumption.
Qed.

Lemma extract_sample_mapping_names_witness :
  extract_sample
    (PyDict [(PyStr "x", PyTensor TorchTensor 1); (PyStr "y", PyTensor Ndarray 2)])
    ["input__0"; "input__1"; "input__2"] PYT
  = Ok [("input__0", PyTensor Ndarray 1); ("input__1", PyTensor Ndarray 2)]
  /\ exists d,
       extract_sample
         (PyDict [(PyStr "x", PyTensor TorchTensor 1); (PyStr "y", PyTensor Ndarray 2)])
         ["input__0"; "input__1"; "input__2"] PYT = Ok d
       /\ map fst d = ["input__0"; "input__1"]
       /\ Forall (fun a => is_ndarray a = true) (map snd d).
Proof.
  split; [reflexivity|].
  apply (extract_sample_mapping_names
           [(PyStr "x", PyTensor TorchTensor 1); (PyStr "y", PyTensor Ndarray 2)]
           ["input__0"; "input__1"; "input__2"] PYT).
  - repeat constructor.
  - repeat constructor; simpl; intuition discriminate.
Defined.

(** ** The working directory *)

Lemma removelast_snoc2 {A} (w : list A) (a b : A) : removelast (w ++ [a; b]) = w ++ [a].
Proof.
  induction w as [|x w IH]; [reflexivity|].
  change ((x :: w) ++ [a; b]) with (x :: (w ++ [a; b])).
  cbn [removelast]. rewrite IH.
  destruct w; reflexivity.
Qed.

(** Creating directories along a path that is already made of
    directories changes nothing. *)
Lemma mkdir_from_present (done rest : Path) (fs : FS) :
  (forall k, 0 < k <= length rest -> fs !! (done ++ take k rest) = Some Dir) ->
  mkdir_from done rest fs = Ok fs.
Proof.
  revert done.
  induction rest as [|s rest IH]; intros done Hdirs; [reflexivity|].
  cbn [mkdir_from]. cbv zeta.
  assert (H1 : fs !! (done ++ [s]) = Some Dir).
  { apply (Hdirs 1). simpl. lia. }
  rewrite H1.
  apply IH. intros k Hk.
  rewrite <- app_assoc. apply (Hdirs (S k)). simpl. lia.
Qed.

(** Creating the directories of a path touches no longer path. *)
Lemma mkdir_from_longer (done rest : Path) (fs fs' : FS) (p : Path) :
  mkdir_from done rest fs = Ok fs' ->
  length done + length rest < length p ->
  fs' !! p = fs !! p.
Proof.
  revert done fs.
  induction rest as [|s rest IH]; intros done fs Hmk Hlen.
  - simpl in Hmk. now inversion Hmk.
  - cbn [mkdir_from] in Hmk. cbv zeta in Hmk.
    assert (Hlen' : length (done ++ [s]) + length rest < length p).
    { rewrite length_app. simpl in *. lia. }
    destruct (fs !! (done ++ [s])) as [[|]|] eqn:Hq.
    + destruct rest; discriminate.
    + now apply (IH _ _ Hmk).
    + rewrite (IH _ _ Hmk Hlen').
      apply lookup_insert_ne. intros Heq. subst p.
      rewrite length_app in Hlen. simpl in Hlen. lia.
Qed.

Lemma mkdir_parents_cached (fs : FS) (workdir : Path) (d f : string) :
  fs_wf fs ->
  is_Some (fs !! (workdir ++ [d; f])) ->
  mkdir_parents (workdir ++ [d]) fs = Ok fs.
Proof.
  intros Hwf Hex. unfold mkdir_parents.
  apply mkdir_from_present. intros k Hk. cbn [app].
  assert (Hl : (workdir ++ [d]) ++ [f] = workdir ++ [d; f])
    by (now rewrite <- app_assoc).
  assert (Hne : take k (workdir ++ [d]) <> []).
  { intros Hnil. apply (f_equal length) in Hnil.
    rewrite length_take in Hnil. simpl in Hnil. lia. }
  pose proof (take_drop k (workdir ++ [d])) as Htd.
  destruct (drop k (workdir ++ [d])) as [|x r].
  - rewrite app_nil_r in Htd.
    apply (Hwf _ f []); [|exact Hne]. now rewrite Htd, Hl.
  - apply (Hwf _ x (r ++ [f])); [|exact Hne].
    replace (take k (workdir ++ [d]) ++ x :: r ++ [f])
      with ((take k (workdir ++ [d]) ++ x :: r) ++ [f])
      by (now rewrite <- app_assoc).
    now rewrite Htd, Hl.
Qed.

(** ** The monad, step by step *)

Section MonadSteps.

Context {S A B : Type}.

Lemma bind_ret (a : A) (k : A -> SE S B) (s : S) : bind (ret a) k s = k a s.
Proof. reflexivity. Qed.

Lemma bind_raise (e : exn) (k : A -> SE S B) (s : S) :
  bind (raise e) k s = (Raise e, s).
Proof. reflexivity. Qed.

Lemma bind_lift_Ok (a : A) (k : A -> SE S B) (s : S) : bind (lift (Ok a)) k s = k a s.
Proof. reflexivity. Qed.

Lemma bind_run (m : SE S A) (k : A -> SE S B) (s s' : S) (a : A) :
  m s = (Ok a, s') -> bind m k s = k a s'.
Proof. intros H. unfold bind. now rewrite H. Qed.

End MonadSteps.

Section CallSteps.

Context {B : Type}.

Lemma bind_emit (e : event) (k : unit -> M B) (s : CallState) :
  bind (emit e) k s
  = k tt {| self := self s; fs := fs s; available_gpus := available_gpus s;
            trace := trace s ++ [e] |}.
Proof. reflexivity. Qed.

Lemma bind_get_self (k : ConvertBase -> M B) (s : CallState) :
  bind get_self k s = k (self s) s.
Proof. reflexivity. Qed.

Lemma bind_get_available_gpus (k : list nat -> M B) (s : CallState) :
  bind get_available_gpus k s = k (available_gpus s) s.
Proof. reflexivity. Qed.

Lemma bind_exists (p : Path) (k : bool -> M B) (s : CallState) :
  bind (exists_ p) k s = k (path_exists (fs s) p) s.
Proof. reflexivity. Qed.

Lemma bind_assign_status (st : Status) (k : unit -> M B) (s : CallState) :
  bind (assign_status st) k s
  = k tt {| self := set_status st (self s); fs := fs s;
            available_gpus := available_gpus s; trace := trace s |}.
Proof. reflexivity. Qed.

Lemma bind_on_disk_Ok (f : FS -> result FS) (fs' : FS) (k : unit -> M B)
    (s : CallState) :
  f (fs s) = Ok fs' ->
  bind (on_disk f) k s
  = k tt {| self := self s; fs := fs'; available_gpus := available_gpus s;
            trace := trace s |}.
Proof. intros H. unfold bind, on_disk. now rewrite H. Qed.

End CallSteps.

Ltac call_step :=
  first [ rewrite bind_emit | rewrite bind_get_self | rewrite bind_get_available_gpus
        | rewrite bind_exists | rewrite bind_assign_status | rewrite bind_lift_Ok
        | rewrite bind_ret | rewrite bind_raise ];
  cbn [self fs available_gpus trace].

(** ** Convert commands *)

Section ConvertFacts.

Variable Format_value : Format -> string.
Variable str_other : PyObj -> string.
Variable execute_cmd : Path -> Path -> bool -> list string -> FS -> result FS.
Variable execute_external_runtime_script :
  Path -> Path -> Path -> bool -> string -> list string -> FS -> result FS.
Variable sm2tftrt_file : string.

(** The path of the exported SavedModel is always defined. *)
Lemma exported_model_path_defined (xla jc : option bool) :
  format_to_relative_model_path Format_value (Some TF_SAVEDMODEL) None None xla jc
  = Ok [path_str Format_value TF_SAVEDMODEL None None xla jc; "model.savedmodel"].
Proof. now rewrite format_to_relative_model_path_cases. Qed.

(** An output path has two segments. *)
Lemma get_output_relative_path_two (c : ConvertBase) (rel : Path) :
  get_output_relative_path Format_value c = Ok rel ->
  exists d f, rel = [d; f].
Proof.
  unfold get_output_relative_path.
  rewrite format_to_relative_model_path_cases.
  destruct (supported _ _ _); [|discriminate].
  intros H. inversion H. eauto.
Qed.

Lemma get_output_relative_path_set_status (st : Status) (c : ConvertBase) :
  get_output_relative_path Format_value (set_status st c)
  = get_output_relative_path Format_value c.
Proof. reflexivity. Qed.

Lemma exported_relative_path_defined (c : ConvertBase) :
  exported_relative_path Format_value c
  = Ok [path_str Format_value TF_SAVEDMODEL None None (enable_xla c) (jit_compile c);
        "model.savedmodel"].
Proof. apply exported_model_path_defined. Qed.

(** The commands the two constructors build have an output path. *)
Lemma constructed_output_path (st : Status) :
  (forall xla jc reqs,
     is_Ok (get_output_relative_path Format_value
              (set_status st (ConvertSavedModel2ONNX xla jc reqs))) = true)
  /\ (forall p xla jc reqs,
        is_Ok (get_output_relative_path Format_value
                 (set_status st (ConvertSavedModel2TFTRT p xla jc reqs))) = true).
Proof.
  split; intros; unfold get_output_relative_path;
    rewrite format_to_relative_model_path_cases; reflexivity.
Qed.

Section Calls.

Variables (c : ConvertBase) (kw : CallArgs) (fs0 : FS) (gpus : list nat)
          (tr : list event).

(** Without an accelerator the TF-TRT call stops at its first check. *)
Lemma tftrt_call_no_gpu :
  gpus = [] ->
  convert_call Format_value str_other execute_cmd execute_external_runtime_script
    sm2tftrt_file SavedModel2TFTRT kw
    {| self := c; fs := fs0; available_gpus := gpus; trace := tr |}
  = (Raise (RuntimeError "No GPUs available."),
     {| self := c; fs := fs0; available_gpus := [];
        trace := tr ++ [Log_info "SavedModel to TF-TRT conversion started"] |}).
Proof.
  intros ->.
  unfold convert_call, ConvertSavedModel2TFTRT_call.
  do 2 call_step. reflexivity.
Qed.

Lemma onnx_call_cache_hit (rel : Path) :
  get_output_relative_path Format_value c = Ok rel ->
  path_exists fs0 (workdir kw // rel) = true ->
  convert_call Format_value str_other execute_cmd execute_external_runtime_script
    sm2tftrt_file SavedModel2ONNX kw
    {| self := c; fs := fs0; available_gpus := gpus; trace := tr |}
  = (Ok (Some rel),
     {| self := c; fs := fs0; available_gpus := gpus;
        trace := tr ++ [Log_info "SavedModel to ONNX conversion started";
                        Log_info "Model already exists. Skipping conversion."] |}).
Proof.
  intros Hrel Hex.
  unfold convert_call, ConvertSavedModel2ONNX_call.
  do 2 call_step.
  rewrite exported_model_path_defined. call_step. rewrite Hrel.
  do 2 call_step. rewrite Hex. repeat call_step.
  unfold ret. now rewrite <- app_assoc.
Qed.

Lemma tftrt_call_cache_hit (rel : Path) :
  get_output_relative_path Format_value c = Ok rel ->
  path_exists fs0 (workdir kw // rel) = true ->
  gpus <> [] ->
  fs_wf fs0 ->
  convert_call Format_value str_other execute_cmd execute_external_runtime_script
    sm2tftrt_file SavedModel2TFTRT kw
    {| self := c; fs := fs0; available_gpus := gpus; trace := tr |}
  = (Ok (Some rel),
     {| self := c; fs := fs0; available_gpus := gpus;
        trace := tr ++ [Log_info "SavedModel to TF-TRT conversion started";
                        Log_info "Model already exists. Skipping conversion."] |}).
Proof.
  intros Hrel Hex Hgpu Hwf.
  destruct (get_output_relative_path_two c rel Hrel) as (d & f & ->).
  unfold convert_call, ConvertSavedModel2TFTRT_call.
  do 2 call_step.
  destruct gpus as [|g gs]; [congruence|].
  call_step.
  rewrite exported_model_path_defined. call_step. rewrite Hrel. call_step.
  unfold path_join, parent in *. rewrite removelast_snoc2.
  rewrite (bind_on_disk_Ok _ fs0).
  2:{ cbn [fs]. apply (mkdir_parents_cached fs0 (workdir kw) d f Hwf).
      unfold path_exists in Hex. now apply bool_decide_eq_true_1 in Hex. }
  cbn [self fs available_gpus trace].
  call_step. rewrite Hex. repeat call_step.
  unfold ret. now rewrite <- app_assoc.
Qed.

Lemma onnx_call_missing_input (rel exported : Path) :
  get_output_relative_path Format_value c = Ok rel ->
  exported_relative_path Format_value c = Ok exported ->
  path_exists fs0 (workdir kw // rel) = false ->
  path_exists fs0 (workdir kw // exported) = false ->
  convert_call Format_value str_other execute_cmd execute_external_runtime_script
    sm2tftrt_file SavedModel2ONNX kw
    {| self := c; fs := fs0; available_gpus := gpus; trace := tr |}
  = (Ok None,
     {| self := set_status SKIPPED c; fs := fs0; available_gpus := gpus;
        trace := tr ++ [Log_info "SavedModel to ONNX conversion started";
                        Log_warning (not_found_warning (workdir kw // exported))] |}).
Proof.
  intros Hrel Hexp Hout Hin.
  unfold convert_call, ConvertSavedModel2ONNX_call.
  do 2 call_step.
  fold (exported_relative_path Format_value c). rewrite Hexp.
  call_step. rewrite Hrel.
  do 2 call_step. rewrite Hout. call_step. rewrite Hin. cbn [negb].
  repeat call_step.
  unfold ret. now rewrite <- app_assoc.
Qed.

Lemma tftrt_call_missing_input (rel exported : Path) (fs1 : FS) :
  get_output_relative_path Format_value c = Ok rel ->
  exported_relative_path Format_value c = Ok exported ->
  path_exists fs0 (workdir kw // rel) = false ->
  path_exists fs0 (workdir kw // exported) = false ->
  gpus <> [] ->
  mkdir_parents (parent (workdir kw // rel)) fs0 = Ok fs1 ->
  convert_call Format_value str_other execute_cmd execute_external_runtime_script
    sm2tftrt_file SavedModel2TFTRT kw
    {| self := c; fs := fs0; available_gpus := gpus; trace := tr |}
  = (Ok None,
     {| self := set_status SKIPPED c; fs := fs1; available_gpus := gpus;
        trace := tr ++ [Log_info "SavedModel to TF-TRT conversion started";
                        Log_warning (not_found_warning (workdir kw // exported))] |}).
Proof.
  intros Hrel Hexp Hout Hin Hgpu Hmk.
  destruct (get_output_relative_path_two c rel Hrel) as (d & f & ->).
  assert (Hexported : length exported = 2).
  { rewrite exported_relative_path_defined in Hexp.
    injection Hexp as <-. reflexivity. }
  assert (Hlong : forall q : Path, length q = length (workdir kw) + 2 ->
                    path_exists fs1 q = path_exists fs0 q).
  { intros q Hq. unfold path_exists.
    rewrite (mkdir_from_longer [] _ fs0 fs1 q Hmk); [reflexivity|].
    unfold path_join, parent. rewrite removelast_snoc2, length_app. simpl. lia. }
  unfold convert_call, ConvertSavedModel2TFTRT_call.
  do 2 call_step.
  destruct gpus as [|g gs]; [congruence|].
  call_step.
  fold (exported_relative_path Format_value c). rewrite Hexp.
  call_step. rewrite Hrel. call_step.
  rewrite (bind_on_disk_Ok _ fs1) by exact Hmk.
  cbn [self fs available_gpus trace].
  call_step.
  rewrite Hlong by (unfold path_join; rewrite length_app; reflexivity).
  rewrite Hout. call_step.
  rewrite Hlong by (unfold path_join; rewrite length_app, Hexported; reflexivity).
  rewrite Hin. cbn [negb].
  repeat call_step.
  unfold ret. now rewrite <- app_assoc.
Qed.

End Calls.

(** C9: [ConvertSavedModel2TFTRT.__call__] checks the accelerators
    before anything else: with no GPU available every call raises
    [RuntimeError] right after its first log line, whatever the command,
    its arguments and the working directory hold, so also when the
    converted artifact is already on disk; the cache-hit branch is not
    reached, the disk and the command are left as they were. *)
Theorem tftrt_gpu_check_precedes_cache_hit :
  forall (c : ConvertBase) (max_workspace_size minimum_segment_size : Z)
         (workdir : Path) (model_name : string) (verbose : bool)
         (batch_dim : option Z) (fs0 : FS) (tr : list event),
    ConvertSavedModel2TFTRT_call Format_value str_other execute_external_runtime_script
      sm2tftrt_file max_workspace_size minimum_segment_size workdir model_name
      verbose batch_dim
      {| self := c; fs := fs0; available_gpus := []; trace := tr |}
    = (Raise (RuntimeError "No GPUs available."),
       {| self := c; fs := fs0; available_gpus := [];
          trace := tr ++ [Log_info "SavedModel to TF-TRT conversion started"] |}).
Proof.
  intros.
  unfold ConvertSavedModel2TFTRT_call.
  do 2 call_step. reflexivity.
Qed.

(** C2, as amended: when the canonical output artifact (the working
    directory joined with the command's output relative path) exists at
    the call, [ConvertSavedModel2ONNX] always, and
    [ConvertSavedModel2TFTRT] on a machine with a GPU, return the output
    relative path without running the external conversion; the command
    and the disk are left as they were. *)
Theorem convert_cache_hit :
  forall (cls : ConvertClass) (c : ConvertBase) (kw : CallArgs) (fs0 : FS)
         (gpus : list nat) (tr : list event) (rel : Path),
    get_output_relative_path Format_value c = Ok rel ->
    path_exists fs0 (workdir kw // rel) = true ->
    (cls = SavedModel2TFTRT -> gpus <> [] /\ fs_wf fs0) ->
    exists logs,
      convert_call Format_value str_other execute_cmd execute_external_runtime_script
        sm2tftrt_file cls kw
        {| self := c; fs := fs0; available_gpus := gpus; trace := tr |}
      = (Ok (Some rel),
         {| self := c; fs := fs0; available_gpus := gpus; trace := tr ++ logs |})
      /\ executes_external logs = false.
Proof.
  intros cls c kw fs0 gpus tr rel Hrel Hex Hgpu.
  destruct cls.
  - eexists. split; [eapply onnx_call_cache_hit; eassumption | reflexivity].
  - destruct (Hgpu eq_refl) as [Hg Hwf].
    eexists. split; [eapply tftrt_call_cache_hit; eassumption | reflexivity].
Qed.

(** C4, as amended: when neither the canonical output artifact nor the
    exported SavedModel exists at the call, [ConvertSavedModel2ONNX]
    always, and [ConvertSavedModel2TFTRT] on a machine with a GPU and
    once the output directory is created, set the command's status to
    [SKIPPED] and return [None] without running the external
    conversion. *)
Theorem convert_missing_input :
  forall (cls : ConvertClass) (c : ConvertBase) (kw : CallArgs) (fs0 fs1 : FS)
         (gpus : list nat) (tr : list event) (rel exported : Path),
    get_output_relative_path Format_value c = Ok rel ->
    exported_relative_path Format_value c = Ok exported ->
    path_exists fs0 (workdir kw // rel) = false ->
    path_exists fs0 (workdir kw // exported) = false ->
    match cls with
    | SavedModel2ONNX => fs1 = fs0
    | SavedModel2TFTRT =>
        gpus <> [] /\ mkdir_parents (parent (workdir kw // rel)) fs0 = Ok fs1
    end ->
    exists logs,
      convert_call Format_value str_other execute_cmd execute_external_runtime_script
        sm2tftrt_file cls kw
        {| self := c; fs := fs0; available_gpus := gpus; trace := tr |}
      = (Ok None,
         {| self := set_status SKIPPED c; fs := fs1; available_gpus := gpus;
            trace := tr ++ logs |})
      /\ status (set_status SKIPPED c) = SKIPPED
      /\ executes_external logs = false.
Proof.
  intros cls c kw fs0 fs1 gpus tr rel exported Hrel Hexp Hout Hin Hcls.
  destruct cls.
  - subst fs1. eexists. split; [eapply onnx_call_missing_input; eassumption|].
    split; reflexivity.
  - destruct Hcls as [Hg Hmk].
    eexists. split; [eapply tftrt_call_missing_input; eassumption|].
    split; reflexivity.
Qed.

End ConvertFacts.

(** ** The convert commands on example inputs *)

Lemma example_converted_fs_wf : fs_wf example_converted_fs.
Proof.
  intros p s q [x Hx] Hne.
  unfold example_converted_fs in *.
  destruct p as [|p1 p]; [congruence|].
  repeat (rewrite lookup_insert in Hx; case_decide);
    rewrite ?lookup_empty in Hx; try discriminate.
  all: match goal with
       | Hk : _ = (_ :: _) ++ _ :: _ |- _ =>
           destruct p as [|p2 [|p3 p]]; simpl in Hk; simplify_eq;
           try (vm_compute; reflexivity);
           try (destruct p; discriminate); try (destruct q; discriminate)
       end.
Qed.

Lemma convert_cache_hit_witness :
  exists logs,
    convert_call example_Format_value no_str idle_execute_cmd idle_execute_script
      "sm2tftrt.py" SavedModel2TFTRT example_args
      {| self := example_tftrt; fs := example_converted_fs; available_gpus := [0];
         trace := [] |}
    = (Ok (Some example_tftrt_output),
       {| self := example_tftrt; fs := example_converted_fs; available_gpus := [0];
          trace := [] ++ logs |})
    /\ executes_external logs = false.
Proof.
  apply (convert_cache_hit example_Format_value no_str idle_execute_cmd
           idle_execute_script "sm2tftrt.py" SavedModel2TFTRT example_tftrt
           example_args example_converted_fs [0] [] example_tftrt_output).
  - reflexivity.
  - vm_compute. reflexivity.
  - intros _. split; [discriminate | exact example_converted_fs_wf].
Defined.

Lemma convert_missing_input_witness :
  exists logs,
    convert_call example_Format_value no_str idle_execute_cmd idle_execute_script
      "sm2tftrt.py" SavedModel2TFTRT example_args
      {| self := example_tftrt; fs := ∅; available_gpus := [0]; trace := [] |}
    = (Ok None,
       {| self := set_status SKIPPED example_tftrt; fs := example_mkdir_fs;
          available_gpus := [0]; trace := [] ++ logs |})
    /\ status (set_status SKIPPED example_tftrt) = SKIPPED
    /\ executes_external logs = false.
Proof.
  apply (convert_missing_input example_Format_value no_str idle_execute_cmd
           idle_execute_script "sm2tftrt.py" SavedModel2TFTRT example_tftrt
           example_args ∅ example_mkdir_fs [0] [] example_tftrt_output
           example_exported).
  - reflexivity.
  - reflexivity.
  - vm_compute. reflexivity.
  - vm_compute. reflexivity.
  - split; [discriminate | vm_compute; reflexivity].
Defined.

(** C2, as stated, fails for [ConvertSavedModel2TFTRT]: with the
    converted model on disk and no GPU the call raises instead of
    returning the existing path. *)
Lemma convert_cache_hit_without_gpu :
  let s := {| self := example_tftrt; fs := example_converted_fs; available_gpus := [];
              trace := [] |} in
  let call := convert_call example_Format_value no_str idle_execute_cmd
                idle_execute_script "sm2tftrt.py" SavedModel2TFTRT example_args in
  get_output_relative_path example_Format_value example_tftrt = Ok example_tftrt_output
  /\ path_exists example_converted_fs (workdir example_args // example_tftrt_output) = true
  /\ fst (call s) = Raise (RuntimeError "No GPUs available.")
  /\ fst (call s) <> Ok (Some example_tftrt_output).
Proof.
  cbv zeta.
  rewrite tftrt_call_no_gpu by reflexivity.
  repeat split; discriminate.
Qed.

(** C4, as stated, fails for [ConvertSavedModel2TFTRT]: with neither the
    converted nor the exported model on disk and no GPU the call raises
    and the status stays [INITIALIZED]. *)
Lemma convert_missing_input_without_gpu :
  let s := {| self := example_tftrt; fs := ∅; available_gpus := []; trace := [] |} in
  let call := convert_call example_Format_value no_str idle_execute_cmd
                idle_execute_script "sm2tftrt.py" SavedModel2TFTRT example_args in
  path_exists ∅ (workdir example_args // example_tftrt_output) = false
  /\ path_exists ∅ (workdir example_args // example_exported) = false
  /\ fst (call s) = Raise (RuntimeError "No GPUs available.")
  /\ fst (call s) <> Ok None
  /\ status (self (snd (call s))) = INITIALIZED.
Proof.
  cbv zeta.
  rewrite tftrt_call_no_gpu by reflexivity.
  repeat split; discriminate.
Qed.

(** ** Runtime providers *)

(** X1: [get_supported_onnx_providers] always lists the CPU provider,
    lists the CUDA provider exactly when a GPU is available and the
    TensorRT provider exactly when a GPU is available and [exclude_trt]
    is not set; it lists no other provider and none twice. *)
Theorem get_supported_onnx_providers_members :
  forall (gpus : list nat) (exclude_trt : bool),
    let l := get_supported_onnx_providers gpus exclude_trt in
    In RP_CPU l
    /\ (In RP_CUDA l <-> gpus <> [])
    /\ (In RP_TRT l <-> gpus <> [] /\ exclude_trt = false)
    /\ List.NoDup l
    /\ (forall p, In p l -> p = RP_CUDA \/ p = RP_CPU \/ p = RP_TRT).
Proof.
  intros gpus exclude_trt.
  destruct gpus as [|g gs], exclude_trt; cbn;
    repeat split; try (intros; intuition (congruence || discriminate));
    repeat constructor; cbn; intuition discriminate.
Qed.

Lemma get_available_onnx_providers_In (gpus : list nat) (available : list string)
    (exclude_trt : bool) (p : RuntimeProvider) :
  In p (get_available_onnx_providers gpus available exclude_trt)
  <-> In p (get_supported_onnx_providers gpus exclude_trt)
      /\ In (RuntimeProvider_value p) available.
Proof.
  unfold get_available_onnx_providers. rewrite List.filter_In.
  rewrite bool_decide_eq_true, list_elem_of_In. reflexivity.
Qed.

Lemma list_filter_sublist {A} (f : A -> bool) (l : list A) :
  List.filter f l `sublist_of` l.
Proof.
  induction l as [|x l IH]; simpl; [constructor|].
  destruct (f x); now constructor.
Qed.

(** X2: [get_available_onnx_providers] returns the supported providers
    that onnxruntime reports, in the order of the supported list: a
    provider is returned exactly when it is supported and its name is
    reported.  Hence without a GPU nothing but the CPU provider is
    returned, whatever onnxruntime reports, [exclude_trt] removes the
    TensorRT provider, and the result is not empty once onnxruntime
    reports the CPU provider. *)
Theorem get_available_onnx_providers_members :
  forall (gpus : list nat) (available : list string) (exclude_trt : bool),
    let l := get_available_onnx_providers gpus available exclude_trt in
    (forall p, In p l <-> In p (get_supported_onnx_providers gpus exclude_trt)
                          /\ In (RuntimeProvider_value p) available)
    /\ l `sublist_of` get_supported_onnx_providers gpus exclude_trt
    /\ (gpus = [] -> forall p, In p l -> p = RP_CPU)
    /\ (exclude_trt = true -> ~ In RP_TRT l)
    /\ (In "CPUExecutionProvider" available -> In RP_CPU l).
Proof.
  intros gpus available exclude_trt l.
  split; [intros p; apply get_available_onnx_providers_In|].
  split; [apply list_filter_sublist|].
  repeat split.
  - intros -> p Hp. apply get_available_onnx_providers_In in Hp as [Hp _].
    destruct exclude_trt; cbn in Hp; intuition.
  - intros -> Hp. apply get_available_onnx_providers_In in Hp as [Hp _].
    destruct gpus; cbn in Hp; intuition discriminate.
  - intros Hcpu. apply get_available_onnx_providers_In. split; [|exact Hcpu].
    destruct gpus, exclude_trt; cbn; intuition.
Qed.

(** ** Banner lines *)

Lemma length_append (a b : string) :
  String.length (a +:+ b) = String.length a + String.length b.
Proof.
  induction a as [|x a IH]; [reflexivity|].
  change (S (String.length (a +:+ b)) = S (String.length a + String.length b)).
  now rewrite IH.
Qed.

Lemma length_repeat_char (c : ascii) (n : nat) : String.length (repeat_char c n) = n.
Proof. induction n as [|n IH]; simpl; [reflexivity | now rewrite IH]. Qed.

(** X3: [pad_string s] is thirty equals signs, a space, [s], a space and
    then equals signs up to a hundred characters: its length is the
    larger of 100 and the length of [s] plus 32, so a title longer than
    68 characters is kept whole and gets no padding on the right. *)
Theorem pad_string_shape :
  forall s : string,
    pad_string s
    = repeat_char equals_sign 30 +:+ " " +:+ s +:+ " "
        +:+ repeat_char equals_sign (68 - String.length s)
    /\ String.length (pad_string s) = Nat.max 100 (String.length s + 32).
Proof.
  intros s.
  assert (Hlen : String.length (repeat_char equals_sign 30 +:+ " " +:+ s +:+ " ")
                 = String.length s + 32).
  { rewrite !length_append, length_repeat_char.
    change (String.length " ") with 1. lia. }
  assert (Hshape : pad_string s
                   = repeat_char equals_sign 30 +:+ " " +:+ s +:+ " "
                       +:+ repeat_char equals_sign (68 - String.length s)).
  { unfold pad_string, ljust. rewrite Hlen.
    replace (100 - (String.length s + 32)) with (68 - String.length s) by lia.
    now rewrite !append_assoc. }
  split; [exact Hshape|].
  rewrite Hshape, !length_append, !length_repeat_char.
  change (String.length " ") with 1. lia.
Qed.

(** ** Export formats and base formats *)

(** X4: in every framework, the base format of a format is one of the
    framework's export formats and has no base format itself, and a
    format that has a base format is not an export format: the tables of
    [get_base_format] and [get_framework_export_formats] describe
    derivations of depth one from the exported formats. *)
Theorem get_base_format_is_exported :
  forall (format base : Format) (framework : Framework),
    get_base_format format framework = Some base ->
    In base (get_framework_export_formats framework)
    /\ get_base_format base framework = None
    /\ ~ In format (get_framework_export_formats framework).
Proof.
  intros format base framework H.
  destruct framework, format; simpl in H; inversion H; subst;
    repeat split; simpl; intuition discriminate.
Qed.

Lemma get_base_format_is_exported_witness :
  In ONNX (get_framework_export_formats PYT)
  /\ get_base_format ONNX PYT = None
  /\ ~ In TENSORRT (get_framework_export_formats PYT).
Proof.
  apply (get_base_format_is_exported TENSORRT ONNX PYT). reflexivity.
Defined.

(** ** Validation and extraction together *)

Lemma is_tensor_ndarray (t : PyObj) (framework : Framework) :
  is_ndarray t = true -> is_tensor t framework = true.
Proof.
  intros H. destruct framework; simpl; rewrite H; now rewrite ?orb_true_r.
Qed.

Lemma is_tensor_plain_framework (t : PyObj) (framework : Framework) :
  is_tensor t Framework_ONNX = true -> is_tensor t framework = true.
Proof. apply is_tensor_ndarray. Qed.

Lemma all_tensors_Forall (framework : Framework) (l : list PyObj) :
  all_tensors framework l = true <-> Forall (fun t => is_tensor t framework = true) l.
Proof.
  unfold all_tensors. rewrite forallb_forall, List.Forall_forall. reflexivity.
Qed.

Section ValidationMore.

Variable tensor_rows : TensorKind -> nat -> list nat.

(** X5: a sample that is valid for a framework whose only tensor type
    is [numpy.ndarray] (ONNX, JAX) is valid for every framework. *)
Theorem _is_valid_io_numpy_everywhere :
  forall (sample : PyObj) (framework : Framework),
    _is_valid_io tensor_rows sample Framework_ONNX = true ->
    _is_valid_io tensor_rows sample JAX = true
    /\ _is_valid_io tensor_rows sample framework = true.
Proof.
  intros sample framework H.
  split; [exact H|].
  unfold _is_valid_io in *.
  destruct (is_tensor sample framework) eqn:Hfw; [reflexivity|].
  destruct (is_tensor sample Framework_ONNX) eqn:Hnp.
  { now rewrite (is_tensor_plain_framework _ framework Hnp) in Hfw. }
  assert (Hmono : forall l, forallb (fun t => is_tensor t Framework_ONNX) l = true ->
                            forallb (fun t => is_tensor t framework) l = true).
  { intros l Hl. rewrite forallb_forall in *. intros t Ht.
    now apply is_tensor_plain_framework, Hl. }
  destruct (as_Mapping sample); [now apply Hmono|].
  destruct (as_Iterable tensor_rows sample); [now apply Hmono | discriminate].
Qed.

(** The elements [sample_to_tuple] hands over, for a valid sample that
    is a tensor of the framework, a sequence or a mapping. *)
Lemma sample_to_tuple_valid (sample : PyObj) (framework : Framework) :
  _is_valid_io tensor_rows sample framework = true ->
  is_tensor sample framework = true
    \/ is_Some (as_Sequence sample) \/ is_Some (as_Mapping sample) ->
  Forall (fun t => is_tensor t framework = true) (sample_to_tuple sample).
Proof.
  intros Hvalid Hshape.
  unfold _is_valid_io in Hvalid. unfold sample_to_tuple.
  destruct (is_tensor sample framework) eqn:Ht.
  - destruct sample; try (destruct framework; discriminate).
    simpl. constructor; [exact Ht | constructor].
  - destruct Hshape as [H | [[l Hl] | [items Hi]]]; [discriminate | |].
    + rewrite Hl.
      assert (Hmap : as_Mapping sample = None) by (destruct sample; try discriminate; reflexivity).
      rewrite Hmap in Hvalid.
      assert (Hit : as_Iterable tensor_rows sample = Some l)
        by (destruct sample; try discriminate; exact Hl).
      rewrite Hit in Hvalid. now apply all_tensors_Forall.
    + rewrite Hi in Hvalid.
      assert (Hseq : as_Sequence sample = None) by (destruct sample; try discriminate; reflexivity).
      rewrite Hseq, Hi. now apply all_tensors_Forall.
Qed.

(** X6: a sample that passed validation and is a tensor of the
    framework, a sequence or a mapping is extracted without error, when
    the metadata names are distinct: the result pairs the leading
    metadata names with the sample's tensors, one entry per tensor up to
    the number of names, so tensors beyond the names are dropped
    silently and missing tensors leave names out. *)
Theorem extract_sample_after_validation :
  forall (sample : PyObj) (input_metadata : list string) (framework : Framework),
    validate_sample_input tensor_rows sample framework = Ok tt ->
    is_tensor sample framework = true
      \/ is_Some (as_Sequence sample) \/ is_Some (as_Mapping sample) ->
    List.NoDup input_metadata ->
    exists d,
      extract_sample sample input_metadata framework = Ok d
      /\ map fst d = take (length (sample_to_tuple sample)) input_metadata
      /\ length d = Nat.min (length input_metadata) (length (sample_to_tuple sample))
      /\ Forall (fun a => is_ndarray a = true) (map snd d).
Proof.
  intros sample meta framework Hval Hshape Hnd.
  assert (Hvalid : _is_valid_io tensor_rows sample framework = true).
  { unfold validate_sample_input in Hval.
    destruct (_is_valid_io tensor_rows sample framework); [reflexivity | discriminate]. }
  pose proof (sample_to_tuple_valid sample framework Hvalid Hshape) as Htensors.
  unfold extract_sample.
  destruct (convert_pairs_names framework (zip meta (sample_to_tuple sample)))
    as (converted & Hc & Hnames & Harr).
  { rewrite zip_snd_take. now apply Forall_take. }
  assert (Hkeys : map fst converted = take (length (sample_to_tuple sample)) meta).
  { now rewrite Hnames, zip_fst_take. }
  exists converted.
  rewrite Hc. cbn [rbind].
  rewrite dict_of_pairs_distinct by (rewrite Hkeys; now apply NoDup_take).
  repeat split; try assumption.
  rewrite <- (length_map fst), Hkeys, length_take. lia.
Qed.

Lemma to_numpy_returns_ndarray (t a : PyObj) (framework : Framework) :
  to_numpy t framework = Ok a -> is_ndarray a = true.
Proof.
  unfold to_numpy. destruct (is_ndarray t) eqn:Ht.
  - intros H. inversion H. now subst.
  - destruct (bool_decide (framework = PYT));
      destruct t as [| | | | | | | |[| |] d]; simpl; intros H;
      try discriminate; inversion H; reflexivity.
Qed.

Lemma convert_pairs_ndarrays (framework : Framework)
    (pairs converted : list (string * PyObj)) :
  convert_pairs framework pairs = Ok converted ->
  Forall (fun a => is_ndarray a = true) (map snd converted).
Proof.
  revert converted.
  induction pairs as [|[n t] pairs IH]; simpl; intros converted H.
  - inversion H. constructor.
  - destruct (to_numpy t framework) as [a|e] eqn:Ha; [|discriminate]. cbn [rbind] in H.
    destruct (convert_pairs framework pairs) as [rest|e]; [|discriminate].
    cbn [rbind] in H. inversion H. simpl.
    constructor; [now apply (to_numpy_returns_ndarray t a framework) | now apply IH].
Qed.

Lemma dict_of_pairs_values {V} (P : V -> Prop) (pairs : list (string * V)) :
  Forall P (map snd pairs) -> Forall P (map snd (dict_of_pairs pairs)).
Proof.
  unfold dict_of_pairs.
  assert (Hgen : forall acc,
             Forall P (map snd acc) -> Forall P (map snd pairs) ->
             Forall P (map snd (fold_left (fun d kv => dict_setitem (fst kv) (snd kv) d)
                                  pairs acc))).
  { induction pairs as [|[k v] rest IH]; intros acc Hacc Hp; [exact Hacc|].
    simpl. inversion Hp as [|? ? Hv Hrest]; subst.
    apply IH; [|exact Hrest].
    clear IH Hrest Hp. induction acc as [|[k' v'] acc IHacc]; simpl.
    - constructor; [exact Hv | constructor].
    - inversion Hacc; subst.
      destruct (bool_decide (k = k')); simpl; constructor; auto. }
  intros Hp. apply Hgen; [constructor | exact Hp].
Qed.

(** X7: whatever [extract_sample] returns is, as a name-to-array dict, a
    valid sample for every framework: its values are all
    [numpy.ndarray]s. *)
Theorem extract_sample_result_valid :
  forall (sample : PyObj) (input_metadata : list string) (framework other : Framework)
         (d : list (string * PyObj)),
    extract_sample sample input_metadata framework = Ok d ->
    Forall (fun a => is_ndarray a = true) (map snd d)
    /\ validate_sample_input tensor_rows (sample_as_dict d) other = Ok tt.
Proof.
  intros sample meta framework other d Hd.
  unfold extract_sample in Hd.
  destruct (convert_pairs framework (zip meta (sample_to_tuple sample)))
    as [converted|e] eqn:Hc; [|discriminate].
  cbn [rbind] in Hd. inversion Hd; subst d. clear Hd.
  assert (Hall : Forall (fun a => is_ndarray a = true)
                   (map snd (dict_of_pairs converted))).
  { apply dict_of_pairs_values. now apply (convert_pairs_ndarrays framework _ _ Hc). }
  split; [exact Hall|].
  unfold validate_sample_input, _is_valid_io, sample_as_dict.
  assert (Hnt : is_tensor (PyDict (map (fun kv => (PyStr (fst kv), snd kv))
                                      (dict_of_pairs converted))) other = false)
    by (destruct other; reflexivity).
  rewrite Hnt. cbn [as_Mapping].
  unfold values. rewrite map_map. cbn [snd].
  assert (Hok : forallb (fun t => is_tensor t other)
                  (map (fun x => snd x) (dict_of_pairs converted)) = true).
  { apply forallb_forall. intros t Ht.
    rewrite List.Forall_forall in Hall. now apply is_tensor_ndarray, Hall. }
  rewrite Hok. reflexivity.
Qed.

(** X8: an iterable that is neither a sequence nor a mapping (a set, a
    generator) passes validation when its elements are tensors, but
    [sample_to_tuple] does not unpack it: [extract_sample] hands the
    iterable itself to [to_numpy] and raises [AttributeError] as soon as
    there is a metadata name to pair it with. *)
Theorem extract_sample_unpacks_no_set :
  forall (elems : list PyObj) (name : string) (input_metadata : list string)
         (framework : Framework),
    validate_sample_input tensor_rows (PySet elems) framework
    = (if all_tensors framework elems then Ok tt else Raise UserError)
    /\ sample_to_tuple (PySet elems) = [PySet elems]
    /\ extract_sample (PySet elems) (name :: input_metadata) framework
       = Raise AttributeError
    /\ extract_sample (PySet elems) [] framework = Ok [].
Proof.
  intros elems name meta framework.
  repeat split.
  - unfold validate_sample_input, _is_valid_io.
    assert (Hnt : is_tensor (PySet elems) framework = false)
      by (destruct framework; reflexivity).
    rewrite Hnt. cbn [as_Mapping as_Iterable]. unfold all_tensors.
    destruct (forallb _ elems); reflexivity.
  - destruct framework; reflexivity.
Qed.

End ValidationMore.

Lemma _is_valid_io_numpy_everywhere_witness :
  _is_valid_io no_rows (PyList [PyTensor Ndarray 1; PyTensor Ndarray 2]) JAX = true
  /\ _is_valid_io no_rows (PyList [PyTensor Ndarray 1; PyTensor Ndarray 2]) PYT = true.
Proof.
  apply (_is_valid_io_numpy_everywhere no_rows
           (PyList [PyTensor Ndarray 1; PyTensor Ndarray 2]) PYT).
  reflexivity.
Defined.

Lemma extract_sample_after_validation_witness :
  exists d,
    extract_sample (PyTuple [PyTensor TorchTensor 1; PyTensor Ndarray 2; PyTensor Ndarray 3])
      ["a"; "b"] PYT = Ok d
    /\ map fst d = ["a"; "b"]
    /\ length d = 2
    /\ Forall (fun a => is_ndarray a = true) (map snd d).
Proof.
  apply (extract_sample_after_validation no_rows
           (PyTuple [PyTensor TorchTensor 1; PyTensor Ndarray 2; PyTensor Ndarray 3])
           ["a"; "b"] PYT).
  - reflexivity.
  - right. left. eexists. reflexivity.
  - repeat constructor; simpl; intuition discriminate.
Defined.

Lemma extract_sample_result_valid_witness :
  Forall (fun a => is_ndarray a = true) (map snd [("a", PyTensor Ndarray 1)])
  /\ validate_sample_input no_rows
       (sample_as_dict [("a", PyTensor Ndarray 1)]) TF2 = Ok tt.
Proof.
  apply (extract_sample_result_valid no_rows (PyTensor TorchTensor 1) ["a"] PYT TF2
           [("a", PyTensor Ndarray 1)]).
  reflexivity.
Defined.

(** ** The keyword encoder, entry by entry *)

Lemma flat_map_pairs_lookup {A B} (g h : A -> B) (l : list A) (i : nat) (x : A) :
  l !! i = Some x ->
  flat_map (fun a => [g a; h a]) l !! (2 * i) = Some (g x)
  /\ flat_map (fun a => [g a; h a]) l !! (2 * i + 1) = Some (h x).
Proof.
  revert i.
  induction l as [|a l IH]; intros [|i] Hi; try discriminate.
  - inversion Hi; subst. now split.
  - simpl in Hi. destruct (IH i Hi) as [Hg Hh].
    replace (2 * S i) with (S (S (2 * i))) by lia.
    replace (S (S (2 * i)) + 1) with (S (S (2 * i + 1))) by lia.
    now split.
Qed.

Lemma replace_char_removes (a b : ascii) (s : string) :
  a <> b -> has_char a (replace_char a b s) = false.
Proof.
  intros Hab.
  induction s as [|c s IH]; [reflexivity|].
  cbn [replace_char has_char]. rewrite IH, orb_false_r.
  destruct (bool_decide (c = a)) eqn:Hc.
  - apply bool_decide_eq_false_2. congruence.
  - apply bool_decide_eq_false_2. now apply bool_decide_eq_false_1 in Hc.
Qed.

Section EncoderMore.

Variable str_other : PyObj -> string.

(** X9: the item at position [i] of the keyword mapping is found at
    positions [2i] and [2i+1] of the argument list: its flag, then its
    value.  The value's text never holds a single quote: every one was
    turned into a double quote, so the only single quotes of the entry
    are the two that wrap a value of a quote-wrapped class. *)
Theorem parse_kwargs_to_cmd_lookup :
  forall (kwargs : list (string * PyObj)) (quote_wrap_classes : option (list PyClass))
         (i : nat) (k : string) (v : PyObj),
    kwargs !! i = Some (k, v) ->
    let args := parse_kwargs_to_cmd str_other kwargs quote_wrap_classes in
    let classes := match quote_wrap_classes with Some cs => cs | None => [] end in
    args !! (2 * i) = Some ("--" +:+ k)
    /\ exists text,
         has_char single_quote text = false
         /\ args !! (2 * i + 1)
            = Some (if isinstance v classes then "'" +:+ text +:+ "'" else text).
Proof.
  intros kwargs qwc i k v Hi args classes.
  assert (Hargs : args
                  = flat_map (fun kv =>
                      ["--" +:+ fst kv;
                       if isinstance (snd kv) classes
                       then "'" +:+ replace_char single_quote double_quote
                                     (py_str str_other (snd kv)) +:+ "'"
                       else replace_char single_quote double_quote
                              (py_str str_other (snd kv))]) kwargs).
  { subst args. unfold parse_kwargs_to_cmd. now rewrite fold_extend_flat_map. }
  rewrite Hargs.
  destruct (flat_map_pairs_lookup
              (fun kv : string * PyObj => "--" +:+ fst kv)
              (fun kv : string * PyObj =>
                 if isinstance (snd kv) classes
                 then "'" +:+ replace_char single_quote double_quote
                               (py_str str_other (snd kv)) +:+ "'"
                 else replace_char single_quote double_quote
                        (py_str str_other (snd kv)))
              kwargs i (k, v) Hi) as [Hflag Hval].
  split; [exact Hflag|].
  exists (replace_char single_quote double_quote (py_str str_other v)).
  split; [|exact Hval].
  apply replace_char_removes. discriminate.
Qed.

End EncoderMore.

Lemma parse_kwargs_to_cmd_lookup_witness :
  parse_kwargs_to_cmd no_str [("a", PyInt 1); ("name", PyStr "it's")] None !! (2 * 1)
  = Some "--name"
  /\ exists text,
       has_char single_quote text = false
       /\ parse_kwargs_to_cmd no_str [("a", PyInt 1); ("name", PyStr "it's")] None
            !! (2 * 1 + 1)
          = Some text.
Proof.
  apply (parse_kwargs_to_cmd_lookup no_str [("a", PyInt 1); ("name", PyStr "it's")]
           None 1 "name" (PyStr "it's")).
  reflexivity.
Defined.

(** ** More on the working directory *)

Lemma is_prefix_app (w r : Path) : is_prefix w (w ++ r) = true.
Proof.
  induction w as [|x w IH]; [reflexivity|].
  cbn [app is_prefix]. rewrite IH. now rewrite bool_decide_eq_true_2.
Qed.

(** Joining a relative path to the working directory and taking it
    relative to the working directory again gives it back. *)
Lemma relative_to_join (w r : Path) : relative_to (w // r) w = Ok r.
Proof.
  unfold relative_to, path_join. rewrite is_prefix_app.
  now rewrite drop_app_length.
Qed.

Lemma mkdir_from_preserves (done rest : Path) (fs fs' : FS) (p : Path) (k : node) :
  mkdir_from done rest fs = Ok fs' -> fs !! p = Some k -> fs' !! p = Some k.
Proof.
  revert done fs.
  induction rest as [|s rest IH]; intros done fs Hmk Hp.
  - simpl in Hmk. inversion Hmk. now subst.
  - cbn [mkdir_from] in Hmk. cbv zeta in Hmk.
    destruct (fs !! (done ++ [s])) as [[|]|] eqn:Hq.
    + destruct rest; discriminate.
    + now apply (IH _ _ Hmk).
    + apply (IH _ _ Hmk).
      rewrite lookup_insert_ne; [exact Hp|]. intros Heq. subst p. congruence.
Qed.

Lemma mkdir_from_creates (done rest : Path) (fs fs' : FS) (j : nat) :
  mkdir_from done rest fs = Ok fs' ->
  0 < j <= length rest ->
  fs' !! (done ++ take j rest) = Some Dir.
Proof.
  revert done fs j.
  induction rest as [|s rest IH]; intros done fs j Hmk Hj; [simpl in Hj; lia|].
  cbn [mkdir_from] in Hmk. cbv zeta in Hmk.
  destruct j as [|j]; [lia|]. cbn [take firstn].
  destruct j as [|j].
  - rewrite take_0.
    destruct (fs !! (done ++ [s])) as [[|]|] eqn:Hq.
    + destruct rest; discriminate.
    + now apply (mkdir_from_preserves _ _ _ _ _ _ Hmk).
    + apply (mkdir_from_preserves _ _ _ _ _ _ Hmk). apply lookup_insert_eq.
  - replace (done ++ s :: take (S j) rest) with ((done ++ [s]) ++ take (S j) rest)
      by (now rewrite <- app_assoc).
    simpl in Hj.
    destruct (fs !! (done ++ [s])) as [[|]|] eqn:Hq.
    + destruct rest; discriminate.
    + apply (IH _ _ _ Hmk). lia.
    + apply (IH _ _ _ Hmk). lia.
Qed.

Lemma mkdir_from_adds_directories (done rest : Path) (fs fs' : FS) (p : Path) (k : node) :
  mkdir_from done rest fs = Ok fs' ->
  fs' !! p = Some k ->
  fs !! p = Some k \/ (k = Dir /\ exists j, 0 < j <= length rest /\ p = done ++ take j rest).
Proof.
  revert done fs.
  induction rest as [|s rest IH]; intros done fs Hmk Hp.
  - simpl in Hmk. inversion Hmk; subst. now left.
  - cbn [mkdir_from] in Hmk. cbv zeta in Hmk.
    assert (Hshift : forall j, 0 < j <= length rest ->
                       (done ++ [s]) ++ take j rest = done ++ take (S j) (s :: rest)).
    { intros j _. now rewrite <- app_assoc. }
    destruct (fs !! (done ++ [s])) as [[|]|] eqn:Hq.
    + destruct rest; discriminate.
    + destruct (IH _ _ Hmk Hp) as [H | (-> & j & Hj & ->)]; [now left|].
      right. split; [reflexivity|]. exists (S j). split; [simpl; lia | now apply Hshift].
    + destruct (IH _ _ Hmk Hp) as [H | (-> & j & Hj & ->)].
      * destruct (decide (p = done ++ [s])) as [-> | Hne].
        -- rewrite lookup_insert_eq in H. inversion H; subst.
           right. split; [reflexivity|]. exists 1. split; [simpl; lia | reflexivity].
        -- rewrite lookup_insert_ne in H by congruence. now left.
      * right. split; [reflexivity|]. exists (S j).
        split; [simpl; lia | now apply Hshift].
Qed.

(** ** The convert calls, branch by branch *)

Section CallRaise.

Context {B : Type}.

Lemma bind_lift_Raise {A} (e : exn) (k : A -> M B) (s : CallState) :
  bind (lift (Raise e)) k s = (Raise e, s).
Proof. reflexivity. Qed.

Lemma bind_on_disk_Raise (f : FS -> result FS) (e : exn) (k : unit -> M B)
    (s : CallState) :
  f (fs s) = Raise e -> bind (on_disk f) k s = (Raise e, s).
Proof. intros H. unfold bind, on_disk. now rewrite H. Qed.

End CallRaise.

Section ConvertMore.

Variable Format_value : Format -> string.
Variable str_other : PyObj -> string.
Variable execute_cmd : Path -> Path -> bool -> list string -> FS -> result FS.
Variable execute_external_runtime_script :
  Path -> Path -> Path -> bool -> string -> list string -> FS -> result FS.
Variable sm2tftrt_file : string.

Variables (c : ConvertBase) (kw : CallArgs) (fs0 : FS) (gpus : list nat)
          (tr : list event).

(** The ONNX call in direct style. *)
Lemma onnx_call_branches :
  convert_call Format_value str_other execute_cmd execute_external_runtime_script
    sm2tftrt_file SavedModel2ONNX kw
    {| self := c; fs := fs0; available_gpus := gpus; trace := tr |}
  = let st fs' c' logs :=
      {| self := c'; fs := fs'; available_gpus := gpus;
         trace := tr ++ Log_info "SavedModel to ONNX conversion started" :: logs |} in
    match get_output_relative_path Format_value c with
    | Raise e => (Raise e, st fs0 c [])
    | Ok rel =>
        let exported :=
          [path_str Format_value TF_SAVEDMODEL None None (enable_xla c) (jit_compile c);
           "model.savedmodel"] in
        if path_exists fs0 (workdir kw // rel) then
          (Ok (Some rel), st fs0 c [Log_info "Model already exists. Skipping conversion."])
        else if negb (path_exists fs0 (workdir kw // exported)) then
          (Ok None, st fs0 (set_status SKIPPED c)
                      [Log_warning (not_found_warning (workdir kw // exported))])
        else
          let cmd := ["python"; "-m"; "tf2onnx.convert";
                      "--saved-model"; as_posix exported;
                      "--output"; as_posix rel;
                      "--opset"; pretty (opset kw)] in
          match execute_cmd (workdir kw)
                  (parent (workdir kw // rel) // ["reproduce_conversion.sh"])
                  (verbose kw) cmd fs0 with
          | Ok fs1 => (Ok (Some rel), st fs1 c [Execute_cmd cmd])
          | Raise e => (Raise e, st fs0 c [Execute_cmd cmd])
          end
    end.
Proof.
  cbv zeta.
  unfold convert_call, ConvertSavedModel2ONNX_call.
  do 2 call_step.
  rewrite exported_model_path_defined. call_step.
  destruct (get_output_relative_path Format_value c) as [rel|e] eqn:Hrel.
  2:{ rewrite bind_lift_Raise. reflexivity. }
  do 2 call_step.
  destruct (path_exists fs0 (workdir kw // rel)) eqn:Hout.
  { repeat call_step. unfold ret. now rewrite <- app_assoc. }
  call_step.
  match goal with
  | |- context [negb (path_exists fs0 ?p)] => destruct (path_exists fs0 p) eqn:Hin
  end; cbn [negb].
  2:{ repeat call_step. unfold ret. now rewrite <- app_assoc. }
  rewrite !relative_to_join. do 3 call_step.
  match goal with
  | |- context [on_disk ?f] => destruct (f fs0) as [fs1|e] eqn:Hrun
  end.
  - rewrite (bind_on_disk_Ok _ fs1) by exact Hrun.
    cbn [self fs available_gpus trace]. repeat call_step.
    unfold ret. now rewrite <- app_assoc.
  - rewrite (bind_on_disk_Raise _ e) by exact Hrun.
    now rewrite <- app_assoc.
Qed.

(** The TF-TRT call in direct style. *)
Lemma tftrt_call_branches :
  convert_call Format_value str_other execute_cmd execute_external_runtime_script
    sm2tftrt_file SavedModel2TFTRT kw
    {| self := c; fs := fs0; available_gpus := gpus; trace := tr |}
  = let st fs' c' logs :=
      {| self := c'; fs := fs'; available_gpus := gpus;
         trace := tr ++ Log_info "SavedModel to TF-TRT conversion started" :: logs |} in
    match gpus with
    | [] => (Raise (RuntimeError "No GPUs available."), st fs0 c [])
    | _ :: _ =>
      match get_output_relative_path Format_value c with
      | Raise e => (Raise e, st fs0 c [])
      | Ok rel =>
        let exported :=
          [path_str Format_value TF_SAVEDMODEL None None (enable_xla c) (jit_compile c);
           "model.savedmodel"] in
        match mkdir_parents (parent (workdir kw // rel)) fs0 with
        | Raise e => (Raise e, st fs0 c [])
        | Ok fs1 =>
          if path_exists fs1 (workdir kw // rel) then
            (Ok (Some rel),
             st fs1 c [Log_info "Model already exists. Skipping conversion."])
          else if negb (path_exists fs1 (workdir kw // exported)) then
            (Ok None, st fs1 (set_status SKIPPED c)
                        [Log_warning (not_found_warning (workdir kw // exported))])
          else
            match target_precision c with
            | None => (Raise AttributeError, st fs1 c [])
            | Some p =>
              let args := tftrt_script_args str_other kw exported rel p in
              match execute_external_runtime_script (workdir kw)
                      (parent (workdir kw // rel) // ["reproduce_conversion.py"])
                      (parent (workdir kw // rel) // ["reproduce_conversion.sh"])
                      (verbose kw) sm2tftrt_file args fs1 with
              | Ok fs2 =>
                  (Ok (Some rel),
                   st fs2 c [Execute_external_runtime_script sm2tftrt_file args])
              | Raise e =>
                  (Raise e,
                   st fs1 c [Execute_external_runtime_script sm2tftrt_file args])
              end
            end
        end
      end
    end.
Proof.
  cbv zeta.
  unfold convert_call, ConvertSavedModel2TFTRT_call.
  do 2 call_step.
  destruct gpus as [|g gs]; [reflexivity|].
  call_step.
  rewrite exported_model_path_defined. call_step.
  destruct (get_output_relative_path Format_value c) as [rel|e] eqn:Hrel.
  2:{ rewrite bind_lift_Raise. reflexivity. }
  call_step.
  destruct (mkdir_parents (parent (workdir kw // rel)) fs0) as [fs1|e] eqn:Hmk.
  2:{ rewrite (bind_on_disk_Raise _ e) by exact Hmk. reflexivity. }
  rewrite (bind_on_disk_Ok _ fs1) by exact Hmk.
  cbn [self fs available_gpus trace]. call_step.
  destruct (path_exists fs1 (workdir kw // rel)) eqn:Hout.
  { repeat call_step. unfold ret. now rewrite <- app_assoc. }
  call_step.
  match goal with
  | |- context [negb (path_exists fs1 ?p)] => destruct (path_exists fs1 p) eqn:Hin
  end; cbn [negb].
  2:{ repeat call_step. unfold ret. now rewrite <- app_assoc. }
  rewrite !relative_to_join. do 2 call_step.
  destruct (target_precision c) as [p|].
  2:{ rewrite bind_lift_Raise. reflexivity. }
  do 2 call_step.
  change (parse_kwargs_to_cmd str_other _ _)
    with (tftrt_script_args str_other kw
            [path_str Format_value TF_SAVEDMODEL None None (enable_xla c) (jit_compile c);
             "model.savedmodel"] rel p).
  match goal with
  | |- context [on_disk ?f] => destruct (f fs1) as [fs2|e] eqn:Hrun
  end.
  - rewrite (bind_on_disk_Ok _ fs2) by exact Hrun.
    cbn [self fs available_gpus trace]. repeat call_step.
    unfold ret. now rewrite <- app_assoc.
  - rewrite (bind_on_disk_Raise _ e) by exact Hrun.
    now rewrite <- app_assoc.
Qed.

End ConvertMore.

Lemma Ok_inj {A} (a b : A) : Ok a = Ok b -> a = b.
Proof. intros H. now inversion H. Qed.

Section ConvertExtras.

Variable Format_value : Format -> string.
Variable str_other : PyObj -> string.
Variable execute_cmd : Path -> Path -> bool -> list string -> FS -> result FS.
Variable execute_external_runtime_script :
  Path -> Path -> Path -> bool -> string -> list string -> FS -> result FS.
Variable sm2tftrt_file : string.

(** Creating the output directory does not change what the two
    existence tests see. *)
Lemma checks_after_mkdir (c : ConvertBase) (w rel : Path) (fs0 fs1 : FS) :
  get_output_relative_path Format_value c = Ok rel ->
  mkdir_parents (parent (w // rel)) fs0 = Ok fs1 ->
  forall q : Path, length q = length w + 2 -> path_exists fs1 q = path_exists fs0 q.
Proof.
  intros Hrel Hmk q Hq.
  destruct (get_output_relative_path_two Format_value c rel Hrel) as (d & f & ->).
  unfold path_exists.
  rewrite (mkdir_from_longer [] _ fs0 fs1 q Hmk); [reflexivity|].
  unfold path_join, parent. rewrite removelast_snoc2, length_app. simpl. lia.
Qed.

Lemma output_path_length (c : ConvertBase) (w rel : Path) :
  get_output_relative_path Format_value c = Ok rel ->
  length (w // rel) = length w + 2.
Proof.
  intros Hrel.
  destruct (get_output_relative_path_two Format_value c rel Hrel) as (d & f & ->).
  unfold path_join. now rewrite length_app.
Qed.

(** X10: when the converted model is absent and the exported SavedModel
    present, [ConvertSavedModel2ONNX.__call__] runs exactly one external
    command, [python -m tf2onnx.convert] with the exported and the
    converted path given relative to the working directory and the
    opset; if the command returns the call returns the output relative
    path, if it raises the exception leaves the call.  The command's
    status is left as it was in both cases. *)
Theorem onnx_conversion_command :
  forall (c : ConvertBase) (kw : CallArgs) (fs0 : FS) (gpus : list nat)
         (tr : list event) (rel exported : Path),
    get_output_relative_path Format_value c = Ok rel ->
    exported_relative_path Format_value c = Ok exported ->
    path_exists fs0 (workdir kw // rel) = false ->
    path_exists fs0 (workdir kw // exported) = true ->
    let cmd := ["python"; "-m"; "tf2onnx.convert";
                "--saved-model"; as_posix exported;
                "--output"; as_posix rel;
                "--opset"; pretty (opset kw)] in
    let run := execute_cmd (workdir kw)
                 (parent (workdir kw // rel) // ["reproduce_conversion.sh"])
                 (verbose kw) cmd fs0 in
    convert_call Format_value str_other execute_cmd execute_external_runtime_script
      sm2tftrt_file SavedModel2ONNX kw
      {| self := c; fs := fs0; available_gpus := gpus; trace := tr |}
    = (match run with Ok _ => Ok (Some rel) | Raise e => Raise e end,
       {| self := c;
          fs := match run with Ok fs1 => fs1 | Raise _ => fs0 end;
          available_gpus := gpus;
          trace := tr ++ [Log_info "SavedModel to ONNX conversion started";
                          Execute_cmd cmd] |}).
Proof.
  intros c kw fs0 gpus tr rel exported Hrel Hexp Hout Hin cmd run.
  rewrite onnx_call_branches. cbv zeta.
  rewrite exported_relative_path_defined in Hexp. apply Ok_inj in Hexp.
  rewrite Hrel, Hout, Hexp, Hin. cbn [negb].
  subst run cmd. destruct (execute_cmd _ _ _ _ _); reflexivity.
Qed.

Lemma tftrt_script_args_explicit (kw : CallArgs) (exported converted : Path)
    (p : TensorRTPrecision) :
  let quoted := replace_char single_quote double_quote in
  tftrt_script_args str_other kw exported converted p
  = ["--exported_model_path"; quoted (as_posix exported);
     "--converted_model_path"; quoted (as_posix converted);
     "--max_workspace_size"; quoted (pretty (max_workspace_size kw));
     "--target_precision"; quoted (precision_value p);
     "--minimum_segment_size"; quoted (pretty (minimum_segment_size kw));
     "--batch_dim";
     match batch_dim kw with Some d => quoted (pretty d) | None => "None" end;
     "--navigator_workdir"; quoted (as_posix (workdir kw))].
Proof.
  unfold tftrt_script_args. destruct (batch_dim kw); reflexivity.
Qed.

(** X11: when a GPU is available, the output directory can be created,
    the converted model is absent and the exported SavedModel present,
    [ConvertSavedModel2TFTRT.__call__] runs the conversion script once,
    with seven flags in a fixed order, each followed by its value with
    single quotes replaced by double quotes and none wrapped in quotes;
    a missing [batch_dim] is passed as the text [None].  The call
    returns the output relative path if the script returns and raises
    what the script raises; the status is left as it was. *)
Theorem tftrt_conversion_command :
  forall (c : ConvertBase) (kw : CallArgs) (fs0 fs1 : FS) (gpus : list nat)
         (tr : list event) (rel exported : Path) (p : TensorRTPrecision),
    gpus <> [] ->
    get_output_relative_path Format_value c = Ok rel ->
    exported_relative_path Format_value c = Ok exported ->
    target_precision c = Some p ->
    mkdir_parents (parent (workdir kw // rel)) fs0 = Ok fs1 ->
    path_exists fs0 (workdir kw // rel) = false ->
    path_exists fs0 (workdir kw // exported) = true ->
    let quoted := replace_char single_quote double_quote in
    let args :=
      ["--exported_model_path"; quoted (as_posix exported);
       "--converted_model_path"; quoted (as_posix rel);
       "--max_workspace_size"; quoted (pretty (max_workspace_size kw));
       "--target_precision"; quoted (precision_value p);
       "--minimum_segment_size"; quoted (pretty (minimum_segment_size kw));
       "--batch_dim";
       match batch_dim kw with Some d => quoted (pretty d) | None => "None" end;
       "--navigator_workdir"; quoted (as_posix (workdir kw))] in
    let run := execute_external_runtime_script (workdir kw)
                 (parent (workdir kw // rel) // ["reproduce_conversion.py"])
                 (parent (workdir kw // rel) // ["reproduce_conversion.sh"])
                 (verbose kw) sm2tftrt_file args fs1 in
    convert_call Format_value str_other execute_cmd execute_external_runtime_script
      sm2tftrt_file SavedModel2TFTRT kw
      {| self := c; fs := fs0; available_gpus := gpus; trace := tr |}
    = (match run with Ok _ => Ok (Some rel) | Raise e => Raise e end,
       {| self := c;
          fs := match run with Ok fs2 => fs2 | Raise _ => fs1 end;
          available_gpus := gpus;
          trace := tr ++ [Log_info "SavedModel to TF-TRT conversion started";
                          Execute_external_runtime_script sm2tftrt_file args] |}).
Proof.
  intros c kw fs0 fs1 gpus tr rel exported p Hgpu Hrel Hexp Hp Hmk Hout Hin
         quoted args run.
  rewrite tftrt_call_branches. cbv zeta.
  destruct gpus as [|g gs]; [congruence|].
  rewrite exported_relative_path_defined in Hexp. apply Ok_inj in Hexp.
  assert (Hlen : length (workdir kw // exported) = length (workdir kw) + 2).
  { rewrite <- Hexp. unfold path_join. now rewrite length_app. }
  rewrite Hrel, Hmk, Hexp, Hp.
  rewrite (checks_after_mkdir c (workdir kw) rel fs0 fs1 Hrel Hmk)
    by (now apply (output_path_length c)).
  rewrite Hout.
  rewrite (checks_after_mkdir c (workdir kw) rel fs0 fs1 Hrel Hmk) by exact Hlen.
  rewrite Hin. cbn [negb].
  rewrite tftrt_script_args_explicit. cbv zeta.
  subst run args quoted.
  destruct (execute_external_runtime_script _ _ _ _ _ _ _); reflexivity.
Qed.

(** X12: a call of either convert command adds to the trace only, runs
    the external conversion at most once, and runs it only when the
    command's output path is defined, the converted model was absent and
    the exported SavedModel present at the call (and, for TF-TRT, a GPU
    is available): it never converts over an existing artifact or
    without its input. *)
Theorem convert_call_converts_only_when_needed :
  forall (cls : ConvertClass) (c : ConvertBase) (kw : CallArgs) (fs0 : FS)
         (gpus : list nat) (tr : list event),
    exists logs,
      trace (snd (convert_call Format_value str_other execute_cmd
                    execute_external_runtime_script sm2tftrt_file cls kw
                    {| self := c; fs := fs0; available_gpus := gpus; trace := tr |}))
      = tr ++ logs
      /\ length (List.filter is_external logs) <= 1
      /\ (executes_external logs = true ->
          exists rel exported,
            get_output_relative_path Format_value c = Ok rel
            /\ exported_relative_path Format_value c = Ok exported
            /\ path_exists fs0 (workdir kw // rel) = false
            /\ path_exists fs0 (workdir kw // exported) = true
            /\ (cls = SavedModel2TFTRT -> gpus <> [])).
Proof.
  intros cls c kw fs0 gpus tr.
  destruct cls.
  - rewrite onnx_call_branches. cbv zeta.
    destruct (get_output_relative_path Format_value c) as [rel|e] eqn:Hrel.
    2:{ eexists. split; [reflexivity|]. split; [simpl; lia | discriminate]. }
    destruct (path_exists fs0 (workdir kw // rel)) eqn:Hout.
    { eexists. split; [reflexivity|]. split; [simpl; lia | discriminate]. }
    match goal with
    | |- context [negb (path_exists fs0 ?q)] => destruct (path_exists fs0 q) eqn:Hin
    end; cbn [negb].
    2:{ eexists. split; [reflexivity|]. split; [simpl; lia | discriminate]. }
    destruct (execute_cmd _ _ _ _ _);
      (eexists; split; [reflexivity|]; split; [simpl; lia|]; intros _;
       exists rel; eexists; split; [reflexivity|];
       split; [apply exported_relative_path_defined|];
       split; [exact Hout|]; split; [exact Hin | discriminate]).
  - rewrite tftrt_call_branches. cbv zeta.
    destruct gpus as [|g gs].
    { eexists. split; [reflexivity|]. split; [simpl; lia | discriminate]. }
    destruct (get_output_relative_path Format_value c) as [rel|e] eqn:Hrel.
    2:{ eexists. split; [reflexivity|]. split; [simpl; lia | discriminate]. }
    destruct (mkdir_parents (parent (workdir kw // rel)) fs0) as [fs1|e] eqn:Hmk.
    2:{ eexists. split; [reflexivity|]. split; [simpl; lia | discriminate]. }
    rewrite (checks_after_mkdir c (workdir kw) rel fs0 fs1 Hrel Hmk)
      by (now apply (output_path_length c)).
    destruct (path_exists fs0 (workdir kw // rel)) eqn:Hout.
    { eexists. split; [reflexivity|]. split; [simpl; lia | discriminate]. }
    rewrite (checks_after_mkdir c (workdir kw) rel fs0 fs1 Hrel Hmk)
      by (unfold path_join; now rewrite length_app).
    match goal with
    | |- context [negb (path_exists fs0 ?q)] => destruct (path_exists fs0 q) eqn:Hin
    end; cbn [negb].
    2:{ eexists. split; [reflexivity|]. split; [simpl; lia | discriminate]. }
    destruct (target_precision c) as [p|].
    2:{ eexists. split; [reflexivity|]. split; [simpl; lia | discriminate]. }
    destruct (execute_external_runtime_script _ _ _ _ _ _ _);
      (eexists; split; [reflexivity|]; split; [simpl; lia|]; intros _;
       exists rel; eexists; split; [reflexivity|];
       split; [apply exported_relative_path_defined|];
       split; [exact Hout|]; split; [exact Hin | discriminate]).
Qed.

(** X13: a call of either convert command changes nothing of the
    command but its status, and sets the status only to [SKIPPED], which
    it does exactly when it returns [None]; it never marks the command
    [OK] or [FAIL].  A path it returns is the command's own output
    relative path. *)
Theorem convert_call_status_discipline :
  forall (cls : ConvertClass) (c : ConvertBase) (kw : CallArgs) (fs0 : FS)
         (gpus : list nat) (tr : list event),
    let out := convert_call Format_value str_other execute_cmd
                 execute_external_runtime_script sm2tftrt_file cls kw
                 {| self := c; fs := fs0; available_gpus := gpus; trace := tr |} in
    self (snd out)
    = match fst out with Ok None => set_status SKIPPED c | _ => c end
    /\ available_gpus (snd out) = gpus
    /\ (status (self (snd out)) = status c \/ status (self (snd out)) = SKIPPED)
    /\ (forall p, fst out = Ok (Some p) ->
                  get_output_relative_path Format_value c = Ok p).
Proof.
  intros cls c kw fs0 gpus tr.
  destruct cls; cbv zeta.
  - rewrite onnx_call_branches. cbv zeta.
    destruct (get_output_relative_path Format_value c) as [rel|e] eqn:Hrel.
    2:{ repeat split; [now left | discriminate]. }
    destruct (path_exists fs0 (workdir kw // rel)).
    { repeat split; [now left | intros p H; now inversion H]. }
    match goal with
    | |- context [negb (path_exists fs0 ?q)] => destruct (path_exists fs0 q)
    end; cbn [negb].
    2:{ repeat split; [now right | discriminate]. }
    destruct (execute_cmd _ _ _ _ _);
      repeat split; try (now left); try discriminate.
    intros p H; now inversion H.
  - rewrite tftrt_call_branches. cbv zeta.
    destruct gpus as [|g gs].
    { repeat split; [now left | discriminate]. }
    destruct (get_output_relative_path Format_value c) as [rel|e] eqn:Hrel.
    2:{ repeat split; [now left | discriminate]. }
    destruct (mkdir_parents (parent (workdir kw // rel)) fs0) as [fs1|e].
    2:{ repeat split; [now left | discriminate]. }
    destruct (path_exists fs1 (workdir kw // rel)).
    { repeat split; [now left | intros p H; now inversion H]. }
    match goal with
    | |- context [negb (path_exists fs1 ?q)] => destruct (path_exists fs1 q)
    end; cbn [negb].
    2:{ repeat split; [now right | discriminate]. }
    destruct (target_precision c) as [p|].
    2:{ repeat split; [now left | discriminate]. }
    destruct (execute_external_runtime_script _ _ _ _ _ _ _);
      repeat split; try (now left); try discriminate.
    intros q H; now inversion H.
Qed.

(** X14: a TF-TRT call that returns [None] has created the command's
    output directory before it looked for the input: after the call the
    directory exists, everything that was on disk is still there as it
    was, and all that was added are directories on the way to the output
    directory. *)
Theorem tftrt_skip_leaves_output_directory :
  forall (c : ConvertBase) (kw : CallArgs) (fs0 : FS) (gpus : list nat)
         (tr : list event) (s' : CallState),
    convert_call Format_value str_other execute_cmd execute_external_runtime_script
      sm2tftrt_file SavedModel2TFTRT kw
      {| self := c; fs := fs0; available_gpus := gpus; trace := tr |}
    = (Ok None, s') ->
    exists rel,
      get_output_relative_path Format_value c = Ok rel
      /\ fs s' !! parent (workdir kw // rel) = Some Dir
      /\ (forall q k, fs0 !! q = Some k -> fs s' !! q = Some k)
      /\ (forall q k, fs s' !! q = Some k ->
             fs0 !! q = Some k
             \/ (k = Dir /\ exists j, q = take j (parent (workdir kw // rel)))).
Proof.
  intros c kw fs0 gpus tr s'.
  rewrite tftrt_call_branches. cbv zeta.
  destruct gpus as [|g gs]; [discriminate|].
  destruct (get_output_relative_path Format_value c) as [rel|e] eqn:Hrel;
    [|discriminate].
  destruct (mkdir_parents (parent (workdir kw // rel)) fs0) as [fs1|e] eqn:Hmk;
    [|discriminate].
  destruct (path_exists fs1 (workdir kw // rel)); [discriminate|].
  match goal with
  | |- context [negb (path_exists fs1 ?q)] => destruct (path_exists fs1 q)
  end; cbn [negb].
  - destruct (target_precision c) as [p|]; [|discriminate].
    destruct (execute_external_runtime_script _ _ _ _ _ _ _); discriminate.
  - intros H. inversion H; subst s'. cbn [fs].
    exists rel. split; [reflexivity|].
    unfold mkdir_parents in Hmk.
    split.
    { destruct (get_output_relative_path_two Format_value c rel Hrel) as (d & f & ->).
      pose proof (mkdir_from_creates [] _ fs0 fs1
                    (length (parent (workdir kw // [d; f]))) Hmk) as Hc.
      rewrite firstn_all in Hc. apply Hc.
      unfold path_join, parent. rewrite removelast_snoc2, length_app. simpl. lia. }
    split.
    { intros q k Hq. now apply (mkdir_from_preserves _ _ _ _ _ _ Hmk). }
    intros q k Hq.
    destruct (mkdir_from_adds_directories _ _ _ _ _ _ Hmk Hq)
      as [H0 | (-> & j & _ & ->)]; [now left|].
    right. split; [reflexivity|]. now exists j.
Qed.

(** What is known of a call that returned a path. *)
Lemma convert_call_returned_path (cls : ConvertClass) (c : ConvertBase) (kw : CallArgs)
    (fs0 : FS) (gpus : list nat) (tr : list event) (rel : Path) (s1 : CallState) :
  convert_call Format_value str_other execute_cmd execute_external_runtime_script
    sm2tftrt_file cls kw
    {| self := c; fs := fs0; available_gpus := gpus; trace := tr |}
  = (Ok (Some rel), s1) ->
  self s1 = c
  /\ available_gpus s1 = gpus
  /\ get_output_relative_path Format_value c = Ok rel
  /\ (cls = SavedModel2TFTRT -> gpus <> []).
Proof.
  destruct cls.
  - rewrite onnx_call_branches. cbv zeta.
    destruct (get_output_relative_path Format_value c) as [r|e]; [|discriminate].
    destruct (path_exists fs0 (workdir kw // r)).
    { intros H; inversion H; subst. repeat split. discriminate. }
    match goal with
    | |- context [negb (path_exists fs0 ?q)] => destruct (path_exists fs0 q)
    end; cbn [negb]; [|discriminate].
    destruct (execute_cmd _ _ _ _ _); [|discriminate].
    intros H; inversion H; subst. repeat split. discriminate.
  - rewrite tftrt_call_branches. cbv zeta.
    destruct gpus as [|g gs]; [discriminate|].
    destruct (get_output_relative_path Format_value c) as [r|e]; [|discriminate].
    destruct (mkdir_parents (parent (workdir kw // r)) fs0) as [fs1|e]; [|discriminate].
    destruct (path_exists fs1 (workdir kw // r)).
    { intros H; inversion H; subst. repeat split. discriminate. }
    match goal with
    | |- context [negb (path_exists fs1 ?q)] => destruct (path_exists fs1 q)
    end; cbn [negb]; [|discriminate].
    destruct (target_precision c) as [p|]; [|discriminate].
    destruct (execute_external_runtime_script _ _ _ _ _ _ _); [|discriminate].
    intros H; inversion H; subst. repeat split. discriminate.
Qed.

(** X15: a call that returned the output path leaves a state in which,
    once the converted model is on disk, the next call is a cache hit:
    it returns the same path, runs nothing and changes neither the
    command nor the disk. *)
Theorem convert_call_again_is_cache_hit :
  forall (cls : ConvertClass) (c : ConvertBase) (kw : CallArgs) (fs0 : FS)
         (gpus : list nat) (tr : list event) (rel : Path) (s1 : CallState),
    convert_call Format_value str_other execute_cmd execute_external_runtime_script
      sm2tftrt_file cls kw
      {| self := c; fs := fs0; available_gpus := gpus; trace := tr |}
    = (Ok (Some rel), s1) ->
    path_exists (fs s1) (workdir kw // rel) = true ->
    (cls = SavedModel2TFTRT -> fs_wf (fs s1)) ->
    exists logs,
      convert_call Format_value str_other execute_cmd execute_external_runtime_script
        sm2tftrt_file cls kw s1
      = (Ok (Some rel),
         {| self := self s1; fs := fs s1; available_gpus := available_gpus s1;
            trace := trace s1 ++ logs |})
      /\ executes_external logs = false.
Proof.
  intros cls c kw fs0 gpus tr rel s1 Hfirst Hex Hwf.
  destruct (convert_call_returned_path cls c kw fs0 gpus tr rel s1 Hfirst)
    as (Hself & Hgpus & Hpath & Hgpu).
  destruct s1 as [c1 fs1 gpus1 tr1]. cbn [self fs available_gpus trace] in *.
  subst c1 gpus1.
  destruct cls.
  - eexists. split; [eapply onnx_call_cache_hit; eassumption | reflexivity].
  - eexists. split; [eapply tftrt_call_cache_hit; eauto | reflexivity].
Qed.

End ConvertExtras.

(** ** The conversions on example inputs *)

Lemma mkdir_from_step_absent (done rest : Path) (s : string) (fs : FS) :
  fs !! (done ++ [s]) = None ->
  mkdir_from done (s :: rest) fs
  = mkdir_from (done ++ [s]) rest (<[done ++ [s] := Dir]> fs).
Proof. intros H. cbn [mkdir_from]. cbv zeta. now rewrite H. Qed.

Lemma mkdir_from_step_present (done rest : Path) (s : string) (fs : FS) :
  fs !! (done ++ [s]) = Some Dir ->
  mkdir_from done (s :: rest) fs = mkdir_from (done ++ [s]) rest fs.
Proof. intros H. cbn [mkdir_from]. cbv zeta. now rewrite H. Qed.

Lemma example_mkdir_empty :
  mkdir_parents ["navigator_workdir"; "tf-trt-fp16"] ∅ = Ok example_mkdir_fs.
Proof.
  unfold mkdir_parents.
  rewrite mkdir_from_step_absent by reflexivity.
  rewrite mkdir_from_step_absent by (vm_compute; reflexivity).
  reflexivity.
Qed.

Lemma example_mkdir_exported :
  mkdir_parents ["navigator_workdir"; "tf-trt-fp16"] example_exported_fs
  = Ok example_exported_mkdir_fs.
Proof.
  unfold mkdir_parents.
  rewrite mkdir_from_step_present by (vm_compute; reflexivity).
  rewrite mkdir_from_step_absent by (vm_compute; reflexivity).
  reflexivity.
Qed.

Lemma onnx_conversion_command_witness :
  convert_call example_Format_value no_str idle_execute_cmd idle_execute_script
    "sm2tftrt.py" SavedModel2ONNX example_args
    {| self := example_onnx; fs := example_exported_fs; available_gpus := [];
       trace := [] |}
  = (Ok (Some example_onnx_output),
     {| self := example_onnx; fs := example_exported_fs; available_gpus := [];
        trace := [Log_info "SavedModel to ONNX conversion started";
                  Execute_cmd ["python"; "-m"; "tf2onnx.convert";
                               "--saved-model"; "tf-savedmodel/model.savedmodel";
                               "--output"; "onnx/model.onnx";
                               "--opset"; "13"]] |}).
Proof.
  apply (onnx_conversion_command example_Format_value no_str idle_execute_cmd
           idle_execute_script "sm2tftrt.py" example_onnx example_args
           example_exported_fs [] [] example_onnx_output example_exported).
  - reflexivity.
  - reflexivity.
  - vm_compute. reflexivity.
  - vm_compute. reflexivity.
Defined.

Lemma tftrt_conversion_command_witness :
  convert_call example_Format_value no_str idle_execute_cmd idle_execute_script
    "sm2tftrt.py" SavedModel2TFTRT example_args
    {| self := example_tftrt; fs := example_exported_fs; available_gpus := [0];
       trace := [] |}
  = (Ok (Some example_tftrt_output),
     {| self := example_tftrt; fs := example_exported_mkdir_fs; available_gpus := [0];
        trace := [Log_info "SavedModel to TF-TRT conversion started";
                  Execute_external_runtime_script "sm2tftrt.py"
                    ["--exported_model_path"; "tf-savedmodel/model.savedmodel";
                     "--converted_model_path"; "tf-trt-fp16/model.savedmodel";
                     "--max_workspace_size"; "8589934592";
                     "--target_precision"; "fp16";
                     "--minimum_segment_size"; "3";
                     "--batch_dim"; "0";
                     "--navigator_workdir"; "navigator_workdir"]] |}).
Proof.
  apply (tftrt_conversion_command example_Format_value no_str idle_execute_cmd
           idle_execute_script "sm2tftrt.py" example_tftrt example_args
           example_exported_fs example_exported_mkdir_fs [0] []
           example_tftrt_output example_exported fp16).
  - discriminate.
  - reflexivity.
  - reflexivity.
  - reflexivity.
  - exact example_mkdir_exported.
  - vm_compute. reflexivity.
  - vm_compute. reflexivity.
Defined.

Lemma tftrt_skip_leaves_output_directory_witness :
  exists rel,
    get_output_relative_path example_Format_value example_tftrt = Ok rel
    /\ example_mkdir_fs !! parent (workdir example_args // rel) = Some Dir
    /\ (forall q k, (∅ : FS) !! q = Some k -> example_mkdir_fs !! q = Some k)
    /\ (forall q k, example_mkdir_fs !! q = Some k ->
           (∅ : FS) !! q = Some k
           \/ (k = Dir /\ exists j, q = take j (parent (workdir example_args // rel)))).
Proof.
  apply (tftrt_skip_leaves_output_directory example_Format_value no_str
           idle_execute_cmd idle_execute_script "sm2tftrt.py" example_tftrt
           example_args ∅ [0] []
           {| self := set_status SKIPPED example_tftrt; fs := example_mkdir_fs;
              available_gpus := [0];
              trace := [Log_info "SavedModel to TF-TRT conversion started";
                        Log_warning
                          (not_found_warning
                             (workdir example_args // example_exported))] |}).
  apply (tftrt_call_missing_input example_Format_value no_str idle_execute_cmd
           idle_execute_script "sm2tftrt.py" example_tftrt example_args ∅ [0] []
           example_tftrt_output example_exported example_mkdir_fs).
  - reflexivity.
  - reflexivity.
  - vm_compute. reflexivity.
  - vm_compute. reflexivity.
  - discriminate.
  - exact example_mkdir_empty.
Defined.

Lemma convert_call_again_is_cache_hit_witness :
  exists logs,
    convert_call example_Format_value no_str idle_execute_cmd idle_execute_script
      "sm2tftrt.py" SavedModel2TFTRT example_args
      {| self := example_tftrt; fs := example_converted_fs; available_gpus := [0];
         trace := [Log_info "SavedModel to TF-TRT conversion started";
                   Log_info "Model already exists. Skipping conversion."] |}
    = (Ok (Some example_tftrt_output),
       {| self := example_tftrt; fs := example_converted_fs; available_gpus := [0];
          trace := [Log_info "SavedModel to TF-TRT conversion started";
                    Log_info "Model already exists. Skipping conversion."] ++ logs |})
    /\ executes_external logs = false.
Proof.
  apply (convert_call_again_is_cache_hit example_Format_value no_str idle_execute_cmd
           idle_execute_script "sm2tftrt.py" SavedModel2TFTRT example_tftrt
           example_args example_converted_fs [0] [] example_tftrt_output
           {| self := example_tftrt; fs := example_converted_fs; available_gpus := [0];
              trace := [Log_info "SavedModel to TF-TRT conversion started";
                        Log_info "Model already exists. Skipping conversion."] |}).
  - apply (tftrt_call_cache_hit example_Format_value no_str idle_execute_cmd
             idle_execute_script "sm2tftrt.py" example_tftrt example_args
             example_converted_fs [0] [] example_tftrt_output).
    + reflexivity.
    + vm_compute. reflexivity.
    + discriminate.
    + exact example_converted_fs_wf.
  - vm_compute. reflexivity.
  - intros _. exact example_converted_fs_wf.
Defined.

(** ** Hoare rules of the monad *)

Section HoareRules.

Context {S : Type}.

Lemma hoare_ret {A} (P : A -> S -> Prop) (a : A) : hoare (P a) (ret a) P.
Proof. intros s Hs. exists a, s. now split. Qed.

Lemma hoare_bind {A B} (P : S -> Prop) (Q : A -> S -> Prop) (R : B -> S -> Prop)
    (m : SE S A) (k : A -> SE S B) :
  hoare P m Q -> (forall a, hoare (Q a) (k a) R) -> hoare P (bind m k) R.
Proof.
  intros Hm Hk s Hs.
  destruct (Hm s Hs) as (a & s' & Hrun & Hq).
  destruct (Hk a s' Hq) as (b & s'' & Hrun' & Hr).
  exists b, s''. split; [|exact Hr].
  unfold bind. now rewrite Hrun.
Qed.

Lemma hoare_conseq {A} (P P' : S -> Prop) (Q Q' : A -> S -> Prop) (m : SE S A) :
  hoare P' m Q' -> (forall s, P s -> P' s) -> (forall a s, Q' a s -> Q a s) ->
  hoare P m Q.
Proof.
  intros Hm Hp Hq s Hs.
  destruct (Hm s (Hp s Hs)) as (a & s' & Hrun & H').
  exists a, s'. split; [exact Hrun | now apply Hq].
Qed.

Lemma hoare_when (I : S -> Prop) (cond : bool) (body : SE S unit) :
  hoare I body (fun _ => I) -> hoare I (when cond body) (fun _ => I).
Proof.
  intros Hb. destruct cond; [exact Hb|].
  intros s Hs. exists tt, s. now split.
Qed.

(** A loop keeps what each pass of its body keeps. *)
Lemma hoare_for_each {A} (I : S -> Prop) (xs : list A) (body : A -> SE S unit) :
  (forall x, hoare I (body x) (fun _ => I)) ->
  hoare I (for_each xs body) (fun _ => I).
Proof.
  intros Hb.
  induction xs as [|x xs IH]; cbn [for_each].
  - intros s Hs. exists tt, s. now split.
  - eapply hoare_bind; [apply Hb | intros u; exact IH].
Qed.

End HoareRules.

(** ** The PyTorch pipeline *)

Import Pyt.

Lemma of_class_app (cls : CommandClass) (l l' : list Command) :
  of_class cls (l ++ l') = of_class cls l ++ of_class cls l'.
Proof. apply List.filter_app. Qed.

Lemma of_class_cons (cls : CommandClass) (c : Command) (l : list Command) :
  of_class cls (c :: l)
  = if bool_decide (class c = cls) then c :: of_class cls l else of_class cls l.
Proof. reflexivity. Qed.

Lemma of_class_other (l : list Command) :
  forallb other_class l = true ->
  of_class ExportPYT2ONNX l = [] /\ of_class ConvertONNX2TRT l = [].
Proof.
  induction l as [|c l IH]; simpl; [now split|].
  intros H. apply andb_true_iff in H as [Hc Hl].
  destruct (IH Hl) as [He Hv].
  unfold other_class in Hc. apply andb_true_iff in Hc as [H1 H2].
  apply negb_true_iff in H1, H2.
  rewrite H1, H2. now split.
Qed.

Lemma well_numbered_extend (s : Builder) (added : list Command) :
  well_numbered s ->
  map id added = seq (next_id s) (length added) ->
  well_numbered {| next_id := length added + next_id s; cmds := cmds s ++ added |}.
Proof.
  unfold well_numbered. cbn [next_id cmds]. intros Hs Ha.
  rewrite map_app, Hs, Ha.
  rewrite (Nat.add_comm (length added)), seq_app. reflexivity.
Qed.

(** Appending commands of other classes keeps what is known of the ONNX
    export. *)
Lemma onnx_export_state_extend (v : option Command) (s : Builder)
    (added : list Command) :
  onnx_export_state v s ->
  map id added = seq (next_id s) (length added) ->
  forallb other_class added = true ->
  onnx_export_state v {| next_id := length added + next_id s; cmds := cmds s ++ added |}.
Proof.
  intros Hs Hids Hother.
  destruct (of_class_other added Hother) as [He Hc].
  destruct v as [e|]; cbn [onnx_export_state] in *.
  - destruct Hs as (Hwn & Hone & Hreq).
    repeat split; cbn [cmds].
    + now apply well_numbered_extend.
    + now rewrite of_class_app, Hone, He.
    + apply Forall_app. split; [exact Hreq|].
      apply List.Forall_forall. intros c Hin Hcls.
      assert (Hc' : In c (of_class ConvertONNX2TRT added)).
      { apply List.filter_In. split; [exact Hin | now apply bool_decide_eq_true_2]. }
      rewrite Hc in Hc'. destruct Hc'.
  - destruct Hs as (Hwn & Hnone & Hnoconv).
    repeat split; cbn [cmds].
    + now apply well_numbered_extend.
    + now rewrite of_class_app, Hnone, He.
    + now rewrite of_class_app, Hnoconv, Hc.
Qed.

Lemma stable_onnx_export_state (v : option Command) : stable (onnx_export_state v).
Proof. intros s added. apply onnx_export_state_extend. Qed.

Lemma stable_after_onnx_branch (b : bool) (v : option Command) :
  stable (after_onnx_branch b v).
Proof.
  intros s added Hs Hids Hother. destruct b; cbn [after_onnx_branch] in *.
  - destruct Hs as (e & -> & He). exists e. split; [reflexivity|].
    now apply (onnx_export_state_extend (Some e)).
  - destruct Hs as (-> & Hn). split; [reflexivity|].
    now apply (onnx_export_state_extend None).
Qed.

Lemma of_class_none (cls : CommandClass) (l : list Command) (c : Command) :
  of_class cls l = [] -> In c l -> class c <> cls.
Proof.
  intros Hnone Hin Hcls.
  assert (H : In c (of_class cls l)).
  { apply List.filter_In. split; [exact Hin | now apply bool_decide_eq_true_2]. }
  rewrite Hnone in H. destruct H.
Qed.

(** Building the export turns the first state of the list into the
    second. *)
Lemma one_onnx_export_start (s : Builder) (e : Command) (rest : list Command) :
  no_onnx_export s ->
  class e = ExportPYT2ONNX ->
  map id (e :: rest) = seq (next_id s) (length (e :: rest)) ->
  forallb other_class rest = true ->
  one_onnx_export e {| next_id := length (e :: rest) + next_id s;
                       cmds := cmds s ++ e :: rest |}.
Proof.
  intros (Hwn & Hnone & Hnoconv) Hcls Hids Hother.
  destruct (of_class_other rest Hother) as [He Hc].
  repeat split; cbn [cmds].
  - now apply well_numbered_extend.
  - rewrite of_class_app, Hnone, of_class_cons.
    rewrite bool_decide_eq_true_2 by exact Hcls.
    now rewrite He.
  - apply Forall_app. split; apply List.Forall_forall; intros c Hin Hconv.
    + now destruct (of_class_none _ _ c Hnoconv Hin).
    + destruct Hin as [<- | Hin]; [congruence|].
      now destruct (of_class_none _ _ c Hc Hin).
Qed.

(** A TensorRT conversion that requires the export, followed by commands
    of other classes, keeps the second state. *)
Lemma one_onnx_export_convert (s : Builder) (e conv : Command) (rest : list Command) :
  one_onnx_export e s ->
  requires conv = [id e] ->
  class conv <> ExportPYT2ONNX ->
  map id (conv :: rest) = seq (next_id s) (length (conv :: rest)) ->
  forallb other_class rest = true ->
  one_onnx_export e {| next_id := length (conv :: rest) + next_id s;
                       cmds := cmds s ++ conv :: rest |}.
Proof.
  intros (Hwn & Hone & Hreq) Hconv Hcls Hids Hother.
  destruct (of_class_other rest Hother) as [He Hc].
  repeat split; cbn [cmds].
  - now apply well_numbered_extend.
  - rewrite of_class_app, Hone, of_class_cons.
    rewrite bool_decide_eq_false_2 by exact Hcls.
    now rewrite He.
  - apply Forall_app. split; [exact Hreq|].
    apply List.Forall_forall. intros c [<- | Hin] Hc'; [exact Hconv|].
    now destruct (of_class_none _ _ c Hc Hin).
Qed.

Ltac run_body :=
  cbv [bind new append_new append ret raise read_local for_each next_id cmds map id];
  rewrite <- ?app_assoc; cbn [app]; reflexivity.

Section StableSteps.

Variable I : Builder -> Prop.
Hypothesis I_stable : stable I.

Lemma torchscript_body_keeps (i f o : Command) (jt : JitType) :
  hoare I (torchscript_body i f o jt) (fun _ => I).
Proof.
  intros s Hs. exists tt.
  eexists. split.
  - unfold torchscript_body.
    instantiate (1 := {| next_id := length [_; _; _; _] + next_id s;
                         cmds := cmds s ++ [_; _; _; _] |}).
    run_body.
  - apply I_stable; [exact Hs | reflexivity | reflexivity].
Qed.

Lemma torch_trt_body_keeps (i f o : Command) (jt : JitType) :
  hoare I (torch_trt_body i f o jt) (fun _ => I).
Proof.
  intros s Hs. exists tt.
  eexists. split.
  - unfold torch_trt_body.
    instantiate (1 := {| next_id := length [_; _; _; _] + next_id s;
                         cmds := cmds s ++ [_; _; _; _] |}).
    run_body.
  - apply I_stable; [exact Hs | reflexivity | reflexivity].
Qed.

Lemma save_data_body_keeps (i f o : Command) :
  hoare I (save_data_body i f o) (fun _ => I).
Proof.
  intros s Hs. exists tt.
  eexists. split.
  - unfold save_data_body.
    instantiate (1 := {| next_id := length [_; _] + next_id s;
                         cmds := cmds s ++ [_; _] |}).
    run_body.
  - apply I_stable; [exact Hs | reflexivity | reflexivity].
Qed.

Lemma config_cli_keeps tf jt tp rp reqs :
  hoare I (append_new ConfigCli tf jt tp rp reqs) (fun _ => I).
Proof.
  intros s Hs. exists tt.
  eexists. split.
  - instantiate (1 := {| next_id := length [_] + next_id s; cmds := cmds s ++ [_] |}).
    run_body.
  - apply I_stable; [exact Hs | reflexivity | reflexivity].
Qed.

End StableSteps.

Lemma onnx_export_block_builds (i f o : Command) :
  hoare no_onnx_export (onnx_export_block i f o) one_onnx_export.
Proof.
  intros s Hs.
  eexists. eexists. split.
  - unfold onnx_export_block.
    instantiate (1 := {| next_id := length [_; _; _; _; _; _; _] + next_id s;
                         cmds := cmds s ++ [_; _; _; _; _; _; _] |}).
    run_body.
  - apply one_onnx_export_start; [exact Hs | reflexivity | reflexivity | reflexivity].
Qed.

Lemma tensorrt_body_keeps (e : Command) (tp : TensorRTPrecision) :
  hoare (one_onnx_export e) (tensorrt_body (Some e) tp) (fun _ => one_onnx_export e).
Proof.
  intros s Hs. exists tt.
  eexists. split.
  - unfold tensorrt_body.
    instantiate (1 := {| next_id := length [_; _; _; _] + next_id s;
                         cmds := cmds s ++ [_; _; _; _] |}).
    run_body.
  - apply one_onnx_export_convert;
      [exact Hs | reflexivity | discriminate | reflexivity | reflexivity].
Qed.

Ltac to_hoare I H :=
  lazymatch goal with
  | |- exists a s', ?f ?s = (Ok a, s') /\ @?R a s' =>
      refine ((_ : hoare I f R) s H)
  end.

(** With TensorRT requested the builder returns, and its list holds one
    export to ONNX that every TensorRT conversion requires. *)
Lemma _get_pipeline_tensorrt (config : Config) :
  TENSORRT ∈ target_formats config ->
  exists p s,
    _get_pipeline config {| next_id := 0; cmds := [] |} = (Ok p, s)
    /\ exists e, commands p = cmds s /\ one_onnx_export e s.
Proof.
  intros Ht.
  unfold _get_pipeline.
  do 6 (erewrite bind_run by reflexivity).
  cbn [next_id cmds app].
  rewrite (bool_decide_eq_true_2 _ Ht). cbn [when].
  match goal with
  | |- exists a s', _ ?s = _ /\ _ =>
      assert (Hinit : no_onnx_export s) by (repeat split; reflexivity)
  end.
  destruct (bool_decide (ONNX ∈ target_formats config)) eqn:Honnx; cbn [negb].
  - to_hoare no_onnx_export Hinit. clear Hinit.
    eapply hoare_bind.
    { apply hoare_when, hoare_for_each. intros jt.
      apply torchscript_body_keeps, (stable_onnx_export_state None). }
    intros _u.
    eapply (hoare_bind _ (after_onnx_branch true)).
    { eapply hoare_bind; [apply onnx_export_block_builds|]. intros e.
      eapply hoare_bind.
      { apply config_cli_keeps, (stable_onnx_export_state (Some e)). }
      intros _v s Hs. exists (Some e), s. split; [reflexivity|].
      exists e. now split. }
    intros v.
    eapply hoare_bind.
    { apply hoare_when, hoare_for_each. intros jt.
      apply torch_trt_body_keeps, stable_after_onnx_branch. }
    intros _w s (e & -> & He).
    to_hoare (one_onnx_export e) He.
    eapply (hoare_bind _ (fun _ => one_onnx_export e)).
    { eapply (hoare_bind _ (fun v s => v = Some e /\ one_onnx_export e s)).
      { intros s1 H1. exists (Some e), s1.
        split; [reflexivity | split; [reflexivity | exact H1]]. }
      intros v s1 (-> & H1).
      to_hoare (one_onnx_export e) H1.
      apply hoare_for_each. intros tp. apply tensorrt_body_keeps. }
    intros _x.
    eapply hoare_bind.
    { apply hoare_when, save_data_body_keeps, (stable_onnx_export_state (Some e)). }
    intros _y s' Hs'. eexists _, s'. split; [reflexivity|].
    exists e. now split.
  - to_hoare no_onnx_export Hinit. clear Hinit.
    eapply hoare_bind.
    { apply hoare_when, hoare_for_each. intros jt.
      apply torchscript_body_keeps, (stable_onnx_export_state None). }
    intros _u.
    eapply (hoare_bind _ (after_onnx_branch false)).
    { intros s Hs. exists None, s.
      split; [reflexivity | split; [reflexivity | exact Hs]]. }
    intros v.
    eapply hoare_bind.
    { apply hoare_when, hoare_for_each. intros jt.
      apply torch_trt_body_keeps, stable_after_onnx_branch. }
    intros _w s (-> & Hn).
    to_hoare no_onnx_export Hn.
    eapply (hoare_bind _ (fun _ s => exists e, one_onnx_export e s)).
    { eapply (hoare_bind _ (fun v s => exists e, v = Some e /\ one_onnx_export e s)).
      { eapply hoare_bind; [apply onnx_export_block_builds|].
        intros e s' He. exists (Some e), s'. split; [reflexivity|].
        exists e. now split. }
      intros v s' (e & -> & He).
      to_hoare (one_onnx_export e) He.
      eapply hoare_conseq.
      - apply hoare_for_each. intros tp. apply tensorrt_body_keeps.
      - auto.
      - intros _x s'' Hs''. now exists e. }
    intros _x s' (e & He).
    to_hoare (one_onnx_export e) He.
    eapply hoare_bind.
    { apply hoare_when, save_data_body_keeps, (stable_onnx_export_state (Some e)). }
    intros _y s'' Hs''. eexists _, s''. split; [reflexivity|].
    exists e. now split.
Qed.

Lemma NoDup_map_injective {A B} (f : A -> B) (l : list A) (x y : A) :
  List.NoDup (map f l) -> In x l -> In y l -> f x = f y -> x = y.
Proof.
  induction l as [|a l IH]; simpl; intros Hnd Hx Hy Hf; [destruct Hx|].
  inversion Hnd as [|? ? Ha Hl]; subst.
  destruct Hx as [<- | Hx], Hy as [<- | Hy]; try reflexivity.
  - exfalso. apply Ha. rewrite Hf. now apply in_map.
  - exfalso. apply Ha. rewrite <- Hf. now apply in_map.
  - now apply IH.
Qed.

Lemma well_numbered_identity (s : Builder) (c e : Command) :
  well_numbered s -> In c (cmds s) -> In e (cmds s) -> id c = id e -> c = e.
Proof.
  intros Hwn. apply NoDup_map_injective.
  rewrite Hwn. apply List.seq_NoDup.
Qed.

(** The pipeline for TensorRT alone, two precisions and [save_data]:
    class, identity and required identities of each command. *)
Example tensorrt_only_pipeline :
  option_map (fun p => map (fun c => (id c, class c, requires c)) (commands p))
             (match get_pipeline tensorrt_only with Ok p => Some p | Raise _ => None end)
  = Some [(0, InferInputMetadata, []); (1, FetchInputModelData, [0]);
          (2, InferOutputMetadata, [0; 1]); (3, ExportPYT2ONNX, [0; 1; 2]);
          (4, CorrectnessPYT2ONNX, [3]); (5, PerformanceONNX, [3]);
          (6, CorrectnessPYT2ONNX, [3]); (7, PerformanceONNX, [3]);
          (8, CorrectnessPYT2ONNX, [3]); (9, PerformanceONNX, [3]);
          (10, ConvertONNX2TRT, [3]); (11, CorrectnessPYT2TRT, [10]);
          (12, PerformanceTRT, [10]); (13, ConfigCli, [10]);
          (14, ConvertONNX2TRT, [3]); (15, CorrectnessPYT2TRT, [14]);
          (16, PerformanceTRT, [14]); (17, ConfigCli, [14]);
          (18, DumpInputModelData, [0; 1]); (19, DumpOutputModelData, [1; 2])].
Proof. vm_compute. reflexivity. Qed.

(** C1: when [Format.TENSORRT] is among the target formats, whether or
    not [Format.ONNX] is too, [_get_pipeline] returns a pipeline whose
    command list holds exactly one [ExportPYT2ONNX] command, and the
    [requires] tuple of every [ConvertONNX2TRT] command in the list is
    made of that one instance, which no other command of the list is. *)
Theorem tensorrt_single_onnx_export :
  forall config : Config,
    TENSORRT ∈ target_formats config ->
    exists (p : Pipeline) (e : Command),
      get_pipeline config = Ok p
      /\ of_class ExportPYT2ONNX (commands p) = [e]
      /\ (forall c, In c (commands p) -> class c = ConvertONNX2TRT ->
                    requires c = [id e] /\ In (id e) (requires c))
      /\ (forall c, In c (commands p) -> id c = id e -> c = e).
Proof.
  intros config Ht.
  destruct (_get_pipeline_tensorrt config Ht)
    as (p & s & Hrun & e & Hcmds & Hwn & Hone & Hreq).
  exists p, e. unfold get_pipeline. rewrite Hrun. cbn [fst]. rewrite Hcmds.
  assert (Hin : In e (cmds s)).
  { assert (H : In e (of_class ExportPYT2ONNX (cmds s))) by (rewrite Hone; now left).
    apply List.filter_In in H. tauto. }
  unfold converts_require in Hreq. rewrite List.Forall_forall in Hreq.
  repeat split.
  - exact Hone.
  - now apply Hreq.
  - rewrite (Hreq c) by assumption. now left.
  - intros c Hc Hid. now apply (well_numbered_identity s).
Qed.

Lemma tensorrt_single_onnx_export_witness :
  exists (p : Pipeline) (e : Command),
    get_pipeline tensorrt_only = Ok p
    /\ of_class ExportPYT2ONNX (commands p) = [e]
    /\ (forall c, In c (commands p) -> class c = ConvertONNX2TRT ->
                  requires c = [id e] /\ In (id e) (requires c))
    /\ (forall c, In c (commands p) -> id c = id e -> c = e).
Proof.
  apply (tensorrt_single_onnx_export tensorrt_only).
  vm_compute. apply list_elem_of_here.
Defined.


(** C3, as amended: a configuration whose only target format is ONNX
    yields a pipeline with exactly three CORRECTNESS commands and three
    PERFORMANCE commands, one of each per runtime provider (CUDA,
    TensorRT, CPU), all requiring the one ONNX export, and with no
    CONVERT command. *)
Theorem onnx_only_checks :
  forall config : Config,
    ONNX ∈ target_formats config ->
    (forall f, f ∈ target_formats config -> f = ONNX) ->
    exists (p : Pipeline) (e : Command),
      get_pipeline config = Ok p
      /\ of_class ExportPYT2ONNX (commands p) = [e]
      /\ map (fun c => (class c, runtime_provider c, requires c))
             (of_type CORRECTNESS (commands p))
         = [(CorrectnessPYT2ONNX, Some RP_CUDA, [id e]);
            (CorrectnessPYT2ONNX, Some RP_TRT, [id e]);
            (CorrectnessPYT2ONNX, Some RP_CPU, [id e])]
      /\ map (fun c => (class c, runtime_provider c, requires c))
             (of_type PERFORMANCE (commands p))
         = [(PerformanceONNX, Some RP_CUDA, [id e]);
            (PerformanceONNX, Some RP_TRT, [id e]);
            (PerformanceONNX, Some RP_CPU, [id e])]
      /\ of_type CONVERT (commands p) = [].
Proof.
  intros config Honnx Honly.
  assert (Hts : bool_decide (TORCHSCRIPT ∈ target_formats config) = false).
  { apply bool_decide_eq_false_2. intros H. now specialize (Honly _ H). }
  assert (Htt : bool_decide (TORCH_TRT ∈ target_formats config) = false).
  { apply bool_decide_eq_false_2. intros H. now specialize (Honly _ H). }
  assert (Htr : bool_decide (TENSORRT ∈ target_formats config) = false).
  { apply bool_decide_eq_false_2. intros H. now specialize (Honly _ H). }
  unfold get_pipeline, _get_pipeline.
  rewrite Hts, Htt, Htr, (bool_decide_eq_true_2 _ Honnx).
  cbn [when].
  destruct (save_data config);
    match goal with
    | |- exists p e, ?r = Ok p /\ _ =>
        let v := eval vm_compute in r in
        assert (Hrun : r = v) by (vm_compute; reflexivity);
        rewrite Hrun; clear Hrun
    end;
    (eexists; exists {| id := 3; class := ExportPYT2ONNX; target_format := None;
                        target_jit_type := None; target_precision := None;
                        runtime_provider := None; requires := [0; 1; 2] |});
    (split; [reflexivity|]);
    repeat split; vm_compute; reflexivity.
Qed.

Lemma onnx_only_checks_witness :
  exists (p : Pipeline) (e : Command),
    get_pipeline onnx_only = Ok p
    /\ of_class ExportPYT2ONNX (commands p) = [e]
    /\ map (fun c => (class c, runtime_provider c, requires c))
           (of_type CORRECTNESS (commands p))
       = [(CorrectnessPYT2ONNX, Some RP_CUDA, [id e]);
          (CorrectnessPYT2ONNX, Some RP_TRT, [id e]);
          (CorrectnessPYT2ONNX, Some RP_CPU, [id e])]
    /\ map (fun c => (class c, runtime_provider c, requires c))
           (of_type PERFORMANCE (commands p))
       = [(PerformanceONNX, Some RP_CUDA, [id e]);
          (PerformanceONNX, Some RP_TRT, [id e]);
          (PerformanceONNX, Some RP_CPU, [id e])]
    /\ of_type CONVERT (commands p) = [].
Proof.
  apply (onnx_only_checks onnx_only).
  - vm_compute. apply list_elem_of_here.
  - intros f Hf. vm_compute in Hf.
    apply list_elem_of_singleton in Hf. exact Hf.
Defined.

(** C3, as stated, fails: the pipeline for ONNX alone holds CORRECTNESS
    and PERFORMANCE commands. *)
Lemma onnx_only_has_checks :
  ~ (forall p, get_pipeline onnx_only = Ok p ->
               of_type CORRECTNESS (commands p) = []
               /\ of_type PERFORMANCE (commands p) = []).
Proof.
  intros H.
  assert (Hrun : exists p, get_pipeline onnx_only = Ok p
                           /\ length (of_type CORRECTNESS (commands p)) = 3).
  { eexists. split; vm_compute; reflexivity. }
  destruct Hrun as (p & Hp & Hlen).
  destruct (H p Hp) as [Hc _].
  rewrite Hc in Hlen. discriminate.
Qed.

(** ** The command list in closed form *)

Lemma length_passes {A} (pass : nat -> A -> list Command) (n : nat) (xs : list A) :
  (forall k x, length (pass k x) = 4) ->
  length (passes pass n xs) = 4 * length xs.
Proof.
  intros Hp. revert n.
  induction xs as [|x xs IH]; intros n; [reflexivity|].
  cbn [passes]. rewrite length_app, Hp, IH. simpl. lia.
Qed.

(** A loop whose body appends one pass appends the passes. *)
Lemma for_each_passes {A} (body : A -> B unit) (pass : nat -> A -> list Command) :
  (forall x s, body x s
               = (Ok tt, {| next_id := 4 + next_id s;
                            cmds := cmds s ++ pass (next_id s) x |})) ->
  (forall k x, length (pass k x) = 4) ->
  forall xs l,
    for_each xs body (state_of l)
    = (Ok tt, state_of (l ++ passes pass (length l) xs)).
Proof.
  intros Hbody Hlen xs.
  induction xs as [|x xs IH]; intros l.
  - cbn [for_each passes]. now rewrite app_nil_r.
  - cbn [for_each passes].
    rewrite (bind_run _ _ _ _ _ (Hbody x (state_of l))).
    cbn [state_of next_id cmds].
    change {| next_id := 4 + length l; cmds := l ++ pass (length l) x |}
      with {| next_id := S (S (S (S (length l)))); cmds := l ++ pass (length l) x |}.
    replace {| next_id := S (S (S (S (length l)))); cmds := l ++ pass (length l) x |}
      with (state_of (l ++ pass (length l) x)).
    2:{ unfold state_of. rewrite length_app, Hlen. f_equal. lia. }
    rewrite IH. rewrite length_app, Hlen, <- app_assoc.
    replace (length l + 4) with (4 + length l) by lia. reflexivity.
Qed.

Lemma torchscript_body_pass (i f o : Command) (jt : JitType) (s : Builder) :
  torchscript_body i f o jt s
  = (Ok tt, {| next_id := 4 + next_id s;
               cmds := cmds s ++ torchscript_pass [id i; id f; id o] (next_id s) jt |}).
Proof. unfold torchscript_body. run_body. Qed.

Lemma torch_trt_body_pass (i f o : Command) (jt : JitType) (s : Builder) :
  torch_trt_body i f o jt s
  = (Ok tt, {| next_id := 4 + next_id s;
               cmds := cmds s ++ torch_trt_pass [id i; id f; id o] (next_id s) jt |}).
Proof. unfold torch_trt_body. run_body. Qed.

Lemma tensorrt_body_pass (e : Command) (tp : TensorRTPrecision) (s : Builder) :
  tensorrt_body (Some e) tp s
  = (Ok tt, {| next_id := 4 + next_id s;
               cmds := cmds s ++ tensorrt_pass (id e) (next_id s) tp |}).
Proof. unfold tensorrt_body. run_body. Qed.

Lemma onnx_export_block_commands (i f o : Command) (l : list Command) :
  onnx_export_block i f o (state_of l)
  = (Ok (command (length l) ExportPYT2ONNX None None None None [id i; id f; id o]),
     state_of (l ++ onnx_commands [id i; id f; id o] (length l))).
Proof.
  unfold onnx_export_block, state_of. rewrite length_app.
  cbn [onnx_commands length].
  replace (length l + 7) with (7 + length l) by lia.
  run_body.
Qed.

Lemma append_new_command cls tf jt tp rp reqs (l : list Command) :
  append_new cls tf jt tp rp reqs (state_of l)
  = (Ok tt, state_of (l ++ [command (length l) cls tf jt tp rp (map id reqs)])).
Proof.
  unfold state_of. rewrite length_app. cbn [length].
  replace (length l + 1) with (1 + length l) by lia.
  run_body.
Qed.

Lemma bind_assoc {S A B C} (m : SE S A) (k : A -> SE S B) (k' : B -> SE S C) (s : S) :
  bind (bind m k) k' s = bind m (fun a => bind (k a) k') s.
Proof. unfold bind. destruct (m s) as [[a|e] s']; reflexivity. Qed.

Lemma when_run {S} (cond : bool) (body : SE S unit) (s s' : S) :
  body s = (Ok tt, s') ->
  when cond body s = (Ok tt, if cond then s' else s).
Proof. intros H. destruct cond; [exact H | reflexivity]. Qed.

Section ClosedForm.

Variable config : Config.

Lemma run_torchscript_part (l : list Command) :
  when (bool_decide (TORCHSCRIPT ∈ target_formats config))
    (for_each (config_target_jit_type config) (torchscript_body infer_input_command fetch_input_command infer_output_command)) (state_of l)
  = (Ok tt, state_of (l ++ torchscript_part config (length l))).
Proof.
  rewrite (when_run _ _ _ _
             (for_each_passes _ (torchscript_pass [0; 1; 2])
                (torchscript_body_pass infer_input_command fetch_input_command infer_output_command) (fun _ _ => eq_refl) _ l)).
  unfold torchscript_part.
  destruct (bool_decide _); [reflexivity | now rewrite app_nil_r].
Qed.

Lemma run_torch_trt_part (l : list Command) :
  when (bool_decide (TORCH_TRT ∈ target_formats config))
    (for_each (config_target_jit_type config) (torch_trt_body infer_input_command fetch_input_command infer_output_command)) (state_of l)
  = (Ok tt, state_of (l ++ torch_trt_part config (length l))).
Proof.
  rewrite (when_run _ _ _ _
             (for_each_passes _ (torch_trt_pass [0; 1; 2])
                (torch_trt_body_pass infer_input_command fetch_input_command infer_output_command) (fun _ _ => eq_refl) _ l)).
  unfold torch_trt_part.
  destruct (bool_decide _); [reflexivity | now rewrite app_nil_r].
Qed.

Lemma run_onnx_part (l : list Command) :
  (if bool_decide (ONNX ∈ target_formats config) then
     onnx_export <- onnx_export_block infer_input_command fetch_input_command infer_output_command ;;
     append_new ConfigCli (Some ONNX) None None None [onnx_export] ;;;
     ret (Some onnx_export)
   else ret None) (state_of l)
  = (Ok (if bool_decide (ONNX ∈ target_formats config)
         then Some (onnx_export_command (length l))
         else None),
     state_of (l ++ onnx_part config (length l))).
Proof.
  unfold onnx_part.
  destruct (bool_decide _).
  - rewrite (bind_run _ _ _ _ _ (onnx_export_block_commands infer_input_command fetch_input_command
                                infer_output_command l)).
    rewrite (bind_run _ _ _ _ _ (append_new_command _ _ _ _ _ _ _)).
    rewrite length_app. cbn [length onnx_commands map id].
    replace (length l + 7) with (7 + length l) by lia.
    rewrite <- app_assoc. reflexivity.
  - now rewrite app_nil_r.
Qed.

Lemma run_tensorrt_part (l : list Command) (e : nat) :
  when (bool_decide (TENSORRT ∈ target_formats config))
    (onnx_export <-
       (if negb (bool_decide (ONNX ∈ target_formats config)) then
          onnx_export <- onnx_export_block infer_input_command fetch_input_command infer_output_command ;;
          ret (Some onnx_export)
        else ret (if bool_decide (ONNX ∈ target_formats config)
                  then Some (onnx_export_command e)
                  else None)) ;;
     for_each (target_precisions config) (tensorrt_body onnx_export)) (state_of l)
  = (Ok tt, state_of (l ++ tensorrt_part config e (length l))).
Proof.
  unfold tensorrt_part.
  destruct (bool_decide (TENSORRT ∈ target_formats config)); cbn [when].
  2:{ now rewrite app_nil_r. }
  destruct (bool_decide (ONNX ∈ target_formats config)); cbn [negb].
  - rewrite bind_ret.
    apply (for_each_passes _ (tensorrt_pass e)
             (tensorrt_body_pass (onnx_export_command e)) (fun _ _ => eq_refl)).
  - rewrite bind_assoc.
    rewrite (bind_run _ _ _ _ _ (onnx_export_block_commands infer_input_command fetch_input_command
                                infer_output_command l)).
    rewrite bind_ret.
    rewrite (for_each_passes _ (tensorrt_pass (length l))
               (tensorrt_body_pass (onnx_export_command (length l)))
               (fun _ _ => eq_refl)).
    rewrite length_app. cbn [length onnx_commands].
    replace (length l + 7) with (7 + length l) by lia.
    now rewrite <- app_assoc.
Qed.

Lemma run_save_data (l : list Command) :
  when (save_data config) (save_data_body infer_input_command fetch_input_command infer_output_command) (state_of l)
  = (Ok tt, state_of (l ++ (if save_data config then dump_commands (length l) else []))).
Proof.
  destruct (save_data config); cbn [when].
  - unfold save_data_body.
    rewrite (bind_run _ _ _ _ _ (append_new_command _ _ _ _ _ _ _)).
    rewrite append_new_command.
    rewrite length_app. cbn [length map id dump_commands].
    replace (length l + 1) with (1 + length l) by lia.
    now rewrite <- app_assoc.
  - now rewrite app_nil_r.
Qed.

(** The builder returns for every configuration, with the commands of
    the closed form. *)
Lemma _get_pipeline_closed_form :
  _get_pipeline config {| next_id := 0; cmds := [] |}
  = (Ok {| name := "PyTorch pipeline"; framework := PYT;
           commands := closed_form config |},
     state_of (closed_form config)).
Proof.
  unfold _get_pipeline.
  do 6 (erewrite bind_run by reflexivity).
  cbn [next_id cmds app map id].
  change {| next_id := 3; cmds := _ |} with (state_of metadata_commands).
  change (Build_Command 0 InferInputMetadata None None None None [])
    with infer_input_command.
  change (Build_Command 1 FetchInputModelData None None None None [0])
    with fetch_input_command.
  change (Build_Command 2 InferOutputMetadata None None None None [0; 1])
    with infer_output_command.
  rewrite (bind_run _ _ _ _ _ (run_torchscript_part _)).
  rewrite (bind_run _ _ _ _ _ (run_onnx_part _)).
  rewrite (bind_run _ _ _ _ _ (run_torch_trt_part _)).
  rewrite (bind_run _ _ _ _ _ (run_tensorrt_part _ _)).
  rewrite (bind_run _ _ _ _ _ (run_save_data _)).
  reflexivity.
Qed.

End ClosedForm.

(** ** Numbering and order of the commands *)

Lemma numbered_app (n : nat) (l l' : list Command) :
  numbered n l -> numbered (n + length l) l' -> numbered n (l ++ l').
Proof.
  unfold numbered. intros H H'.
  rewrite map_app, length_app, seq_app, H, H'. reflexivity.
Qed.

Lemma numbered_passes {A} (pass : nat -> A -> list Command) (n : nat) (xs : list A) :
  (forall k x, numbered k (pass k x)) ->
  (forall k x, length (pass k x) = 4) ->
  numbered n (passes pass n xs).
Proof.
  intros Hp Hlen. revert n.
  induction xs as [|x xs IH]; intros n; [reflexivity|].
  cbn [passes]. apply numbered_app; [apply Hp|].
  rewrite Hlen. replace (n + 4) with (4 + n) by lia. apply IH.
Qed.

Lemma numbered_nil (n : nat) : numbered n [].
Proof. reflexivity. Qed.

Lemma numbered_closed_form (config : Config) : numbered 0 (closed_form config).
Proof.
  unfold closed_form. cbv zeta.
  repeat (apply numbered_app; cbn [Nat.add]).
  - reflexivity.
  - unfold torchscript_part. destruct (bool_decide _); [|apply numbered_nil].
    apply numbered_passes; reflexivity.
  - unfold onnx_part. destruct (bool_decide _); [|apply numbered_nil].
    unfold numbered. cbn [map id onnx_commands app length seq command]. reflexivity.
  - unfold torch_trt_part. destruct (bool_decide _); [|apply numbered_nil].
    apply numbered_passes; reflexivity.
  - unfold tensorrt_part.
    destruct (bool_decide (TENSORRT ∈ _)); [|apply numbered_nil].
    destruct (bool_decide (ONNX ∈ _)).
    + apply numbered_passes; reflexivity.
    + apply numbered_app; [reflexivity|].
      cbn [length onnx_commands].
      match goal with
      | |- numbered (?n + 7) _ => replace (n + 7) with (7 + n) by lia
      end.
      apply numbered_passes; reflexivity.
  - destruct (save_data config); [reflexivity | apply numbered_nil].
Qed.

Lemma numbered_lookup (l : list Command) (c : Command) :
  numbered 0 l -> In c l -> l !! id c = Some c.
Proof.
  unfold numbered. intros Hn Hin.
  apply list_elem_of_In, list_elem_of_lookup in Hin as [k Hk].
  assert (Hid : id c = k).
  { assert (H : map id l !! k = Some (id c)) by (now rewrite list_lookup_fmap, Hk).
    rewrite Hn in H. apply lookup_seq in H. lia. }
  now rewrite Hid.
Qed.

(** X16: for every configuration [_get_pipeline] returns (the local
    [onnx_export] is bound whenever the TensorRT loop reads it) a
    pipeline named "PyTorch pipeline" for the PyTorch framework, in
    which the k-th command built is the k-th of the list: every instance
    is appended exactly once, in the order of construction. *)
Theorem get_pipeline_total :
  forall config : Config,
    exists p,
      get_pipeline config = Ok p
      /\ name p = "PyTorch pipeline"
      /\ framework p = PYT
      /\ map id (commands p) = seq 0 (length (commands p))
      /\ forall c, In c (commands p) -> commands p !! id c = Some c.
Proof.
  intros config. eexists.
  unfold get_pipeline. rewrite _get_pipeline_closed_form. cbn [fst].
  split; [reflexivity|]. cbn [name framework commands].
  repeat split.
  - apply numbered_closed_form.
  - intros c Hc. apply numbered_lookup; [apply numbered_closed_form | exact Hc].
Qed.

(** ** Consequences of the closed form *)

Lemma get_pipeline_closed_form (config : Config) :
  get_pipeline config
  = Ok {| name := "PyTorch pipeline"; framework := PYT;
          commands := closed_form config |}.
Proof. unfold get_pipeline. now rewrite _get_pipeline_closed_form. Qed.

Lemma Forall_passes {A} (P : Command -> Prop) (pass : nat -> A -> list Command)
    (n : nat) (xs : list A) :
  (forall k x, n <= k -> Forall P (pass k x)) ->
  Forall P (passes pass n xs).
Proof.
  intros Hp. revert n Hp.
  induction xs as [|x xs IH]; intros n Hp; [constructor|].
  cbn [passes]. apply Forall_app. split; [now apply Hp|].
  apply IH. intros k y Hk. apply Hp. lia.
Qed.

Lemma length_closed_form (config : Config) :
  length (closed_form config) = expected_length config.
Proof.
  unfold closed_form, expected_length. cbv zeta.
  rewrite !length_app.
  unfold torchscript_part, onnx_part, torch_trt_part, tensorrt_part.
  destruct (bool_decide (TORCHSCRIPT ∈ _)), (bool_decide (ONNX ∈ _)),
    (bool_decide (TORCH_TRT ∈ _)), (bool_decide (TENSORRT ∈ _)),
    (save_data config);
    rewrite ?length_app, ?length_passes by reflexivity;
    cbn [length metadata_commands onnx_commands dump_commands]; lia.
Qed.

Ltac Forall_step tac :=
  repeat lazymatch goal with
         | |- Forall _ (_ :: _) => apply List.Forall_cons; [tac|]
         | |- Forall _ [] => apply List.Forall_nil
         end.

Ltac earlier :=
  Forall_step ltac:(unfold requires_earlier; cbn [id requires command];
                    Forall_step ltac:(lia)).

Lemma requires_earlier_closed_form (config : Config) :
  Forall requires_earlier (closed_form config).
Proof.
  unfold closed_form. cbv zeta.
  set (l1 := metadata_commands ++ torchscript_part config 3).
  set (l2 := l1 ++ onnx_part config (length l1)).
  set (l3 := l2 ++ torch_trt_part config (length l2)).
  set (l4 := l3 ++ tensorrt_part config (length l1) (length l3)).
  assert (H1 : 3 <= length l1) by (unfold l1; rewrite length_app; cbn; lia).
  assert (H2 : length l1 <= length l2) by (unfold l2; rewrite length_app; lia).
  assert (H3 : length l2 <= length l3) by (unfold l3; rewrite length_app; lia).
  assert (H4 : length l3 <= length l4) by (unfold l4; rewrite length_app; lia).
  assert (Hexp : forall n, 3 <= n -> Forall requires_earlier (onnx_commands [0; 1; 2] n)).
  { intros n Hn. unfold onnx_commands. earlier. }
  assert (Hl1 : Forall requires_earlier l1).
  { unfold l1. apply Forall_app. split.
    - unfold metadata_commands. earlier.
    - unfold torchscript_part. destruct (bool_decide _); [|constructor].
      apply Forall_passes. intros k x Hk. unfold torchscript_pass. earlier. }
  assert (Hl2 : Forall requires_earlier l2).
  { unfold l2. apply Forall_app. split; [exact Hl1|].
    unfold onnx_part. destruct (bool_decide _); [|constructor].
    apply Forall_app. split; [now apply Hexp|].
    earlier. }
  assert (Hl3 : Forall requires_earlier l3).
  { unfold l3. apply Forall_app. split; [exact Hl2|].
    unfold torch_trt_part. destruct (bool_decide _); [|constructor].
    apply Forall_passes. intros k x Hk. unfold torch_trt_pass. earlier. }
  assert (Hl4 : Forall requires_earlier l4).
  { unfold l4. apply Forall_app. split; [exact Hl3|].
    unfold tensorrt_part.
    destruct (bool_decide (TENSORRT ∈ _)); [|constructor].
    destruct (bool_decide (ONNX ∈ target_formats config)) eqn:Honnx.
    - assert (Hlt : length l1 < length l2).
      { unfold l2, onnx_part. rewrite Honnx, !length_app. cbn. lia. }
      apply Forall_passes. intros k x Hk. unfold tensorrt_pass. earlier.
    - apply Forall_app. split; [apply Hexp; lia|].
      apply Forall_passes. intros k x Hk. unfold tensorrt_pass. earlier. }
  apply Forall_app. split; [exact Hl4|].
  destruct (save_data config); [|constructor].
  unfold dump_commands. earlier.
Qed.

(** X17: in every pipeline the builder returns, each identity a command
    requires is smaller than the command's own and is the identity of
    the command at that position: [requires] only points back to
    commands that are in the list and come earlier, so the list is in
    an order in which it can be executed. *)
Theorem get_pipeline_requires_earlier :
  forall config : Config,
    exists p,
      get_pipeline config = Ok p
      /\ forall c r,
           In c (commands p) -> In r (requires c) ->
           r < id c
           /\ exists c', commands p !! r = Some c' /\ id c' = r.
Proof.
  intros config. eexists. split; [apply get_pipeline_closed_form|].
  cbn [commands]. intros c r Hc Hr.
  pose proof (requires_earlier_closed_form config) as Hreq.
  rewrite List.Forall_forall in Hreq. specialize (Hreq c Hc).
  unfold requires_earlier in Hreq. rewrite List.Forall_forall in Hreq.
  specialize (Hreq r Hr). split; [exact Hreq|].
  pose proof (numbered_closed_form config) as Hn.
  pose proof (numbered_lookup _ _ Hn Hc) as Hlk.
  assert (Hlen : r < length (closed_form config)).
  { apply lookup_lt_Some in Hlk. lia. }
  destruct (lookup_lt_is_Some_2 _ _ Hlen) as [c' Hc'].
  exists c'. split; [exact Hc'|].
  assert (H : map id (closed_form config) !! r = Some (id c'))
    by (now rewrite list_lookup_fmap, Hc').
  unfold numbered in Hn. rewrite Hn in H. apply lookup_seq in H. lia.
Qed.

(** X18: the number of commands of the pipeline: three metadata
    commands, four per jit type for TorchScript and again for
    Torch-TensorRT, eight for ONNX (seven when ONNX is only exported for
    TensorRT), four per precision for TensorRT, two when the data is
    saved. *)
Theorem get_pipeline_length :
  forall config : Config,
    exists p,
      get_pipeline config = Ok p
      /\ length (commands p) = expected_length config.
Proof.
  intros config. eexists. split; [apply get_pipeline_closed_form|].
  apply length_closed_form.
Qed.

Lemma config_cli_passes {A} (pass : nat -> A -> list Command)
    (v : A -> option Format * option JitType * option TensorRTPrecision)
    (n : nat) (xs : list A) :
  (forall k x, map variant_of (of_class ConfigCli (pass k x)) = [v x]) ->
  map variant_of (of_class ConfigCli (passes pass n xs)) = map v xs.
Proof.
  intros Hp. revert n.
  induction xs as [|x xs IH]; intros n; [reflexivity|].
  cbn [passes map]. rewrite of_class_app, map_app, Hp, IH. reflexivity.
Qed.

Lemma config_cli_dump (b : bool) (n : nat) :
  map variant_of (of_class ConfigCli (if b then dump_commands n else [])) = [].
Proof. destruct b; reflexivity. Qed.

Lemma config_cli_onnx_commands (n : nat) :
  map variant_of (of_class ConfigCli (onnx_commands [0; 1; 2] n)) = [].
Proof. reflexivity. Qed.

Lemma config_cli_closed_form (config : Config) :
  map variant_of (of_class ConfigCli (closed_form config))
  = requested_variants config.
Proof.
  unfold closed_form, requested_variants. cbv zeta.
  rewrite !of_class_app, !map_app, config_cli_dump, app_nil_r, <- !app_assoc.
  change (map variant_of (of_class ConfigCli metadata_commands)) with
    (@nil (option Format * option JitType * option TensorRTPrecision)).
  cbn [app].
  f_equal; [|f_equal; [|f_equal]].
  - unfold torchscript_part. destruct (bool_decide _); [|reflexivity].
    apply config_cli_passes. reflexivity.
  - unfold onnx_part. destruct (bool_decide _); reflexivity.
  - unfold torch_trt_part. destruct (bool_decide _); [|reflexivity].
    apply config_cli_passes. reflexivity.
  - unfold tensorrt_part.
    destruct (bool_decide (TENSORRT ∈ _)); [|reflexivity].
    destruct (bool_decide (ONNX ∈ _)).
    + apply config_cli_passes. reflexivity.
    + rewrite of_class_app, map_app, config_cli_onnx_commands.
      cbn [app]. apply config_cli_passes. reflexivity.
Qed.

(** X19: the [ConfigCli] commands of the pipeline are, in order, one per
    requested output variant: (TorchScript, jit type) for each jit type,
    ONNX, (Torch-TensorRT, jit type) for each jit type, (TensorRT,
    precision) for each precision, each only when its format is among
    the target formats. An ONNX export that is only built for the
    TensorRT conversion gets no [ConfigCli] command. *)
Theorem get_pipeline_config_variants :
  forall config : Config,
    exists p,
      get_pipeline config = Ok p
      /\ map variant_of (of_class ConfigCli (commands p))
         = requested_variants config.
Proof.
  intros config. eexists. split; [apply get_pipeline_closed_form|].
  apply config_cli_closed_form.
Qed.

Lemma well_required_incl (l l' : list Command) (c : Command) :
  incl l l' -> well_required l c -> well_required l' c.
Proof.
  intros Hincl. unfold well_required.
  destruct (command_type c); try exact (fun H => H);
    intros (c' & Hin & Hrest); exists c'; (split; [now apply Hincl | exact Hrest]).
Qed.

Lemma Forall_well_required_incl (l l' part : list Command) :
  incl l l' -> Forall (well_required l) part -> Forall (well_required l') part.
Proof.
  intros Hincl H. apply (List.Forall_impl _ (fun c => well_required_incl l l' c Hincl) H).
Qed.

Lemma well_required_passes {A} (pass : nat -> A -> list Command)
    (l0 : list Command) (n : nat) (xs : list A) :
  (forall k x, Forall (well_required (l0 ++ pass k x)) (pass k x)) ->
  Forall (well_required (l0 ++ passes pass n xs)) (passes pass n xs).
Proof.
  intros Hp. revert n.
  induction xs as [|x xs IH]; intros n; [constructor|].
  cbn [passes]. apply Forall_app. split.
  - apply (Forall_well_required_incl (l0 ++ pass n x)); [|apply Hp].
    apply incl_app; [apply incl_appl, incl_refl|].
    apply incl_appr, incl_appl, incl_refl.
  - apply (Forall_well_required_incl (l0 ++ passes pass (4 + n) xs)); [|apply IH].
    apply incl_app; [apply incl_appl, incl_refl|].
    apply incl_appr, incl_appr, incl_refl.
Qed.

Ltac required_of c' :=
  exists c'; split; [cbn [In app]; tauto | split; [reflexivity | auto]].

Lemma well_required_torchscript_pass (k : nat) (jt : JitType) :
  Forall (well_required ([] ++ torchscript_pass [0; 1; 2] k jt))
         (torchscript_pass [0; 1; 2] k jt).
Proof.
  unfold torchscript_pass.
  Forall_step ltac:(first
    [ reflexivity
    | required_of (command k ExportPYT2TorchScript None (Some jt) None None [0; 1; 2]) ]).
Qed.

Lemma well_required_torch_trt_pass (k : nat) (jt : JitType) :
  Forall (well_required ([] ++ torch_trt_pass [0; 1; 2] k jt))
         (torch_trt_pass [0; 1; 2] k jt).
Proof.
  unfold torch_trt_pass.
  Forall_step ltac:(first
    [ reflexivity
    | required_of (command k ExportPYT2TorchTensorRT None (Some jt) None None [0; 1; 2]) ]).
Qed.

Lemma well_required_tensorrt_pass (e k : nat) (tp : TensorRTPrecision) :
  Forall (well_required ([onnx_export_command e] ++ tensorrt_pass e k tp))
         (tensorrt_pass e k tp).
Proof.
  unfold tensorrt_pass.
  Forall_step ltac:(first
    [ required_of (onnx_export_command e)
    | required_of (command k ConvertONNX2TRT None None (Some tp) None [e]) ]).
Qed.

Lemma well_required_onnx_commands (n : nat) :
  Forall (well_required (onnx_commands [0; 1; 2] n)) (onnx_commands [0; 1; 2] n).
Proof.
  unfold onnx_commands.
  Forall_step ltac:(first [ reflexivity | required_of (onnx_export_command n) ]).
Qed.

Lemma well_required_closed_form (config : Config) :
  Forall (well_required (closed_form config)) (closed_form config).
Proof.
  unfold closed_form. cbv zeta.
  set (l1 := metadata_commands ++ torchscript_part config 3).
  set (l2 := l1 ++ onnx_part config (length l1)).
  set (l3 := l2 ++ torch_trt_part config (length l2)).
  set (l4 := l3 ++ tensorrt_part config (length l1) (length l3)).
  set (d := if save_data config then dump_commands (length l4) else []).
  assert (I4 : incl l4 (l4 ++ d)) by apply incl_appl, incl_refl.
  assert (I3 : incl l3 (l4 ++ d)).
  { intros x Hx. apply I4. unfold l4. apply in_or_app. now left. }
  assert (I2 : incl l2 (l4 ++ d)).
  { intros x Hx. apply I3. unfold l3. apply in_or_app. now left. }
  assert (I1 : incl l1 (l4 ++ d)).
  { intros x Hx. apply I2. unfold l2. apply in_or_app. now left. }
  repeat (apply Forall_app; split).
  - unfold metadata_commands, well_required.
    Forall_step ltac:(cbn; Forall_step ltac:(lia)).
  - apply (Forall_well_required_incl (torchscript_part config 3)).
    { intros x Hx. apply I1. unfold l1. apply in_or_app. now right. }
    unfold torchscript_part. destruct (bool_decide _); [|constructor].
    apply (well_required_passes _ []). apply well_required_torchscript_pass.
  - apply (Forall_well_required_incl (onnx_part config (length l1))).
    { intros x Hx. apply I2. unfold l2. apply in_or_app. now right. }
    unfold onnx_part. destruct (bool_decide _); [|constructor].
    apply Forall_app. split.
    + apply (Forall_well_required_incl (onnx_commands [0; 1; 2] (length l1)));
        [apply incl_appl, incl_refl | apply well_required_onnx_commands].
    + unfold onnx_commands.
      Forall_step ltac:(required_of (onnx_export_command (length l1))).
  - apply (Forall_well_required_incl (torch_trt_part config (length l2))).
    { intros x Hx. apply I3. unfold l3. apply in_or_app. now right. }
    unfold torch_trt_part. destruct (bool_decide _); [|constructor].
    apply (well_required_passes _ []). apply well_required_torch_trt_pass.
  - unfold tensorrt_part.
    destruct (bool_decide (TENSORRT ∈ _)) eqn:Htrt; [|constructor].
    destruct (bool_decide (ONNX ∈ target_formats config)) eqn:Honnx.
    + apply (Forall_well_required_incl
               ([onnx_export_command (length l1)]
                ++ passes (tensorrt_pass (length l1)) (length l3)
                     (target_precisions config))).
      { apply incl_app.
        - intros x [<-|[]]. apply I2. unfold l2, onnx_part. rewrite Honnx.
          apply in_or_app. right. now left.
        - intros x Hx. apply I4. unfold l4, tensorrt_part. rewrite Htrt, Honnx.
          apply in_or_app. now right. }
      apply well_required_passes. intros k x. apply well_required_tensorrt_pass.
    + assert (I : incl (onnx_commands [0; 1; 2] (length l3)
                        ++ passes (tensorrt_pass (length l3)) (7 + length l3)
                             (target_precisions config)) (l4 ++ d)).
      { intros x Hx. apply I4. unfold l4, tensorrt_part. rewrite Htrt, Honnx.
        apply in_or_app. now right. }
      apply Forall_app. split.
      * apply (Forall_well_required_incl (onnx_commands [0; 1; 2] (length l3)));
          [|apply well_required_onnx_commands].
        intros x Hx. apply I. apply in_or_app. now left.
      * apply (Forall_well_required_incl
                 ([onnx_export_command (length l3)]
                  ++ passes (tensorrt_pass (length l3)) (7 + length l3)
                       (target_precisions config))).
        { apply incl_app.
          - intros x [<-|[]]. apply I. apply in_or_app. left. now left.
          - intros x Hx. apply I. apply in_or_app. now right. }
        apply well_required_passes. intros k x. apply well_required_tensorrt_pass.
  - unfold d. destruct (save_data config); [|constructor].
    unfold dump_commands, well_required.
    Forall_step ltac:(cbn; Forall_step ltac:(lia)).
Qed.

(** X20: the shape of [requires] in every pipeline the builder returns:
    each correctness, performance and [ConfigCli] command requires
    exactly one command of the list, an export or a conversion; each
    conversion requires exactly one command of the list, an
    [ExportPYT2ONNX]; each export requires exactly the three metadata
    commands; the metadata and dump commands require metadata commands
    only. *)
Theorem get_pipeline_well_required :
  forall config : Config,
    exists p,
      get_pipeline config = Ok p
      /\ Forall (well_required (commands p)) (commands p).
Proof.
  intros config. eexists. split; [apply get_pipeline_closed_form|].
  apply well_required_closed_form.
Qed.

(** X21: [save_data] only appends: the pipeline built with
    [save_data] is the one built without it, followed by
    [DumpInputModelData] and [DumpOutputModelData], which require the
    metadata commands (0, 1) and (1, 2). *)
Theorem get_pipeline_save_data :
  forall (tf : list Format) (jts : list JitType) (tps : list TensorRTPrecision),
    exists p q,
      get_pipeline {| target_formats := tf; config_target_jit_type := jts;
                      target_precisions := tps; save_data := false |} = Ok p
      /\ get_pipeline {| target_formats := tf; config_target_jit_type := jts;
                         target_precisions := tps; save_data := true |} = Ok q
      /\ commands q
         = commands p
           ++ [command (length (commands p)) DumpInputModelData
                 None None None None [0; 1];
               command (1 + length (commands p)) DumpOutputModelData
                 None None None None [1; 2]].
Proof.
  intros tf jts tps. do 2 eexists.
  split; [apply get_pipeline_closed_form|].
  split; [apply get_pipeline_closed_form|].
  cbn [commands].
  unfold closed_form, torchscript_part, onnx_part, torch_trt_part, tensorrt_part.
  cbn [target_formats config_target_jit_type target_precisions save_data].
  rewrite app_nil_r. reflexivity.
Qed.

(** X22: the builder reads [target_formats] through membership tests
    only: two configurations whose target formats have the same
    members, in whatever order and with whatever repetitions, give the
    same pipeline. *)
Theorem get_pipeline_formats_as_set :
  forall (tf tf' : list Format) (jts : list JitType)
         (tps : list TensorRTPrecision) (sd : bool),
    (forall f, f ∈ tf <-> f ∈ tf') ->
    get_pipeline {| target_formats := tf; config_target_jit_type := jts;
                    target_precisions := tps; save_data := sd |}
    = get_pipeline {| target_formats := tf'; config_target_jit_type := jts;
                      target_precisions := tps; save_data := sd |}.
Proof.
  intros tf tf' jts tps sd Hmem.
  rewrite !get_pipeline_closed_form. do 2 f_equal.
  unfold closed_form, torchscript_part, onnx_part, torch_trt_part, tensorrt_part.
  cbn [target_formats config_target_jit_type target_precisions save_data].
  assert (Hb : forall f, bool_decide (f ∈ tf) = bool_decide (f ∈ tf')).
  { intros f. apply bool_decide_ext, Hmem. }
  rewrite !Hb. reflexivity.
Qed.

Lemma get_pipeline_formats_as_set_witness :
  (forall f, f ∈ [ONNX; TENSORRT] <-> f ∈ [TENSORRT; ONNX; ONNX])
  /\ get_pipeline {| target_formats := [ONNX; TENSORRT];
                     config_target_jit_type := [];
                     target_precisions := []; save_data := true |}
     = get_pipeline {| target_formats := [TENSORRT; ONNX; ONNX];
                       config_target_jit_type := [];
                       target_precisions := []; save_data := true |}.
Proof.
  assert (H : forall f, f ∈ [ONNX; TENSORRT] <-> f ∈ [TENSORRT; ONNX; ONNX]).
  { intros f. rewrite !elem_of_cons, elem_of_nil. tauto. }
  split; [exact H|].
  apply (get_pipeline_formats_as_set _ _ _ _ _ H).
Defined.

Lemma of_class_passes_nil {A} (cls : CommandClass) (pass : nat -> A -> list Command)
    (n : nat) (xs : list A) :
  (forall k x, of_class cls (pass k x) = []) ->
  of_class cls (passes pass n xs) = [].
Proof.
  intros Hp. revert n.
  induction xs as [|x xs IH]; intros n; [reflexivity|].
  cbn [passes]. now rewrite of_class_app, Hp, IH.
Qed.

Lemma of_class_dump_nil (b : bool) (n : nat) :
  of_class ExportPYT2ONNX (if b then dump_commands n else []) = [].
Proof. destruct b; reflexivity. Qed.

(** X23: a pipeline never holds two ONNX exports. It holds one exactly
    when ONNX or TensorRT is among the target formats, and none
    otherwise; the export requires the three metadata commands. *)
Theorem get_pipeline_onnx_exports :
  forall config : Config,
    exists p,
      get_pipeline config = Ok p
      /\ (if bool_decide (ONNX ∈ target_formats config)
             || bool_decide (TENSORRT ∈ target_formats config)
          then exists n, of_class ExportPYT2ONNX (commands p) = [onnx_export_command n]
          else of_class ExportPYT2ONNX (commands p) = []).
Proof.
  intros config. eexists. split; [apply get_pipeline_closed_form|].
  cbn [commands]. unfold closed_form. cbv zeta.
  set (l1 := metadata_commands ++ torchscript_part config 3).
  set (l2 := l1 ++ onnx_part config (length l1)).
  set (l3 := l2 ++ torch_trt_part config (length l2)).
  rewrite !of_class_app, of_class_dump_nil, app_nil_r.
  assert (H1 : of_class ExportPYT2ONNX l1 = []).
  { unfold l1. rewrite of_class_app. unfold torchscript_part.
    destruct (bool_decide _); [|reflexivity].
    now rewrite of_class_passes_nil. }
  assert (H3 : of_class ExportPYT2ONNX (torch_trt_part config (length l2)) = []).
  { unfold torch_trt_part. destruct (bool_decide _); [|reflexivity].
    now rewrite of_class_passes_nil. }
  unfold l3. rewrite of_class_app, H3, app_nil_r.
  unfold l2. rewrite of_class_app, H1. cbn [app].
  unfold onnx_part, tensorrt_part.
  destruct (bool_decide (ONNX ∈ _)), (bool_decide (TENSORRT ∈ _)); cbn [orb].
  - exists (length l1). rewrite of_class_passes_nil by reflexivity. reflexivity.
  - exists (length l1). reflexivity.
  - eexists. rewrite of_class_app, of_class_passes_nil by reflexivity. reflexivity.
  - reflexivity.
Qed.
